(** * PCInfoCollector: a shallow embedding of [info_collector.py] and [main.py]

    The collectors read the host (process table, environment, exit status and
    output of three shell commands); here the host is an explicit record, a
    Python [dict] is a [gmap string pyval], an exception is the [Err] branch of
    a result type, and a Python [str] is the [string] of its UTF-8 bytes. *)

From Stdlib Require Import ZArith QArith Qpower Qminmax Floats Ascii String List Lia Lqa Bool Sorted.
From stdpp Require Import base option list gmap strings pretty.

Local Open Scope Z_scope.

(** ** Python strings *)

Module PyStr.

Definition is_upper (c : ascii) : bool :=
  let n := N_of_ascii c in (65 <=? n)%N && (n <=? 90)%N.

(** [str.lower] on the code points below 128.  The only code points above
    127 whose lower-case form holds an ASCII letter are U+0130 (to "i"
    followed by U+0307) and U+212A (to "k"); neither can complete an
    occurrence of "systemd", "warning" or "error", so the containment tests
    of [analyze_logs] read the same on the UTF-8 bytes. *)
Definition lower_char (c : ascii) : ascii :=
  if is_upper c then ascii_of_N (N_of_ascii c + 32) else c.

Fixpoint lower (s : string) : string :=
  match s with
  | EmptyString => EmptyString
  | String c t => String (lower_char c) (lower t)
  end.

(** [needle in hay] *)
Fixpoint contains (needle hay : string) : bool :=
  String.prefix needle hay ||
  match hay with
  | EmptyString => false
  | String _ t => contains needle t
  end.

(** White space removed by [str.strip()]: the characters of [str.isspace].
    Below 128 they are U+0009 to U+000D and U+001C to U+0020 ([is_space]);
    the others are U+0085 and U+00A0, two bytes in UTF-8 ([is_space2]), and
    U+1680, U+2000 to U+200A, U+2028, U+2029, U+202F, U+205F and U+3000,
    three bytes ([is_space3]). *)
Definition is_space (c : ascii) : bool :=
  let n := N_of_ascii c in
  ((9 <=? n)%N && (n <=? 13)%N) || ((28 <=? n)%N && (n <=? 32)%N).

Definition is_space2 (c d : ascii) : bool :=
  let d := N_of_ascii d in
  (N_of_ascii c =? 194)%N && ((d =? 133)%N || (d =? 160)%N).

Definition is_space3 (c d e : ascii) : bool :=
  let c := N_of_ascii c in
  let d := N_of_ascii d in
  let e := N_of_ascii e in
  ((c =? 225)%N && (d =? 154)%N && (e =? 128)%N)
  || ((c =? 226)%N && (d =? 128)%N
      && (((128 <=? e)%N && (e <=? 138)%N) || (e =? 168)%N || (e =? 169)%N || (e =? 175)%N))
  || ((c =? 226)%N && (d =? 129)%N && (e =? 159)%N)
  || ((c =? 227)%N && (d =? 128)%N && (e =? 128)%N).

Fixpoint lstrip (s : string) : string :=
  match s with
  | EmptyString => EmptyString
  | String c t =>
      if is_space c then lstrip t
      else
        match t with
        | EmptyString => s
        | String d t' =>
            if is_space2 c d then lstrip t'
            else
              match t' with
              | EmptyString => s
              | String e t'' => if is_space3 c d e then lstrip t'' else s
              end
        end
  end.

(** The text up to the first place from which only white space follows. *)
Fixpoint rstrip (s : string) : string :=
  match s with
  | EmptyString => EmptyString
  | String c t =>
      match lstrip s with
      | EmptyString => EmptyString
      | _ => String c (rstrip t)
      end
  end.

Definition strip (s : string) : string := rstrip (lstrip s).

(** Line boundaries of [str.splitlines()]: LF, CR, CR LF, VT, FF, FS, GS, RS
    and, in UTF-8, U+0085, U+2028 and U+2029. *)
Definition is_linebreak1 (c : ascii) : bool :=
  let n := N_of_ascii c in
  ((10 <=? n)%N && (n <=? 13)%N) || ((28 <=? n)%N && (n <=? 30)%N).

(** [splitlines_go cur s]: [cur] is the current line, reversed. *)
Fixpoint splitlines_go (cur : list ascii) (s : string) : list string :=
  let line := string_of_list_ascii (rev cur) in
  match s with
  | EmptyString => match cur with [] => [] | _ => [line] end
  | String "013" (String "010" t) => line :: splitlines_go [] t
  | String "194" (String "133" t) => line :: splitlines_go [] t
  | String "226" (String "128" (String "168" t)) => line :: splitlines_go [] t
  | String "226" (String "128" (String "169" t)) => line :: splitlines_go [] t
  | String c t =>
      if is_linebreak1 c then line :: splitlines_go [] t
      else splitlines_go (c :: cur) t
  end.

Definition splitlines (s : string) : list string := splitlines_go [] s.

(** [sep.join(parts)] *)
Fixpoint join (sep : string) (parts : list string) : string :=
  match parts with
  | [] => ""
  | [p] => p
  | p :: ps => p +:+ sep +:+ join sep ps
  end.

End PyStr.

(** ** Python floats

    A [float] is an IEEE-754 binary64 number.  A finite non-zero one is kept as
    its exact value [(-1)^neg * m * 2^e] with [m] odd, so that every number has
    one representation; an operation computes the exact rational result and
    rounds it to the nearest binary64 number, ties to even ([round_b64]). *)

Module PyFloat.

Inductive pyfloat :=
| FNaN
| FInf (neg : bool)
| FZero (neg : bool)
| FNum (neg : bool) (m : positive) (e : Z).

Definition signed (neg : bool) (z : Z) : Z := if neg then - z else z.

(** Numerator and denominator of [m * 2^e]. *)
Definition num2 (m : Z) (e : Z) : Z := m * 2 ^ Z.max e 0.
Definition den2 (e : Z) : positive := Z.to_pos (2 ^ Z.max (- e) 0).

(** The exact value of a finite float (0 for the others). *)
Definition fval (x : pyfloat) : Q :=
  match x with
  | FNum s m e => Qmake (signed s (num2 (Zpos m) e)) (den2 e)
  | _ => 0%Q
  end.

(** IEEE comparison: [None] when an operand is NaN. *)
Definition fcompare (x y : pyfloat) : option comparison :=
  match x, y with
  | FNaN, _ | _, FNaN => None
  | FInf sx, FInf sy => Some (if sx then if sy then Eq else Lt else if sy then Gt else Eq)
  | FInf sx, _ => Some (if sx then Lt else Gt)
  | _, FInf sy => Some (if sy then Gt else Lt)
  | _, _ => Some (Qcompare (fval x) (fval y))
  end.

(** [x < y] and [x <= y] *)
Definition fltb (x y : pyfloat) : bool :=
  match fcompare x y with Some Lt => true | _ => false end.
Definition fleb (x y : pyfloat) : bool :=
  match fcompare x y with Some Lt | Some Eq => true | _ => false end.

Definition is_nan (x : pyfloat) : bool :=
  match x with FNaN => true | _ => false end.

(** [n / d] rounded to the nearest integer, ties to the even one. *)
Definition rhe (n : Z) (d : positive) : Z :=
  let q := n / Zpos d in
  let r := n mod Zpos d in
  match 2 * r ?= Zpos d with
  | Lt => q
  | Gt => q + 1
  | Eq => if Z.even q then q else q + 1
  end.

(** [floor (log2 (n / d))] *)
Definition flog2 (n d : positive) : Z :=
  let k := Z.log2 (Zpos n) - Z.log2 (Zpos d) in
  if Zpos d * 2 ^ Z.max k 0 <=? Zpos n * 2 ^ Z.max (- k) 0 then k else k - 1.

(** The binary64 grid at [n / d]: 53 significant bits, least exponent -1074.
    The result [(m, u)] stands for [m * 2^u]. *)
Definition round_mag (n d : positive) : Z * Z :=
  let u := Z.max (flog2 n d - 52) (-1074) in
  (rhe (num2 (Zpos n) (- u)) (d * den2 (- u)), u).

Fixpoint odd_part (m : positive) (e : Z) : positive * Z :=
  match m with
  | xO m' => odd_part m' (e + 1)
  | _ => (m, e)
  end.

(** [(-1)^s * m * 2^u] as a float: infinite from [2^1024] on. *)
Definition mk_float (s : bool) (m u : Z) : pyfloat :=
  match m with
  | Zpos p =>
      if 1024 <=? Z.log2 m + u then FInf s
      else let (m', e') := odd_part p u in FNum s m' e'
  | _ => FZero s
  end.

(** The binary64 number nearest to [(-1)^s * n / d]. *)
Definition round_b64 (s : bool) (n d : positive) : pyfloat :=
  let (m, u) := round_mag n d in mk_float s m u.

(** IEEE division [x / y] for [y] other than zero. *)
Definition fdiv_ieee (x y : pyfloat) : pyfloat :=
  match x, y with
  | FNaN, _ | _, FNaN => FNaN
  | FInf _, FInf _ => FNaN
  | FInf sx, FZero sy | FInf sx, FNum sy _ _ => FInf (xorb sx sy)
  | FZero sx, FInf sy | FNum sx _ _, FInf sy => FZero (xorb sx sy)
  | FZero sx, FZero sy => FNaN
  | FZero sx, FNum sy _ _ => FZero (xorb sx sy)
  | FNum sx _ _, FZero sy => FInf (xorb sx sy)
  | FNum sx mx ex, FNum sy my ey =>
      round_b64 (xorb sx sy)
        (Z.to_pos (num2 (Zpos mx) (ex - ey))) (Z.to_pos (num2 (Zpos my) (ey - ex)))
  end.

(** [round(x, 2)] on a float: the decimal with two places nearest to the
    exact value of [x] (ties to even), then the float nearest to that
    decimal; zeros, infinities and NaN are returned as they are. *)
Definition round2 (x : pyfloat) : pyfloat :=
  match x with
  | FNum s m e =>
      match rhe (num2 (100 * Zpos m) e) (den2 e) with
      | Zpos k => round_b64 s k 100
      | _ => FZero s
      end
  | _ => x
  end.

Definition eqb (x y : pyfloat) : bool :=
  match x, y with
  | FNaN, FNaN => true
  | FInf a, FInf b | FZero a, FZero b => Bool.eqb a b
  | FNum a m e, FNum b m' e' => Bool.eqb a b && (m =? m')%positive && (e =? e')
  | _, _ => false
  end.

End PyFloat.
Export PyFloat(pyfloat(..)).

(** ** [repr] of a float

    [repr(x)] is the shortest decimal that converts back to [x] (the nearest
    to [x] when several of that length do), written in fixed notation when the
    decimal point falls after at most 16 digits and at most 4 zeros follow
    it, in exponent notation otherwise. *)

Module PyRepr.
Import PyFloat.

Definition pow10 (k : Z) : Z := 10 ^ Z.max k 0.

(** The least [p] from [p0] on with [n / d < 10^p]. *)
Fixpoint decpt_from (fuel : nat) (n d p : Z) : Z :=
  match fuel with
  | O => p
  | S fuel' =>
      if n * pow10 (- p) <? d * pow10 p then p
      else decpt_from fuel' n d (p + 1)
  end.

Definition decpt (n d : Z) : Z :=
  decpt_from 8 n d ((Z.log2 n - Z.log2 d - 1) * 30103 / 100000 - 1).

(** [c * 10^sc] converts to [x]. *)
Definition roundtrips (x : pyfloat) (c sc : Z) : bool :=
  match c with
  | Zpos _ =>
      eqb (round_b64 false (Z.to_pos (c * pow10 sc)) (Z.to_pos (pow10 (- sc))))
          x
  | _ => false
  end.

(** The decimal [c * 10^sc] with [ndig] digits that [repr] picks for the
    positive [x = n / d], if one with so few digits exists. *)
Definition digits_at (x : pyfloat) (n d p ndig : Z) : option (Z * Z) :=
  let sc := p - ndig in
  let lo := (n * pow10 (- sc)) / (d * pow10 sc) in
  let hi := lo + 1 in
  match roundtrips x lo sc, roundtrips x hi sc with
  | true, false => Some (lo, sc)
  | false, true => Some (hi, sc)
  | false, false => None
  | true, true =>
      match 2 * n * pow10 (- sc) ?= (2 * lo + 1) * d * pow10 sc with
      | Lt => Some (lo, sc)
      | Gt => Some (hi, sc)
      | Eq => Some (if Z.even lo then lo else hi, sc)
      end
  end.

Fixpoint shortest_from (fuel : nat) (x : pyfloat) (n d p ndig : Z) : Z * Z :=
  match fuel with
  | O => (0, 0)
  | S fuel' =>
      match digits_at x n d p ndig with
      | Some r => r
      | None => shortest_from fuel' x n d p (ndig + 1)
      end
  end.

Fixpoint strip10 (fuel : nat) (c sc : Z) : Z * Z :=
  match fuel with
  | O => (c, sc)
  | S fuel' => if (c mod 10 =? 0) && negb (c =? 0) then strip10 fuel' (c / 10) (sc + 1) else (c, sc)
  end.

Fixpoint zeros (k : nat) : string :=
  match k with O => "" | S k' => String "0" (zeros k') end.

Definition take_str (k : nat) (s : string) : string := String.substring 0 k s.
Definition drop_str (k : nat) (s : string) : string :=
  String.substring k (String.length s - k) s.

(** The digits [ds] with the decimal point after [dp] of them. *)
Definition layout (ds : string) (dp : Z) : string :=
  let k := Z.of_nat (String.length ds) in
  if (-4 <? dp) && (dp <=? 16) then
    if dp <=? 0 then "0." +:+ zeros (Z.to_nat (- dp)) +:+ ds
    else if k <=? dp then ds +:+ zeros (Z.to_nat (dp - k)) +:+ ".0"
    else take_str (Z.to_nat dp) ds +:+ "." +:+ drop_str (Z.to_nat dp) ds
  else
    let ex := dp - 1 in
    let mant := if k =? 1 then ds else take_str 1 ds +:+ "." +:+ drop_str 1 ds in
    let exs := pretty (Z.abs ex) in
    mant +:+ "e" +:+ (if ex <? 0 then "-" else "+") +:+
    (if Z.abs ex <? 10 then "0" else "") +:+ exs.

Definition repr_pos (x : pyfloat) (m : positive) (e : Z) : string :=
  let n := num2 (Zpos m) e in
  let d := Zpos (den2 e) in
  let p := decpt n d in
  let (c0, sc0) := shortest_from 17 x n d p 1 in
  let (c, sc) := strip10 17 c0 sc0 in
  let ds := pretty c in
  layout ds (Z.of_nat (String.length ds) + sc).

Definition repr (x : pyfloat) : string :=
  match x with
  | FNaN => "nan"
  | FInf s => if s then "-inf" else "inf"
  | FZero s => if s then "-0.0" else "0.0"
  | FNum s m e => (if s then "-" else "") +:+ repr_pos (FNum false m e) m e
  end.

End PyRepr.

(** ** Values, exceptions and results *)

#[local] Set Warnings "-register-all".

Inductive pyval :=
| VNone
| VBool (b : bool)
| VInt (z : Z)
| VFloat (f : pyfloat)
| VStr (s : string)
| VTimedelta (days seconds microseconds : Z)
| VList (l : list pyval)
| VDict (d : gmap string pyval).

Inductive exn :=
| CalledProcessError (returncode : Z)
| KeyError (key : string)
| TypeError
| ZeroDivisionError
| OverflowError
| AttributeError
| OSError
| UnicodeDecodeError
| UnicodeEncodeError
| Unmodelled.

Inductive result (A : Type) :=
| Ok (a : A)
| Err (e : exn).
Arguments Ok {A} a.
Arguments Err {A} e.

#[global] Instance result_ret : MRet result := @Ok.
#[global] Instance result_bind : MBind result :=
  fun A B f m => match m with Ok a => f a | Err e => Err e end.

#[global] Instance result_fmap : FMap result :=
  fun A B f m => match m with Ok a => Ok (f a) | Err e => Err e end.

(** [for x in xs] collecting [f x], stopping at the first exception. *)
Fixpoint mapM {A B : Type} (f : A -> result B) (xs : list A) : result (list B) :=
  match xs with
  | [] => Ok []
  | x :: t => y ← f x; ys ← mapM f t; Ok (y :: ys)
  end.

(** ** Numbers *)

Module PyNum.
Import PyFloat.

(** [float(z)]: an [int] too large for a float is an [OverflowError]. *)
Definition of_int (z : Z) : result pyfloat :=
  match z with
  | Z0 => Ok (FZero false)
  | Zpos p | Zneg p =>
      match round_b64 (z <? 0) p 1 with
      | FInf _ => Err OverflowError
      | f => Ok f
      end
  end.

(** [a / b] on two [int]s: the exact quotient, rounded once. *)
Definition int_truediv (a b : Z) : result pyfloat :=
  if b =? 0 then Err ZeroDivisionError
  else
    let s := xorb (a <? 0) (b <? 0) in
    match a with
    | Z0 => Ok (FZero s)
    | _ =>
        match round_b64 s (Z.to_pos (Z.abs a)) (Z.to_pos (Z.abs b)) with
        | FInf _ => Err OverflowError
        | f => Ok f
        end
    end.

(** [x / y] on two [float]s. *)
Definition float_truediv (x y : pyfloat) : result pyfloat :=
  match y with
  | FZero _ => Err ZeroDivisionError
  | _ => Ok (fdiv_ieee x y)
  end.

Inductive num :=
| NInt (z : Z)
| NFloat (f : pyfloat).

(** [bool] is a subclass of [int]. *)
Definition as_num (v : pyval) : option num :=
  match v with
  | VInt z => Some (NInt z)
  | VBool b => Some (NInt (if b then 1 else 0))
  | VFloat f => Some (NFloat f)
  | _ => None
  end.

Definition to_float (n : num) : result pyfloat :=
  match n with
  | NInt z => of_int z
  | NFloat f => Ok f
  end.

(** [a / b] *)
Definition truediv (a b : pyval) : result pyval :=
  match as_num a, as_num b with
  | Some (NInt m), Some (NInt n) => VFloat <$> int_truediv m n
  | Some x, Some y =>
      x' ← to_float x; y' ← to_float y; VFloat <$> float_truediv x' y'
  | _, _ => Err TypeError
  end.

(** [round(v, 2)]: an [int] stays an [int]. *)
Definition round_2 (v : pyval) : result pyval :=
  match as_num v with
  | Some (NFloat x) => Ok (VFloat (round2 x))
  | Some (NInt n) => Ok (VInt n)
  | None => Err TypeError
  end.

(** [1024 ** 3] *)
Definition GiB : Z := 1024 ^ 3.

End PyNum.

(** ** Formatting *)

Module PyFormat.
Import PyFloat.

(** [z] in decimal, padded with zeros to [width] digits ([%02d], [%06d]). *)
Definition zfill (width : nat) (z : Z) : string :=
  let s := pretty z in
  PyRepr.zeros (width - String.length s) +:+ s.

(** [format(x, ".2f")] *)
Definition format_2f (x : pyfloat) : string :=
  let fixed (s : bool) (k : Z) :=
    (if s then "-" else "") +:+ pretty (k / 100) +:+ "." +:+ zfill 2 (k mod 100) in
  match x with
  | FNaN => "nan"
  | FInf s => if s then "-inf" else "inf"
  | FZero s => fixed s 0
  | FNum s m e => fixed s (rhe (num2 (100 * Zpos m) e) (den2 e))
  end.

(** [timedelta(days, seconds, microseconds)]: the constructor normalises
    to [0 <= seconds < 86400] and [0 <= microseconds < 1000000]. *)
Definition timedelta (days seconds microseconds : Z) : pyval :=
  let s := seconds + microseconds / 1000000 in
  VTimedelta (days + s / 86400) (s mod 86400) (microseconds mod 1000000).

(** [str(td)] *)
Definition timedelta_str (days seconds microseconds : Z) : string :=
  let mm := seconds / 60 in
  let s := pretty (mm / 60) +:+ ":" +:+ zfill 2 (mm mod 60) +:+ ":" +:+ zfill 2 (seconds mod 60) in
  let s :=
    if days =? 0 then s
    else pretty days +:+ " day" +:+ (if Z.abs days =? 1 then "" else "s") +:+ ", " +:+ s in
  if microseconds =? 0 then s else s +:+ "." +:+ zfill 6 microseconds.

(** [str(v)], which is what [f"{v}"] interpolates, for the scalars a report
    holds; the text of a list or dict is not modelled. *)
Definition py_str (v : pyval) : option string :=
  match v with
  | VNone => Some "None"
  | VBool b => Some (if b then "True" else "False")
  | VInt z => Some (pretty z)
  | VFloat f => Some (PyRepr.repr f)
  | VStr s => Some s
  | VTimedelta d s us => Some (timedelta_str d s us)
  | VList _ | VDict _ => None
  end.

Definition fmt (v : pyval) : result string :=
  match py_str v with
  | Some s => Ok s
  | None => Err Unmodelled
  end.

End PyFormat.

(** [v[k]] for a string key *)
Definition getitem (v : pyval) (k : string) : result pyval :=
  match v with
  | VDict d =>
      match d !! k with
      | Some x => Ok x
      | None => Err (KeyError k)
      end
  | _ => Err TypeError
  end.

(** [for x in v]: a list gives its items, a dict its keys, a string its
    characters (every one a string). *)
Definition py_iter (v : pyval) : result (list pyval) :=
  match v with
  | VList l => Ok l
  | VDict d => Ok (VStr <$> (map_to_list d).*1)
  | VStr s => Ok ((fun c => VStr (String c "")) <$> list_ascii_of_string s)
  | _ => Err TypeError
  end.

(** ** Dates *)

Record datetime := {
  year : Z; month : Z; day : Z;
  hour : Z; minute : Z; second : Z; microsecond : Z
}.

Module PyDate.

Definition is_leap (y : Z) : bool :=
  (y mod 4 =? 0) && (negb (y mod 100 =? 0) || (y mod 400 =? 0)).

Definition days_before_year (y : Z) : Z :=
  let y1 := y - 1 in y1 * 365 + y1 / 4 - y1 / 100 + y1 / 400.

Definition days_before_month (y m : Z) : Z :=
  nth (Z.to_nat m) [0; 0; 31; 59; 90; 120; 151; 181; 212; 243; 273; 304; 334] 0
  + (if (2 <? m) && is_leap y then 1 else 0).

Definition toordinal (t : datetime) : Z :=
  days_before_year (year t) + days_before_month (year t) (month t) + day t.

(** [a - b] *)
Definition sub (a b : datetime) : pyval :=
  PyFormat.timedelta
    (toordinal a - toordinal b)
    ((second a + minute a * 60 + hour a * 3600) - (second b + minute b * 60 + hour b * 3600))
    (microsecond a - microsecond b).

(** [t.strftime(fmt)] for the two formats of the program, which differ in
    the separator of the time fields.  [%Y] is the year as the C library of
    Linux prints it, in decimal without padding (three digits for the year
    999); the other fields have two digits. *)
Definition strftime (sep : string) (t : datetime) : string :=
  pretty (year t) +:+ "-" +:+ PyFormat.zfill 2 (month t) +:+ "-" +:+
  PyFormat.zfill 2 (day t) +:+ " " +:+ PyFormat.zfill 2 (hour t) +:+ sep +:+
  PyFormat.zfill 2 (minute t) +:+ sep +:+ PyFormat.zfill 2 (second t).

End PyDate.

(** ** The host

    What the collectors read: clock, identity, environment, the tables of
    [psutil] and the three shell commands. *)

(** What [subprocess.check_output(cmd, shell=True, text=True)] met: the shell
    ran and exited with a status, or the call raised before that (the output
    could not be decoded, no shell could be started). *)
Inductive cmd_outcome :=
| Exited (returncode : Z) (stdout : string)
| Raised (e : exn).

Definition check_output (o : cmd_outcome) : result string :=
  match o with
  | Exited rc out => if rc =? 0 then Ok out else Err (CalledProcessError rc)
  | Raised e => Err e
  end.

Record partition := {
  device : string;
  mountpoint : string;
  fstype : string
}.

(** One key of the dict [p.info] of a process.  [process_iter(attrs)] fills
    [info] with the attributes asked for, and puts [None] where it could not
    read one (access denied, a zombie); a key that was not asked for is
    missing. *)
Inductive attr (A : Type) :=
| Missing
| IsNone
| Has (a : A).
Arguments Missing {A}.
Arguments IsNone {A}.
Arguments Has {A} a.

(** [info.get(key, dflt)], the value under the key being an [A]. *)
Definition info_get {A : Type} (inj : A -> pyval) (x : attr A) (dflt : pyval) : pyval :=
  match x with
  | Missing => dflt
  | IsNone => VNone
  | Has a => inj a
  end.

(** [p.info] of one process. *)
Record proc_info := {
  pid : attr Z;
  name : attr string;
  cpu_percent : attr pyfloat;
  memory_percent : attr pyfloat
}.

Record host := {
  now_report : datetime;              (* datetime.now(), first call *)
  now_uptime : datetime;              (* datetime.now(), second call *)
  boot_time : datetime;               (* datetime.fromtimestamp(psutil.boot_time()) *)
  now_save : datetime;                (* datetime.now() in save_report *)
  node : string;                      (* platform.node() *)
  getlogin : result string;           (* os.getlogin() *)
  geteuid : option Z;                 (* os.geteuid(); None: os has no such attribute *)
  system : string;                    (* platform.system() *)
  release : string;                   (* platform.release() *)
  environ : gmap string string;       (* os.environ *)
  xrandr : cmd_outcome;               (* xrandr | grep '*' | awk '{print $1}' *)
  processor : string;                 (* platform.processor() *)
  cpu_freq_max : option pyfloat;      (* psutil.cpu_freq(), its max; None: no table *)
  cpu_count_physical : option Z;      (* psutil.cpu_count(logical=False); None: unknown *)
  cpu_count_logical : option Z;       (* psutil.cpu_count(logical=True) *)
  virtual_memory_total : pyval;
  virtual_memory_used : pyval;
  swap_memory_total : pyval;
  swap_memory_used : pyval;
  disk_partitions : list partition;   (* psutil.disk_partitions(all=False) *)
  disk_usage_free : string -> result pyval;  (* psutil.disk_usage(mountpoint).free *)
  lspci : cmd_outcome;                (* lspci | grep -i vga *)
  process_iter_cpu : list proc_info;  (* process_iter(['pid', 'name', 'cpu_percent']) *)
  process_iter_memory : list proc_info;  (* process_iter(['pid', 'name', 'memory_percent']) *)
  journalctl : cmd_outcome;           (* journalctl --no-pager -o short-iso *)
  write_text : string -> string -> option exn;
    (* with open(name, 'w') as file: file.write(text), in the encoding of the
       locale: the exception it raises, if any *)
  print_line : string -> option exn   (* print(text): the exception it raises, if any *)
}.

(** ** info_collector.py *)

Definition collect_general_info (h : host) : result pyval :=
  user_name ← getlogin h;
  euid ← match geteuid h with Some u => Ok u | None => Err AttributeError end;
  Ok (VDict {[
    "date_time" := VStr (PyDate.strftime ":" (now_report h));
    "pc_name" := VStr (node h);
    "user_name" := VStr user_name;
    "sudo" := VStr (if euid =? 0 then "Yes" else "No");
    "os" := VStr (system h);
    "kernel" := VStr (release h);
    "uptime" := PyDate.sub (now_uptime h) (boot_time h)
  ]}).

(** An [int] or [None] *)
Definition int_or_none (x : option Z) : pyval :=
  match x with
  | Some n => VInt n
  | None => VNone
  end.

(** [s if s else d] on a string *)
Definition str_or (s d : string) : string :=
  match s with
  | EmptyString => d
  | _ => s
  end.

Definition collect_environment_info (h : host) : result pyval :=
  let info : gmap string pyval := ∅ in
  let info := <["desktop_env" := VStr (default "Unknown" (environ h !! "XDG_CURRENT_DESKTOP"))]> info in
  info ←
    match check_output (xrandr h) with
    | Ok out =>
        let xrandr_output := PyStr.strip out in
        Ok (<["resolution" := VStr (str_or xrandr_output "Unknown")]> info)
    | Err (CalledProcessError _) => Ok (<["resolution" := VStr "Unknown"]> info)
    | Err e => Err e
    end;
  let info := <["shell" := VStr (default "Unknown" (environ h !! "SHELL"))]> info in
  Ok (VDict info).

(** [f"{round(b / (1024 ** 3), 2)} GB"] *)
Definition gb_string (b : pyval) : result string :=
  q ← PyNum.truediv b (VInt PyNum.GiB);
  r ← PyNum.round_2 q;
  s ← PyFormat.fmt r;
  Ok (s +:+ " GB").

Definition disk_entry (h : host) (p : partition) : result pyval :=
  free ← disk_usage_free h (mountpoint p);
  free_space ← gb_string free;
  Ok (VDict {[
    "device" := VStr (device p);
    "mountpoint" := VStr (mountpoint p);
    "fstype" := VStr (fstype p);
    "free_space" := VStr free_space
  ]}).

Definition collect_hardware_info (h : host) : result pyval :=
  let info : gmap string pyval := ∅ in
  let info := <["cpu" := VDict {[
    "name" := VStr (processor h);
    "frequency" := VStr (match cpu_freq_max h with
                         | Some f => PyFormat.format_2f f +:+ " MHz"
                         | None => "Unknown"
                         end);
    "cores" := int_or_none (cpu_count_physical h);
    "threads" := int_or_none (cpu_count_logical h)
  ]}]> info in
  total ← gb_string (virtual_memory_total h);
  used ← gb_string (virtual_memory_used h);
  swap_total ← gb_string (swap_memory_total h);
  swap_used ← gb_string (swap_memory_used h);
  let info := <["ram" := VDict {[
    "total" := VStr total;
    "used" := VStr used;
    "swap_total" := VStr swap_total;
    "swap_used" := VStr swap_used
  ]}]> info in
  disks ← mapM (disk_entry h) (disk_partitions h);
  let info := <["disks" := VList disks]> info in
  info ←
    match check_output (lspci h) with
    | Ok out =>
        let lspci_output := PyStr.strip out in
        Ok (<["gpu" := VStr (str_or lspci_output "None")]> info)
    | Err (CalledProcessError _) => Ok (<["gpu" := VStr "None"]> info)
    | Err e => Err e
    end;
  Ok (VDict info).

(** [sorted(xs, key=key, reverse=True)] on keys that are numbers: the
    items in descending order of their keys, items of equal keys in their
    order in [xs]. *)
Fixpoint insert_desc {A : Type} (key : A -> pyfloat) (x : A) (l : list A) : list A :=
  match l with
  | [] => [x]
  | y :: t => if PyFloat.fltb (key x) (key y) then y :: insert_desc key x t else x :: l
  end.

Definition sorted_reverse {A : Type} (key : A -> pyfloat) (xs : list A) : list A :=
  foldr (insert_desc key) [] xs.

Module PySort.
Import PyFloat.

(** The exact value of an [int], for the comparison with a float: Python
    compares the two numbers, not the float nearest to the [int]. *)
Definition exact_int (z : Z) : pyfloat :=
  match z with
  | Z0 => FZero false
  | Zpos p => let (m, e) := odd_part p 0 in FNum false m e
  | Zneg p => let (m, e) := odd_part p 0 in FNum true m e
  end.

(** The place of a key in the order of the numbers; NaN for a key that is
    no number. *)
Definition key_value (v : pyval) : pyfloat :=
  match PyNum.as_num v with
  | Some (PyNum.NInt z) => exact_int z
  | Some (PyNum.NFloat f) => f
  | None => FNaN
  end.

(** A key that is a number other than NaN: such keys are totally ordered. *)
Definition ordered_key (v : pyval) : bool := negb (is_nan (key_value v)).

Definition is_none (v : pyval) : bool :=
  match v with
  | VNone => true
  | _ => false
  end.

(** [sorted(xs, key=key, reverse=True)].  A list of fewer than two items is
    returned without a comparison.  From two items on every key is compared
    with another one: [None] among the keys is a TypeError ([<] between
    [None] and anything), and keys that are numbers other than NaN give the
    stable descending order.  What the merge sort of CPython makes of other
    keys (NaN, which is not ordered, or strings, lists and the like) is left
    out of the model: [Unmodelled]. *)
Definition sorted_reverse_by {A : Type} (key : A -> pyval) (xs : list A) : result (list A) :=
  match xs with
  | [] | [_] => Ok xs
  | _ =>
      if existsb (fun x => is_none (key x)) xs then Err TypeError
      else if forallb (fun x => ordered_key (key x)) xs
           then Ok (sorted_reverse (fun x => key_value (key x)) xs)
           else Err Unmodelled
  end.

End PySort.

Definition cpu_entry (logical_cores : pyval) (p : proc_info) : result pyval :=
  cpu ← PyNum.truediv (info_get VFloat (cpu_percent p) (VInt 0)) logical_cores;
  Ok (VDict {[
    "pid" := info_get VInt (pid p) VNone;
    "name" := info_get VStr (name p) (VStr "Unknown");
    "cpu" := cpu
  ]}).

Definition memory_entry (p : proc_info) : result pyval :=
  memory ← PyNum.round_2 (info_get VFloat (memory_percent p) (VInt 0));
  Ok (VDict {[
    "pid" := info_get VInt (pid p) VNone;
    "name" := info_get VStr (name p) (VStr "Unknown");
    "memory" := memory
  ]}).

Definition top_cpu_processes (procs : list proc_info) : result (list proc_info) :=
  ranking ← PySort.sorted_reverse_by (fun p => info_get VFloat (cpu_percent p) (VInt 0)) procs;
  Ok (take 5 (drop 1 ranking)).

Definition top_memory_processes (procs : list proc_info) : result (list proc_info) :=
  ranking ← PySort.sorted_reverse_by (fun p => info_get VFloat (memory_percent p) (VInt 0)) procs;
  Ok (take 5 ranking).

Definition collect_top_processes (h : host) : result pyval :=
  let logical_cores := int_or_none (cpu_count_logical h) in
  let info : gmap string pyval := ∅ in
  (* the first pass over the process table only primes the CPU counters *)
  top_cpu ← top_cpu_processes (process_iter_cpu h);
  cpu ← mapM (cpu_entry logical_cores) top_cpu;
  let info := <["cpu" := VList cpu]> info in
  top_memory ← top_memory_processes (process_iter_memory h);
  memory ← mapM memory_entry top_memory;
  let info := <["memory" := VList memory]> info in
  Ok (VDict info).

(** [sum(test(x) for x in xs)] *)
Definition sum_bool {A : Type} (test : A -> bool) (xs : list A) : Z :=
  foldr (fun x acc => (if test x then 1 else 0) + acc) 0 xs.

(** The three counters of [analyze_logs], from the lines of the journal. *)
Definition count_markers (log_output : list string) : gmap string pyval :=
  let info : gmap string pyval := ∅ in
  let info := <["success" := VInt (sum_bool
    (fun log => PyStr.contains "systemd" (PyStr.lower log) && PyStr.contains "Started" log)
    log_output)]> info in
  let info := <["warnings" := VInt (sum_bool
    (fun log => PyStr.contains "warning" (PyStr.lower log)) log_output)]> info in
  let info := <["errors" := VInt (sum_bool
    (fun log => PyStr.contains "error" (PyStr.lower log)) log_output)]> info in
  info.

Definition analyze_logs (h : host) : result pyval :=
  match check_output (journalctl h) with
  | Ok out =>
      let log_output := PyStr.splitlines out in
      Ok (VDict (count_markers log_output))
  | Err (CalledProcessError _) =>
      Ok (VDict {[ "success" := VInt 0; "warnings" := VInt 0; "errors" := VInt 0 ]})
  | Err e => Err e
  end.

(** ** The report template

    The f-string of [generate_html_report]: its literal text and, between the
    pieces, the interpolated values in the order Python evaluates them. *)

Definition dq : string := String "034" "".
Definition LF : string := String "010" "".

Fixpoint join_all (parts : list string) : string :=
  match parts with
  | [] => ""
  | p :: t => p +:+ join_all t
  end.

Definition report_parts
  (general_date_time general_pc_name general_user_name general_sudo general_os general_kernel 
   general_uptime environment_desktop_env environment_resolution environment_shell cpu_name 
   cpu_frequency cpu_cores cpu_threads ram_total ram_used ram_swap_total ram_swap_used 
   hardware_gpu disks_html top_cpu_html top_memory_html logs_success logs_warnings 
   logs_errors : string)
  : list string :=
  [
    "
    <!DOCTYPE html>
    <html lang="; dq; "en"; dq;
    ">
    <head>
        <meta charset="; dq; "UTF-8"; dq;
    ">
        <meta name="; dq; "viewport"; dq; " content="; dq;
    "width=device-width, initial-scale=1.0"; dq;
    ">
        <title>Системный отчет</title>
        <style>
            body { font-family: Arial, sans-serif; }
            h1, h2 { color: #333; }
            table { width: 100%; border-collapse: collapse; }
            th, td { border: 1px solid #ccc; padding: 8px; text-align: left; }
            th { background-color: #f4f4f4; }
        </style>
    </head>
    <body>
        <h1>Отчет о системе</h1>
        <h2>Общая информация</h2>
        <table>
            <tr><th>Свойство</th><th>Значение</th></tr>
            <tr><td>Дата и время</td><td>";
    general_date_time;
    "</td></tr>
            <tr><td>Наименование компьютера</td><td>"; general_pc_name;
    "</td></tr>
            <tr><td>Имя пользователя</td><td>"; general_user_name; " (sudo: ";
    general_sudo;
    ")</td></tr>
            <tr><td>Операционная система</td><td>"; general_os;
    "</td></tr>
            <tr><td>Ядро</td><td>"; general_kernel;
    "</td></tr>
            <tr><td>Время работы</td><td>"; general_uptime;
    "</td></tr>
        </table>

        <h2>Информация об окружении</h2>
        <table>
            <tr><th>Свойство</th><th>Значение</th></tr>
            <tr><td>Графическая оболочка</td><td>";
    environment_desktop_env;
    "</td></tr>
            <tr><td>Разрешение экрана</td><td>"; environment_resolution;
    "</td></tr>
            <tr><td>Оболочка</td><td>"; environment_shell;
    "</td></tr>
        </table>

        <h2>Информация об аппаратном обеспечении</h2>
        <table>
            <tr><th>Компонент</th><th>Значение</th></tr>
            <tr><td>Процессор</td><td>";
    cpu_name; " ("; cpu_frequency; "), "; cpu_cores; " ядра(-ер) / "; cpu_threads;
    " потока(-ов)</td></tr>
            <tr><td>Оперативная память</td><td>Всего: "; ram_total;
    ", Использовано: "; ram_used; ", Swap: "; ram_swap_total; " (Использовано: "; ram_swap_used;
    ")</td></tr>
            <tr><td>Видеокарта</td><td>"; hardware_gpu;
    "</td></tr>
        </table>
        <h3>Информация о диске</h3>
        <table>
            <tr><th>Устройство</th><th>Точка монтирования</th><th>Файловая система</th><th>Свободное пространство</th></tr>
            ";
    disks_html;
    "
        </table>

        <h2>Наиболее ресурсоемкие процессы</h2>
        <h3>По использованию процессора</h3>
        <table>
            <tr><th>Идентификатор процесса (PID)</th><th>Наименование</th><th>Использование процессора (%)</th></tr>
            ";
    top_cpu_html;
    "
        </table>
        <h3>По использованию оперативной памяти</h3>
        <table>
            <tr><th>Идентификатор процесса (PID)</th><th>Наименование</th><th>Использование памяти (%)</th></tr>
            ";
    top_memory_html;
    "
        </table>

        <h2>Анализ логов</h2>
        <table>
            <tr><th>Категория</th><th>Количество</th></tr>
            <tr><td>Успехи</td><td>";
    logs_success;
    "</td></tr>
            <tr><td>Предупреждения</td><td>"; logs_warnings;
    "</td></tr>
            <tr><td>Ошибки</td><td>"; logs_errors;
    "</td></tr>
        </table>
    </body>
    </html>
    "
  ].

(** [v[k1][k2]...] *)
Fixpoint getpath (v : pyval) (ks : list string) : result pyval :=
  match ks with
  | [] => Ok v
  | k :: t => x ← getitem v k; getpath x t
  end.

(** [f"{v[k1][k2]...}"] *)
Definition fieldpath (v : pyval) (ks : list string) : result string :=
  x ← getpath v ks; PyFormat.fmt x.

Definition field (v : pyval) (k : string) : result string := fieldpath v [k].

Definition disk_row (disk : pyval) : result string :=
  device ← field disk "device";
  mountpoint ← field disk "mountpoint";
  fstype ← field disk "fstype";
  free_space ← field disk "free_space";
  Ok (join_all ["<tr><td>"; device; "</td><td>"; mountpoint; "</td><td>"; fstype;
                "</td><td>"; free_space; "</td></tr>"]).

Definition process_row (metric : string) (p : pyval) : result string :=
  pid ← field p "pid";
  name ← field p "name";
  value ← field p metric;
  Ok (join_all ["<tr><td>"; pid; "</td><td>"; name; "</td><td>"; value; "%</td></tr>"]).

(** ["".join(row(x) for x in v)] *)
Definition rows_html (row : pyval -> result string) (v : pyval) : result string :=
  items ← py_iter v;
  rows ← mapM row items;
  Ok (join_all rows).

Definition generate_html_report (data : pyval) : result string :=
  disks_html ← getpath data ["hardware"; "disks"] ≫= rows_html disk_row;
  top_cpu_html ← getpath data ["processes"; "cpu"] ≫= rows_html (process_row "cpu");
  top_memory_html ← getpath data ["processes"; "memory"] ≫= rows_html (process_row "memory");
  general_date_time ← fieldpath data ["general"; "date_time"];
  general_pc_name ← fieldpath data ["general"; "pc_name"];
  general_user_name ← fieldpath data ["general"; "user_name"];
  general_sudo ← fieldpath data ["general"; "sudo"];
  general_os ← fieldpath data ["general"; "os"];
  general_kernel ← fieldpath data ["general"; "kernel"];
  general_uptime ← fieldpath data ["general"; "uptime"];
  environment_desktop_env ← fieldpath data ["environment"; "desktop_env"];
  environment_resolution ← fieldpath data ["environment"; "resolution"];
  environment_shell ← fieldpath data ["environment"; "shell"];
  cpu_name ← fieldpath data ["hardware"; "cpu"; "name"];
  cpu_frequency ← fieldpath data ["hardware"; "cpu"; "frequency"];
  cpu_cores ← fieldpath data ["hardware"; "cpu"; "cores"];
  cpu_threads ← fieldpath data ["hardware"; "cpu"; "threads"];
  ram_total ← fieldpath data ["hardware"; "ram"; "total"];
  ram_used ← fieldpath data ["hardware"; "ram"; "used"];
  ram_swap_total ← fieldpath data ["hardware"; "ram"; "swap_total"];
  ram_swap_used ← fieldpath data ["hardware"; "ram"; "swap_used"];
  hardware_gpu ← fieldpath data ["hardware"; "gpu"];
  logs_success ← fieldpath data ["logs"; "success"];
  logs_warnings ← fieldpath data ["logs"; "warnings"];
  logs_errors ← fieldpath data ["logs"; "errors"];
  Ok (join_all (report_parts
        general_date_time general_pc_name general_user_name general_sudo general_os
        general_kernel general_uptime environment_desktop_env environment_resolution
        environment_shell cpu_name cpu_frequency cpu_cores cpu_threads ram_total ram_used
        ram_swap_total ram_swap_used hardware_gpu disks_html top_cpu_html top_memory_html
        logs_success logs_warnings logs_errors)).

(** [filename] of [save_report] *)
Definition report_filename (h : host) : string :=
  PyDate.strftime "_" (now_save h) +:+ ".html".

(** [save_report]: the file it writes, as (name, content), unless opening
    or writing the file raises. *)
Definition save_report (h : host) (html : string) : result (string * string) :=
  let filename := report_filename h in
  match write_text h filename html with
  | Some e => Err e
  | None => Ok (filename, html)
  end.

(** ** main.py *)

(** The aggregate document [all_data]. *)
Definition collect_all (h : host) : result pyval :=
  general_info ← collect_general_info h;
  environment_info ← collect_environment_info h;
  hardware_info ← collect_hardware_info h;
  processes_info ← collect_top_processes h;
  logs_info ← analyze_logs h;
  Ok (VDict {[
    "general" := general_info;
    "environment" := environment_info;
    "hardware" := hardware_info;
    "processes" := processes_info;
    "logs" := logs_info
  ]}).

(** The line [main] prints at its end. *)
Definition saved_message : string := "Отчет сохранен в report.html".

(** [main]: the file written, once the run is through. *)
Definition main (h : host) : result (string * string) :=
  all_data ← collect_all h;
  report_html ← generate_html_report all_data;
  saved ← save_report h report_html;
  match print_line h saved_message with
  | Some e => Err e
  | None => Ok saved
  end.

(** * Specification-side notions *)

(** ** Matching without regard to case

    The specification's "contains, case-insensitive": some position of the
    line carries the marker, letter for letter up to the case of ASCII
    letters.  It compares character by character and lower-cases nothing
    as a whole. *)

Module Spec.

Definition ci_eq (a b : ascii) : bool :=
  Ascii.eqb (PyStr.lower_char a) (PyStr.lower_char b).

Fixpoint ci_prefix (marker line : string) : bool :=
  match marker, line with
  | EmptyString, _ => true
  | String a m, String b l => ci_eq a b && ci_prefix m l
  | String _ _, EmptyString => false
  end.

Fixpoint ci_contains (marker line : string) : bool :=
  ci_prefix marker line ||
  match line with
  | EmptyString => false
  | String _ l => ci_contains marker l
  end.

(** How many lines satisfy [test]. *)
Definition count_lines (test : string -> bool) (lines : list string) : Z :=
  Z.of_nat (length (filter (fun l => test l = true) lines)).

End Spec.

(** ** Sample hosts *)

Definition sample_time : datetime :=
  {| year := 2024; month := 3; day := 1; hour := 12; minute := 30; second := 5;
     microsecond := 0 |}.

Definition sample_boot : datetime :=
  {| year := 2024; month := 2; day := 28; hour := 9; minute := 0; second := 0;
     microsecond := 0 |}.

(** A process as [process_iter(['pid', 'name', 'cpu_percent'])] and as
    [process_iter(['pid', 'name', 'memory_percent'])] list it. *)
Definition cpu_proc (i : Z) (n : string) (cpu : pyfloat) : proc_info :=
  {| pid := Has i; name := Has n; cpu_percent := Has cpu; memory_percent := Missing |}.

Definition memory_proc (i : Z) (n : string) (mem : pyfloat) : proc_info :=
  {| pid := Has i; name := Has n; cpu_percent := Missing; memory_percent := Has mem |}.

(** 12.5, 50.0, 3.0 and 150.0 *)
Definition f12_5 : pyfloat := FNum false 25 (-1).
Definition f50 : pyfloat := FNum false 25 1.
Definition f3 : pyfloat := FNum false 3 0.
Definition f150 : pyfloat := FNum false 75 1.
Definition f100 : pyfloat := FNum false 25 2.

(** A Linux desktop: one display, one disk, three processes, a short journal. *)
Definition sample_host : host := {|
  now_report := sample_time; now_uptime := sample_time; boot_time := sample_boot;
  now_save := sample_time;
  node := "box"; getlogin := Ok "alice"; geteuid := Some 1000;
  system := "Linux"; release := "6.1.0";
  environ := {[ "SHELL" := "/bin/bash" ]};
  xrandr := Exited 0 ("1920x1080" +:+ LF);
  processor := "x86_64"; cpu_freq_max := Some (FNum false 425 3);
  cpu_count_physical := Some 2; cpu_count_logical := Some 4;
  virtual_memory_total := VInt (16 * 1024 ^ 3); virtual_memory_used := VInt (3 * 1024 ^ 3);
  swap_memory_total := VInt 0; swap_memory_used := VInt 0;
  disk_partitions := [ {| device := "/dev/sda1"; mountpoint := "/"; fstype := "ext4" |} ];
  disk_usage_free := fun _ => Ok (VInt (2 * 1024 ^ 3));
  lspci := Exited 0 ("00:02.0 VGA compatible controller: Example" +:+ LF);
  process_iter_cpu := [cpu_proc 1 "init" f3; cpu_proc 7 "report" f50;
                       cpu_proc 9 "editor" f12_5];
  process_iter_memory := [memory_proc 1 "init" f3; memory_proc 7 "report" f12_5;
                          memory_proc 9 "editor" f50];
  journalctl := Exited 0 ("2024-03-01T12:00:00 box systemd[1]: Started Foo." +:+ LF +:+
                          "2024-03-01T12:00:01 box kernel: WARNING: disk error 5" +:+ LF);
  write_text := fun _ _ => None; print_line := fun _ => None
|}.

(** The same machine without a display server, a VGA line and a journal: the
    display pipeline prints nothing and ends with the status 0 of [awk], its
    last command; the other two commands exit with status 1. *)
Definition failing_host : host := {|
  now_report := sample_time; now_uptime := sample_time; boot_time := sample_boot;
  now_save := sample_time;
  node := "box"; getlogin := Ok "alice"; geteuid := Some 0;
  system := "Linux"; release := "6.1.0";
  environ := ∅;
  xrandr := Exited 0 "";
  processor := ""; cpu_freq_max := None;
  cpu_count_physical := None; cpu_count_logical := Some 4;
  virtual_memory_total := VInt (16 * 1024 ^ 3); virtual_memory_used := VInt (3 * 1024 ^ 3);
  swap_memory_total := VInt 0; swap_memory_used := VInt 0;
  disk_partitions := [];
  disk_usage_free := fun _ => Err OSError;
  lspci := Exited 1 "";
  process_iter_cpu := [cpu_proc 1 "init" f3];
  process_iter_memory := [memory_proc 1 "init" f150];
  journalctl := Exited 1 "";
  write_text := fun _ _ => None; print_line := fun _ => None
|}.

(** ** The display pipeline

    [xrandr | grep '*' | awk '{print $1}']: what the pipeline prints, from
    what [xrandr] prints, a listing in ASCII.  [grep] keeps the lines that
    hold an asterisk (the mark of the mode in use) and [awk] prints the first
    blank-separated field of each, one per line. *)

Module Shell.

(** A text of ASCII characters, as [xrandr] prints its listing. *)
Definition is_ascii_text (s : string) : bool :=
  forallb (fun c => (N_of_ascii c <? 128)%N) (list_ascii_of_string s).

(** The lines of a text: pieces ended by LF, and a last piece without one. *)
Fixpoint text_lines_go (cur : list ascii) (s : string) : list string :=
  match s with
  | EmptyString => match cur with [] => [] | _ => [string_of_list_ascii (rev cur)] end
  | String c t =>
      if Ascii.eqb c "010" then string_of_list_ascii (rev cur) :: text_lines_go [] t
      else text_lines_go (c :: cur) t
  end.

Definition text_lines (s : string) : list string := text_lines_go [] s.

Definition is_active (line : string) : bool := PyStr.contains "*" line.

Definition grep_star (lines : list string) : list string :=
  List.filter is_active lines.

Definition is_blank (c : ascii) : bool :=
  Ascii.eqb c " " || Ascii.eqb c "009".

Fixpoint take_field (s : string) : string :=
  match s with
  | EmptyString => EmptyString
  | String c t => if is_blank c then EmptyString else String c (take_field t)
  end.

(** [$1] of [awk]: the first run of characters other than blanks. *)
Fixpoint first_field (line : string) : string :=
  match line with
  | EmptyString => EmptyString
  | String c t => if is_blank c then first_field t else take_field line
  end.

Fixpoint print_lines (lines : list string) : string :=
  match lines with
  | [] => ""
  | l :: t => l +:+ LF +:+ print_lines t
  end.

Definition xrandr_pipeline (listing : string) : string :=
  print_lines (first_field <$> grep_star (text_lines listing)).

End Shell.

(** What [xrandr] prints with one display connected. *)
Definition sample_listing : string :=
  "Screen 0: minimum 320 x 200, current 1920 x 1080, maximum 16384 x 16384" +:+ LF +:+
  "eDP-1 connected primary 1920x1080+0+0 344mm x 194mm" +:+ LF +:+
  "   1920x1080     60.02*+  59.97" +:+ LF +:+
  "   1280x720      60.00    59.99" +:+ LF.

(** ** What the process rankings promise *)

Module Ranking.

(** Every process of the table has its percentage, a float that is no NaN:
    the table [psutil] lists when it could read every process. *)
Definition measured (percent : proc_info -> attr pyfloat) (table : list proc_info) : Prop :=
  Forall (fun p => exists x, percent p = Has x /\ PyFloat.is_nan x = false) table.

(** [p] stands before [q] in a descending order of the percentages: the
    percentage of [q] is at most that of [p]. *)
Definition before (percent : proc_info -> attr pyfloat) (p q : proc_info) : Prop :=
  exists x y, percent p = Has x /\ percent q = Has y /\ PyFloat.fleb y x = true.

(** [v] is the entry reported for process [p] in the CPU ranking: its pid,
    its name and its raw percentage divided by the float [y] of the count of
    logical cores. *)
Definition cpu_entry_of (y : pyfloat) (p : proc_info) (v : pyval) : Prop :=
  exists x,
    cpu_percent p = Has x
    /\ v = VDict {[ "pid" := info_get VInt (pid p) VNone;
                    "name" := info_get VStr (name p) (VStr "Unknown");
                    "cpu" := VFloat (PyFloat.fdiv_ieee x y) ]}.

(** The number an entry of the memory ranking reports, as a float. *)
Definition reported (v : pyval) : pyfloat :=
  match v with
  | VFloat f => f
  | _ => FZero false
  end.

(** [v] is the entry reported for process [p] in the memory ranking: its pid,
    its name and its raw percentage rounded to two decimals. *)
Definition memory_entry_of (p : proc_info) (v : pyval) : Prop :=
  exists x,
    memory_percent p = Has x
    /\ v = VDict {[ "pid" := info_get VInt (pid p) VNone;
                    "name" := info_get VStr (name p) (VStr "Unknown");
                    "memory" := VFloat (PyFloat.round2 x) ]}.

End Ranking.

(** ** The value of a float

    Notions the proofs about rounding use: powers of two as rationals, the
    value of a mantissa and exponent, and floats placed on the rational line
    with the infinities at plus and minus [2^1024]. *)

Module FloatValue.
Import PyFloat.
Local Open Scope Q_scope.

Definition p2 (k : Z) : Q := (2 # 1) ^ k.
Definition rheq (q : Q) : Z := rhe (Qnum q) (Qden q).

(** The value [m * 2^u] of a mantissa and exponent. *)
Definition qv (mu : Z * Z) : Q := inject_Z (fst mu) * p2 (snd mu).

Definition signedQ (s : bool) (q : Q) : Q := if s then - q else q.

Definition top : Q := p2 1024.

(** A float that is no NaN and, if finite, below [2^1024] in magnitude. *)
Definition valid (x : pyfloat) : Prop :=
  match x with
  | FNaN => False
  | FNum _ m e => inject_Z (Zpos m) * p2 e < top
  | _ => True
  end.

(** The value of a float, the infinities placed at [2^1024]. *)
Definition clamp (x : pyfloat) : Q :=
  match x with
  | FInf s => signedQ s top
  | _ => fval x
  end.

(** [round_b64] extended to a numerator 0. *)
Definition round_z (s : bool) (k : Z) (d : positive) : pyfloat :=
  match k with
  | Zpos p => round_b64 s p d
  | _ => FZero s
  end.

Definition grid (k : Z) (d : positive) : Q :=
  match k with
  | Zpos p => qv (round_mag p d)
  | _ => 0
  end.

Definition hundredths (x : pyfloat) : Z :=
  match x with
  | FNum s m e => rhe (num2 (100 * Zpos m) e) (den2 e)
  | _ => 0
  end.

Definition sign_of (x : pyfloat) : bool :=
  match x with
  | FNum s _ _ | FZero s | FInf s => s
  | FNaN => false
  end.

Definition finite (x : pyfloat) : bool :=
  match x with
  | FNum _ _ _ | FZero _ => true
  | _ => false
  end.

End FloatValue.

(** The memory percentage an entry of the ranking reports. *)
Definition memory_of (v : pyval) : pyfloat :=
  match v with
  | VDict e => match e !! "memory" with Some m => Ranking.reported m | None => FZero false end
  | _ => FZero false
  end.

(** [a] stands before [b] in a non-increasing list of entries. *)
Definition memory_desc (a b : pyval) : Prop :=
  PyFloat.fleb (memory_of b) (memory_of a) = true.

Definition at_most_100 (x : pyfloat) : Prop := PyFloat.fleb x f100 = true.

(** 2.345 * 1024 ** 3 as Python computes it: the float 2517924577.28. *)
Definition f2_345_GiB : pyfloat := FNum false 5280470563091907 (-21).

(** [v] is the entry of partition [p] in the "disks" list of host [h]. *)
Definition disk_entry_of (h : host) (p : partition) (v : pyval) : Prop :=
  exists (e : gmap string pyval) (free : pyval) (s : string),
    v = VDict e
    /\ e !! "device" = Some (VStr (device p))
    /\ e !! "mountpoint" = Some (VStr (mountpoint p))
    /\ e !! "fstype" = Some (VStr (fstype p))
    /\ disk_usage_free h (mountpoint p) = Ok free
    /\ gb_string free = Ok s
    /\ e !! "free_space" = Some (VStr s).

(** ** Reading HTML

    What "well-formed" and "a data row of a table" mean for the report: the
    text is cut into tags and the text between them; every opening tag has
    its closing tag, properly nested (void elements and declarations
    apart); a data row is a [tr] holding [td] cells, read with the text of
    its cells. *)

Module Html.

Inductive raw :=
| RText (s : string)
| RTag (s : string).

Record lexer := {
  in_tag : bool;       (* after a "<" that no ">" has closed *)
  acc : string;        (* the text or tag read so far *)
  done : list raw      (* what was read before, last first *)
}.

(** The text before a tag, be it empty. *)
Definition flush (st : lexer) : list raw := RText (acc st) :: done st.

Definition step (st : lexer) (c : ascii) : option lexer :=
  if in_tag st then
    if Ascii.eqb c ">" then
      Some {| in_tag := false; acc := ""; done := RTag (acc st) :: done st |}
    else if Ascii.eqb c "<" then None
    else Some {| in_tag := true; acc := acc st +:+ String c ""; done := done st |}
  else
    if Ascii.eqb c "<" then Some {| in_tag := true; acc := ""; done := flush st |}
    else Some {| in_tag := false; acc := acc st +:+ String c ""; done := done st |}.

Fixpoint feed (st : lexer) (s : string) : option lexer :=
  match s with
  | EmptyString => Some st
  | String c t =>
      match step st c with
      | Some st' => feed st' t
      | None => None
      end
  end.

Definition start : lexer := {| in_tag := false; acc := ""; done := [] |}.

Definition finish (st : lexer) : option (list raw) :=
  if in_tag st then None else Some (rev (flush st)).

(** The tags and texts of a document; [None] when a "<" is left open or
    stands inside a tag. *)
Definition lex (s : string) : option (list raw) :=
  match feed start s with
  | Some st => finish st
  | None => None
  end.

Inductive token :=
| TText (s : string)
| TOpen (name : string)
| TClose (name : string)
| TVoid (s : string).

(** The name of a tag: its characters up to the first blank. *)
Fixpoint tag_name (s : string) : string :=
  match s with
  | EmptyString => EmptyString
  | String c t => if PyStr.is_space c then EmptyString else String c (tag_name t)
  end.

Definition void_elements : list string :=
  ["area"; "base"; "br"; "col"; "embed"; "hr"; "img"; "input"; "link"; "meta";
   "source"; "track"; "wbr"].

Definition classify (r : raw) : token :=
  match r with
  | RText s => TText s
  | RTag (String "/" n) => TClose (tag_name n)
  | RTag (String "!" _ as s) => TVoid s
  | RTag s =>
      if bool_decide (tag_name s ∈ void_elements) then TVoid s else TOpen (tag_name s)
  end.

Definition tokens (s : string) : option (list token) :=
  fmap (M := option) (fmap (M := list) classify) (lex s).

(** Every closing tag closes the element opened last, and none stays open. *)
Fixpoint balanced_from (open : list string) (ts : list token) : bool :=
  match ts with
  | [] => match open with [] => true | _ => false end
  | TOpen n :: r => balanced_from (n :: open) r
  | TClose n :: r =>
      match open with
      | m :: open' => String.eqb n m && balanced_from open' r
      | [] => false
      end
  | _ :: r => balanced_from open r
  end.

Definition balanced (ts : list token) : bool := balanced_from [] ts.

Definition well_formed (s : string) : Prop :=
  exists ts, tokens s = Some ts /\ balanced ts = true.

(** Reading the tables: the tables closed so far, and inside a table its
    data rows so far, inside a row its cells, inside a cell its text. *)
Record reader := {
  tables : list (list (list string));
  rows : option (list (list string));
  cells : option (list string);
  cell : option string
}.

Definition read (st : reader) (t : token) : reader :=
  match t with
  | TOpen "table" =>
      {| tables := tables st; rows := Some []; cells := None; cell := None |}
  | TClose "table" =>
      {| tables := tables st ++ [default [] (rows st)]; rows := None; cells := None;
         cell := None |}
  | TOpen "tr" =>
      {| tables := tables st; rows := rows st; cells := Some []; cell := None |}
  | TClose "tr" =>
      {| tables := tables st;
         rows := match cells st with
                 | Some (c :: cs) => (fun rs => rs ++ [c :: cs]) <$> rows st
                 | _ => rows st
                 end;
         cells := None; cell := None |}
  | TOpen "td" =>
      {| tables := tables st; rows := rows st; cells := cells st; cell := Some "" |}
  | TClose "td" =>
      {| tables := tables st; rows := rows st;
         cells := match cell st with
                  | Some s => (fun cs => cs ++ [s]) <$> cells st
                  | None => cells st
                  end;
         cell := None |}
  | TText s =>
      {| tables := tables st; rows := rows st; cells := cells st;
         cell := (fun c => c +:+ s) <$> cell st |}
  | _ => st
  end.

(** The data rows of each table of a document, in order. *)
Definition data_rows (ts : list token) : list (list (list string)) :=
  tables (foldl read {| tables := []; rows := None; cells := None; cell := None |} ts).

End Html.

(** ** The report as literal text and interpolated values

    A rendered document seen as its pieces, each marked as text of the
    template ([Lit]) or as an interpolated value ([Hole]); a table body is a
    list of rows of such pieces.  [feed_pieces] reads a document piece by
    piece and takes an interpolated value in one step, as text. *)

Module Pieces.
Import Html.

Inductive atom :=
| Lit (s : string)
| Hole (s : string).

Inductive piece :=
| Atom (a : atom)
| Rows (rs : list (list atom)).

Definition atom_str (a : atom) : string :=
  match a with
  | Lit s | Hole s => s
  end.

Definition atoms_str (l : list atom) : string := join_all (atom_str <$> l).

Definition piece_str (p : piece) : string :=
  match p with
  | Atom a => atom_str a
  | Rows rs => join_all (atoms_str <$> rs)
  end.

Definition pieces_str (ps : list piece) : string := join_all (piece_str <$> ps).

(** No "<" in [s]. *)
Fixpoint plain (s : string) : bool :=
  match s with
  | EmptyString => true
  | String c t => negb (Ascii.eqb c "<") && plain t
  end.

Definition atom_plain (a : atom) : Prop :=
  match a with
  | Lit _ => True
  | Hole v => plain v = true
  end.

Definition piece_plain (p : piece) : Prop :=
  match p with
  | Atom a => atom_plain a
  | Rows rs => Forall (Forall atom_plain) rs
  end.

Definition feed_opt (o : option lexer) (s : string) : option lexer :=
  match o with
  | Some st => feed st s
  | None => None
  end.

Definition feed_atom (o : option lexer) (a : atom) : option lexer :=
  match o, a with
  | Some st, Lit s => feed st s
  | Some st, Hole v =>
      if in_tag st then None
      else Some {| in_tag := false; acc := acc st +:+ v; done := done st |}
  | None, _ => None
  end.

Definition feed_atoms (o : option lexer) (l : list atom) : option lexer :=
  foldl feed_atom o l.

Definition feed_piece (o : option lexer) (p : piece) : option lexer :=
  match p with
  | Atom a => feed_atom o a
  | Rows rs => foldl feed_atoms o rs
  end.

Definition feed_pieces (o : option lexer) (ps : list piece) : option lexer :=
  foldl feed_piece o ps.

End Pieces.

(** The template of [report_parts], piece by piece. *)
Definition report_pieces
  (general_date_time general_pc_name general_user_name general_sudo general_os general_kernel 
   general_uptime environment_desktop_env environment_resolution environment_shell cpu_name 
   cpu_frequency cpu_cores cpu_threads ram_total ram_used ram_swap_total ram_swap_used 
   hardware_gpu logs_success logs_warnings logs_errors : string)
  (disk_rows top_cpu_rows top_memory_rows : list (list Pieces.atom))
  : list Pieces.piece :=
  let L := fun s => Pieces.Atom (Pieces.Lit s) in
  let H := fun s => Pieces.Atom (Pieces.Hole s) in
  let Rows := Pieces.Rows in
  [
    L "
    <!DOCTYPE html>
    <html lang="; L dq; L "en"; L dq;
    L ">
    <head>
        <meta charset="; L dq; L "UTF-8"; L dq;
    L ">
        <meta name="; L dq; L "viewport"; L dq; L " content="; L dq;
    L "width=device-width, initial-scale=1.0"; L dq;
    L ">
        <title>Системный отчет</title>
        <style>
            body { font-family: Arial, sans-serif; }
            h1, h2 { color: #333; }
            table { width: 100%; border-collapse: collapse; }
            th, td { border: 1px solid #ccc; padding: 8px; text-align: left; }
            th { background-color: #f4f4f4; }
        </style>
    </head>
    <body>
        <h1>Отчет о системе</h1>
        <h2>Общая информация</h2>
        <table>
            <tr><th>Свойство</th><th>Значение</th></tr>
            <tr><td>Дата и время</td><td>";
    H general_date_time;
    L "</td></tr>
            <tr><td>Наименование компьютера</td><td>"; H general_pc_name;
    L "</td></tr>
            <tr><td>Имя пользователя</td><td>"; H general_user_name; L " (sudo: ";
    H general_sudo;
    L ")</td></tr>
            <tr><td>Операционная система</td><td>"; H general_os;
    L "</td></tr>
            <tr><td>Ядро</td><td>"; H general_kernel;
    L "</td></tr>
            <tr><td>Время работы</td><td>"; H general_uptime;
    L "</td></tr>
        </table>

        <h2>Информация об окружении</h2>
        <table>
            <tr><th>Свойство</th><th>Значение</th></tr>
            <tr><td>Графическая оболочка</td><td>";
    H environment_desktop_env;
    L "</td></tr>
            <tr><td>Разрешение экрана</td><td>"; H environment_resolution;
    L "</td></tr>
            <tr><td>Оболочка</td><td>"; H environment_shell;
    L "</td></tr>
        </table>

        <h2>Информация об аппаратном обеспечении</h2>
        <table>
            <tr><th>Компонент</th><th>Значение</th></tr>
            <tr><td>Процессор</td><td>";
    H cpu_name; L " ("; H cpu_frequency; L "), "; H cpu_cores; L " ядра(-ер) / "; H cpu_threads;
    L " потока(-ов)</td></tr>
            <tr><td>Оперативная память</td><td>Всего: "; H ram_total;
    L ", Использовано: "; H ram_used; L ", Swap: "; H ram_swap_total; L " (Использовано: ";
    H ram_swap_used;
    L ")</td></tr>
            <tr><td>Видеокарта</td><td>"; H hardware_gpu;
    L "</td></tr>
        </table>
        <h3>Информация о диске</h3>
        <table>
            <tr><th>Устройство</th><th>Точка монтирования</th><th>Файловая система</th><th>Свободное пространство</th></tr>
            ";
    Rows disk_rows;
    L "
        </table>

        <h2>Наиболее ресурсоемкие процессы</h2>
        <h3>По использованию процессора</h3>
        <table>
            <tr><th>Идентификатор процесса (PID)</th><th>Наименование</th><th>Использование процессора (%)</th></tr>
            ";
    Rows top_cpu_rows;
    L "
        </table>
        <h3>По использованию оперативной памяти</h3>
        <table>
            <tr><th>Идентификатор процесса (PID)</th><th>Наименование</th><th>Использование памяти (%)</th></tr>
            ";
    Rows top_memory_rows;
    L "
        </table>

        <h2>Анализ логов</h2>
        <table>
            <tr><th>Категория</th><th>Количество</th></tr>
            <tr><td>Успехи</td><td>";
    H logs_success;
    L "</td></tr>
            <tr><td>Предупреждения</td><td>"; H logs_warnings;
    L "</td></tr>
            <tr><td>Ошибки</td><td>"; H logs_errors;
    L "</td></tr>
        </table>
    </body>
    </html>
    "
  ].

Definition disk_row_atoms (device mountpoint fstype free_space : string)
  : list Pieces.atom :=
  [Pieces.Lit "<tr><td>"; Pieces.Hole device; Pieces.Lit "</td><td>"; Pieces.Hole mountpoint;
   Pieces.Lit "</td><td>"; Pieces.Hole fstype; Pieces.Lit "</td><td>"; Pieces.Hole free_space;
   Pieces.Lit "</td></tr>"].

Definition process_row_atoms (pid name value : string) : list Pieces.atom :=
  [Pieces.Lit "<tr><td>"; Pieces.Hole pid; Pieces.Lit "</td><td>"; Pieces.Hole name;
   Pieces.Lit "</td><td>"; Pieces.Hole value; Pieces.Lit "%</td></tr>"].

(** The scalar fields the template interpolates, in its order. *)
Definition report_fields : list (list string) :=
  [ ["general"; "date_time"]; ["general"; "pc_name"]; ["general"; "user_name"];
    ["general"; "sudo"]; ["general"; "os"]; ["general"; "kernel"]; ["general"; "uptime"];
    ["environment"; "desktop_env"]; ["environment"; "resolution"]; ["environment"; "shell"];
    ["hardware"; "cpu"; "name"]; ["hardware"; "cpu"; "frequency"];
    ["hardware"; "cpu"; "cores"]; ["hardware"; "cpu"; "threads"];
    ["hardware"; "ram"; "total"]; ["hardware"; "ram"; "used"];
    ["hardware"; "ram"; "swap_total"]; ["hardware"; "ram"; "swap_used"];
    ["hardware"; "gpu"];
    ["logs"; "success"]; ["logs"; "warnings"]; ["logs"; "errors"] ].

(** [values] are the texts of the fields [keys] of [v], one for one. *)
Definition has_fields (v : pyval) (keys : list (list string)) (values : list string) : Prop :=
  Forall2 (fun path s => fieldpath v path = Ok s) keys values.

Definition all_plain (values : list string) : Prop :=
  Forall (fun s => Pieces.plain s = true) values.

(** The scenario of the round trip: one disk, one process in each ranking,
    logs 3 / 1 / 0. *)
Definition scenario_doc (process_name : string) : pyval :=
  VDict {[
    "general" := VDict {[
      "date_time" := VStr "2024-03-01 12:30:05"; "pc_name" := VStr "box";
      "user_name" := VStr "alice"; "sudo" := VStr "No"; "os" := VStr "Linux";
      "kernel" := VStr "6.1.0"; "uptime" := VTimedelta 2 12605 0 ]};
    "environment" := VDict {[
      "desktop_env" := VStr "GNOME"; "resolution" := VStr "1920x1080";
      "shell" := VStr "/bin/bash" ]};
    "hardware" := VDict {[
      "cpu" := VDict {[ "name" := VStr "x86_64"; "frequency" := VStr "3400.00 MHz";
                        "cores" := VInt 2; "threads" := VInt 4 ]};
      "ram" := VDict {[ "total" := VStr "16.0 GB"; "used" := VStr "3.0 GB";
                        "swap_total" := VStr "0.0 GB"; "swap_used" := VStr "0.0 GB" ]};
      "disks" := VList [ VDict {[ "device" := VStr "/dev/sda1"; "mountpoint" := VStr "/";
                                  "fstype" := VStr "ext4"; "free_space" := VStr "2.0 GB" ]} ];
      "gpu" := VStr "None" ]};
    "processes" := VDict {[
      "cpu" := VList [ VDict {[ "pid" := VInt 9; "name" := VStr process_name;
                                "cpu" := VFloat f12_5 ]} ];
      "memory" := VList [ VDict {[ "pid" := VInt 9; "name" := VStr process_name;
                                   "memory" := VFloat f3 ]} ] ]};
    "logs" := VDict {[ "success" := VInt 3; "warnings" := VInt 1; "errors" := VInt 0 ]}
  ]}.

(** ** The shape of the aggregate document *)

(** The "resolution" and "gpu" values a command outcome leads to, and the
    record of the journal. *)
Definition resolution_of (o : cmd_outcome) : string :=
  match o with
  | Exited 0 out => str_or (PyStr.strip out) "Unknown"
  | _ => "Unknown"
  end.

Definition gpu_of (o : cmd_outcome) : string :=
  match o with
  | Exited 0 out => str_or (PyStr.strip out) "None"
  | _ => "None"
  end.

Definition logs_of (o : cmd_outcome) : gmap string pyval :=
  match o with
  | Exited 0 out => count_markers (PyStr.splitlines out)
  | _ => {[ "success" := VInt 0; "warnings" := VInt 0; "errors" := VInt 0 ]}
  end.

(** A disk entry, a CPU entry, a memory entry as the renderer needs them:
    a dict with the fields of its row, each a scalar. *)
Definition row_ready (keys : list string) (v : pyval) : Prop :=
  Forall (fun k => exists s, field v k = Ok s) keys.

(** The sample machine on a platform whose [os] module has no [geteuid]. *)
Definition no_geteuid_host : host := {|
  now_report := sample_time; now_uptime := sample_time; boot_time := sample_boot;
  now_save := sample_time;
  node := "box"; getlogin := Ok "alice"; geteuid := None;
  system := "Windows"; release := "10";
  environ := ∅;
  xrandr := Exited 1 "";
  processor := ""; cpu_freq_max := None;
  cpu_count_physical := Some 2; cpu_count_logical := Some 4;
  virtual_memory_total := VInt (16 * 1024 ^ 3); virtual_memory_used := VInt (3 * 1024 ^ 3);
  swap_memory_total := VInt 0; swap_memory_used := VInt 0;
  disk_partitions := [];
  disk_usage_free := fun _ => Err OSError;
  lspci := Exited 1 "";
  process_iter_cpu := [];
  process_iter_memory := [];
  journalctl := Exited 1 "";
  write_text := fun _ _ => None; print_line := fun _ => None
|}.

(** What [xrandr] prints with two displays connected, each in its mode. *)
Definition two_display_listing : string :=
  "Screen 0: minimum 320 x 200, current 3840 x 1080, maximum 16384 x 16384" +:+ LF +:+
  "eDP-1 connected primary 1920x1080+0+0 344mm x 194mm" +:+ LF +:+
  "   1920x1080     60.02*+  59.97" +:+ LF +:+
  "HDMI-1 connected 1280x1024+1920+0 376mm x 301mm" +:+ LF +:+
  "   1280x1024     60.02*+" +:+ LF +:+
  "   1024x768      60.00" +:+ LF.

(** The sample machine with the second display. *)
Definition two_display_host : host := {|
  now_report := sample_time; now_uptime := sample_time; boot_time := sample_boot;
  now_save := sample_time;
  node := "box"; getlogin := Ok "alice"; geteuid := Some 1000;
  system := "Linux"; release := "6.1.0";
  environ := {[ "SHELL" := "/bin/bash" ]};
  xrandr := Exited 0 (Shell.xrandr_pipeline two_display_listing);
  processor := "x86_64"; cpu_freq_max := Some (FNum false 425 3);
  cpu_count_physical := Some 2; cpu_count_logical := Some 4;
  virtual_memory_total := VInt (16 * 1024 ^ 3); virtual_memory_used := VInt (3 * 1024 ^ 3);
  swap_memory_total := VInt 0; swap_memory_used := VInt 0;
  disk_partitions := [];
  disk_usage_free := fun _ => Err OSError;
  lspci := Exited 1 "";
  process_iter_cpu := [];
  process_iter_memory := [];
  journalctl := Exited 1 "";
  write_text := fun _ _ => None; print_line := fun _ => None
|}.

(** ** The floats of the machine

    The model of binary64 set against Rocq's primitive floats, which are the
    binary64 numbers of the processor: [to_prim] is the primitive float of
    the same value. *)

Module Hardware.
Import PyFloat.

Definition to_prim (x : pyfloat) : PrimFloat.float :=
  match x with
  | FNaN => PrimFloat.nan
  | FInf s => if s then PrimFloat.neg_infinity else PrimFloat.infinity
  | FZero s => if s then PrimFloat.neg_zero else PrimFloat.zero
  | FNum s m e => SF2Prim (S754_finite s m e)
  end.

(** The float nearest to [n / d]. *)
Definition fl (n : Z) (d : positive) : pyfloat :=
  match n with
  | Z0 => FZero false
  | Zpos p => round_b64 false p d
  | Zneg p => round_b64 true p d
  end.

Definition sample_floats : list pyfloat :=
  [ fl 10 1; fl 3 1; fl 1234 10; fl 8 1; fl 1 10; fl 2345 1000; fl (-7) 3; fl 1 3;
    fl 100 1; fl (2 ^ 53 + 1) 1; fl 1 (2 ^ 1074); fl 3 (2 ^ 1074); fl (2 ^ 1023) 1;
    fl 1 (10 ^ 320); fl (10 ^ 308) 1; FZero false; FZero true; FInf false; FInf true;
    fl 5 1000; fl 123456789 1000 ].

Definition sample_pairs : list (pyfloat * pyfloat) :=
  x ← sample_floats; y ← sample_floats; [(x, y)].

End Hardware.

(** ** Gigabytes

    A count of [b] bytes in gigabytes, as the specification has it: the
    float nearest to [b / 1024 ** 3], rounded to two decimals, printed as
    [repr] prints a float, with " GB" after it. *)
Definition gb_text (b : Z) : string :=
  PyRepr.repr (PyFloat.round2 (Hardware.fl b (Z.to_pos (1024 ^ 3)))) +:+ " GB".

(** [v] is the entry of partition [p] in the "disks" list of host [h], the
    free space of [p] being a count of bytes. *)
Definition disk_entry_gb (h : host) (p : partition) (v : pyval) : Prop :=
  exists free : Z,
    disk_usage_free h (mountpoint p) = Ok (VInt free)
    /\ v = VDict {[ "device" := VStr (device p); "mountpoint" := VStr (mountpoint p);
                    "fstype" := VStr (fstype p); "free_space" := VStr (gb_text free) ]}.

(** * Further notions: the run as a whole *)

Module FileName.

Definition valid (t : datetime) : Prop :=
  1000 <= year t <= 9999 /\ 1 <= month t <= 12 /\ 1 <= day t <= 31
  /\ 0 <= hour t <= 23 /\ 0 <= minute t <= 59 /\ 0 <= second t <= 59.

Definition then_compare (c d : comparison) : comparison :=
  match c with Eq => d | _ => c end.

Definition compare_seconds (a b : datetime) : comparison :=
  then_compare (year a ?= year b)
  (then_compare (month a ?= month b)
  (then_compare (day a ?= day b)
  (then_compare (hour a ?= hour b)
  (then_compare (minute a ?= minute b) (second a ?= second b))))).

Definition upto (n : Z) : list Z := seqZ 0 n.

End FileName.

Module Instant.
(** The microseconds from the start of day 0 of the proleptic calendar to [t]. *)
Definition microseconds (t : datetime) : Z :=
  ((PyDate.toordinal t * 86400 + hour t * 3600 + minute t * 60 + second t) * 1000000)
  + microsecond t.
End Instant.
(** The sample machine with a journal that is not valid UTF-8: the call of
    [check_output] raises [UnicodeDecodeError]. *)
Definition undecodable_journal_host : host := {|
  now_report := sample_time; now_uptime := sample_time; boot_time := sample_boot;
  now_save := sample_time;
  node := "box"; getlogin := Ok "alice"; geteuid := Some 1000;
  system := "Linux"; release := "6.1.0";
  environ := {[ "SHELL" := "/bin/bash" ]};
  xrandr := Exited 0 ("1920x1080" +:+ LF);
  processor := "x86_64"; cpu_freq_max := Some (FNum false 425 3);
  cpu_count_physical := Some 2; cpu_count_logical := Some 4;
  virtual_memory_total := VInt (16 * 1024 ^ 3); virtual_memory_used := VInt (3 * 1024 ^ 3);
  swap_memory_total := VInt 0; swap_memory_used := VInt 0;
  disk_partitions := [ {| device := "/dev/sda1"; mountpoint := "/"; fstype := "ext4" |} ];
  disk_usage_free := fun _ => Ok (VInt (2 * 1024 ^ 3));
  lspci := Exited 0 ("00:02.0 VGA compatible controller: Example" +:+ LF);
  process_iter_cpu := [cpu_proc 1 "init" f3];
  process_iter_memory := [memory_proc 1 "init" f3];
  journalctl := Raised UnicodeDecodeError;
  write_text := fun _ _ => None; print_line := fun _ => None
|}.
(** The sample machine with a second partition that [psutil.disk_usage]
    cannot read. *)
Definition unreadable_disk_host : host := {|
  now_report := sample_time; now_uptime := sample_time; boot_time := sample_boot;
  now_save := sample_time;
  node := "box"; getlogin := Ok "alice"; geteuid := Some 1000;
  system := "Linux"; release := "6.1.0";
  environ := {[ "SHELL" := "/bin/bash" ]};
  xrandr := Exited 0 ("1920x1080" +:+ LF);
  processor := "x86_64"; cpu_freq_max := Some (FNum false 425 3);
  cpu_count_physical := Some 2; cpu_count_logical := Some 4;
  virtual_memory_total := VInt (16 * 1024 ^ 3); virtual_memory_used := VInt (3 * 1024 ^ 3);
  swap_memory_total := VInt 0; swap_memory_used := VInt 0;
  disk_partitions := [ {| device := "/dev/sda1"; mountpoint := "/"; fstype := "ext4" |};
                       {| device := "/dev/sr0"; mountpoint := "/media/cdrom";
                          fstype := "iso9660" |} ];
  disk_usage_free := fun m => if String.eqb m "/" then Ok (VInt (2 * 1024 ^ 3)) else Err OSError;
  lspci := Exited 0 ("00:02.0 VGA compatible controller: Example" +:+ LF);
  process_iter_cpu := [cpu_proc 1 "init" f3];
  process_iter_memory := [memory_proc 1 "init" f3];
  journalctl := Exited 0 "";
  write_text := fun _ _ => None; print_line := fun _ => None
|}.
(** [x == y] on floats. *)
Definition float_eq (x y : pyfloat) : bool :=
  match PyFloat.fcompare x y with
  | Some Eq => true
  | _ => false
  end.
(** The percentage of [p] is a float equal to [k]. *)
Definition same_percent (percent : proc_info -> attr pyfloat) (k : pyfloat) (p : proc_info)
  : bool :=
  match percent p with
  | Has x => float_eq x k
  | _ => false
  end.
(** A command whose failure the collectors handle: it exited with some
    status, or the call raised [CalledProcessError] itself. *)
Definition handled (o : cmd_outcome) : Prop :=
  forall e, o = Raised e -> exists rc, e = CalledProcessError rc.

(** A count of bytes as [psutil] gives it: an [int] that is not negative
    (and below [2 ** 1000]). *)
Definition byte_count (v : pyval) : Prop :=
  exists b, v = VInt b /\ 0 <= b < 2 ^ 1000.
(** ** Reading a report while it is lexed

    The reader of tables and the stack of open elements, moved along with
    the lexer: a [view] keeps, instead of the tags and texts read so far,
    what the reader and the stack make of them.  A body of rows is then
    taken in one step, by what its rows add to the table. *)

Module Reading.
Import Html Pieces.

Definition fresh : reader := {| tables := []; rows := None; cells := None; cell := None |}.

(** One step of [balanced_from], on the stack of open elements. *)
Definition bal_step (o : option (list string)) (t : token) : option (list string) :=
  match o with
  | Some open =>
      match t with
      | TOpen n => Some (n :: open)
      | TClose n =>
          match open with
          | m :: open' => if String.eqb n m then Some open' else None
          | [] => None
          end
      | _ => Some open
      end
  | None => None
  end.

Definition reader_of (l : list raw) : reader :=
  foldr (fun r st => read st (classify r)) fresh l.

Definition stack_of (l : list raw) : option (list string) :=
  foldr (fun r o => bal_step o (classify r)) (Some []) l.

Record view := {
  v_in_tag : bool;
  v_acc : string;
  v_reader : reader;
  v_stack : option (list string)
}.

Definition view_of (st : lexer) : view :=
  {| v_in_tag := in_tag st; v_acc := acc st;
     v_reader := reader_of (done st); v_stack := stack_of (done st) |}.

(** The view after the tag or text [r]. *)
Definition emit (v : view) (r : raw) (tag : bool) : view :=
  {| v_in_tag := tag; v_acc := "";
     v_reader := read (v_reader v) (classify r);
     v_stack := bal_step (v_stack v) (classify r) |}.

Definition more (v : view) (s : string) : view :=
  {| v_in_tag := v_in_tag v; v_acc := v_acc v +:+ s;
     v_reader := v_reader v; v_stack := v_stack v |}.

Definition vstep (v : view) (c : ascii) : option view :=
  if v_in_tag v then
    if Ascii.eqb c ">" then Some (emit v (RTag (v_acc v)) false)
    else if Ascii.eqb c "<" then None
    else Some (more v (String c ""))
  else
    if Ascii.eqb c "<" then Some (emit v (RText (v_acc v)) true)
    else Some (more v (String c "")).

Fixpoint vfeed (v : view) (s : string) : option view :=
  match s with
  | EmptyString => Some v
  | String c t =>
      match vstep v c with
      | Some v' => vfeed v' t
      | None => None
      end
  end.

Definition vfeed_atom (o : option view) (a : atom) : option view :=
  match o, a with
  | Some v, Lit s => vfeed v s
  | Some v, Hole x => if v_in_tag v then None else Some (more v x)
  | None, _ => None
  end.

Definition vfeed_atoms (o : option view) (l : list atom) : option view :=
  foldl vfeed_atom o l.

Definition vfeed_piece (o : option view) (p : piece) : option view :=
  match p with
  | Atom a => vfeed_atom o a
  | Rows rs => foldl vfeed_atoms o rs
  end.

Definition vfeed_pieces (o : option view) (ps : list piece) : option view :=
  foldl vfeed_piece o ps.

(** The end of the document: the last text is read too. *)
Definition vfinish (v : view) : option view :=
  if v_in_tag v then None else Some (emit v (RText (v_acc v)) false).

(** The values of one row of a table body. *)
Inductive row :=
| DiskRow (device mountpoint fstype free_space : string)
| ProcessRow (pid name value : string).

Definition row_atoms (r : row) : list atom :=
  match r with
  | DiskRow a b c d => disk_row_atoms a b c d
  | ProcessRow a b c => process_row_atoms a b c
  end.

(** The cells a row shows. *)
Definition row_cells (r : row) : list string :=
  match r with
  | DiskRow a b c d => [a; b; c; d]
  | ProcessRow a b c => [a; b; c +:+ "%"]
  end.

Definition row_plain (r : row) : Prop :=
  match r with
  | DiskRow a b c d => plain a = true /\ plain b = true /\ plain c = true /\ plain d = true
  | ProcessRow a b c => plain a = true /\ plain b = true /\ plain c = true
  end.

(** A body of rows read in one step: inside a table and outside a row,
    the rows are added to the table. *)
Definition rows_step (o : option view) (body : list row) : option view :=
  match o with
  | Some {| v_in_tag := false; v_acc := a;
            v_reader := {| tables := T; rows := Some rs; cells := None; cell := None |};
            v_stack := Some open |} =>
      Some {| v_in_tag := false;
              v_acc := match body with [] => a | _ => "" end;
              v_reader := {| tables := T; rows := Some (rs ++ (row_cells <$> body));
                             cells := None; cell := None |};
              v_stack := Some open |}
  | _ => None
  end.

(** The pieces of a document read with its bodies of rows, in order, each
    taken in one step. *)
Fixpoint read_pieces (o : option view) (ps : list piece) (bodies : list (list row))
  : option view :=
  match ps with
  | [] => o
  | Atom a :: ps' => read_pieces (vfeed_atom o a) ps' bodies
  | Rows _ :: ps' =>
      match bodies with
      | body :: bodies' => read_pieces (rows_step o body) ps' bodies'
      | [] => None
      end
  end.

(** The bodies of rows of [ps] are [bodies], in order. *)
Fixpoint bodies_of (ps : list piece) (bodies : list (list row)) : Prop :=
  match ps with
  | [] => bodies = []
  | Atom _ :: ps' => bodies_of ps' bodies
  | Rows rs :: ps' =>
      match bodies with
      | body :: bodies' => rs = row_atoms <$> body /\ bodies_of ps' bodies'
      | [] => False
      end
  end.

End Reading.

(** A row of a process table as it is shown: the percent sign follows the
    value. *)
Definition with_percent (cells : list string) : list string :=
  match cells with
  | [pid; name; value] => [pid; name; value +:+ "%"]
  | _ => cells
  end.
(** The sample machine two seconds later: the time of a second run. *)
Definition sample_later : datetime :=
  {| year := 2024; month := 3; day := 1; hour := 12; minute := 30; second := 7;
     microsecond := 0 |}.

Definition next_run_host : host := {|
  now_report := sample_later; now_uptime := sample_later; boot_time := sample_boot;
  now_save := sample_later;
  node := "box"; getlogin := Ok "alice"; geteuid := Some 1000;
  system := "Linux"; release := "6.1.0";
  environ := {[ "SHELL" := "/bin/bash" ]};
  xrandr := Exited 0 ("1920x1080" +:+ LF);
  processor := "x86_64"; cpu_freq_max := Some (FNum false 425 3);
  cpu_count_physical := Some 2; cpu_count_logical := Some 4;
  virtual_memory_total := VInt (16 * 1024 ^ 3); virtual_memory_used := VInt (3 * 1024 ^ 3);
  swap_memory_total := VInt 0; swap_memory_used := VInt 0;
  disk_partitions := [ {| device := "/dev/sda1"; mountpoint := "/"; fstype := "ext4" |} ];
  disk_usage_free := fun _ => Ok (VInt (2 * 1024 ^ 3));
  lspci := Exited 0 ("00:02.0 VGA compatible controller: Example" +:+ LF);
  process_iter_cpu := [cpu_proc 1 "init" f3];
  process_iter_memory := [memory_proc 1 "init" f3];
  journalctl := Exited 0 "";
  write_text := fun _ _ => None; print_line := fun _ => None
|}.

(** A document with two disks, no process in the CPU ranking and two in
    the memory ranking. *)
Definition rows_doc : pyval :=
  VDict {[
    "general" := VDict {[
      "date_time" := VStr "2024-03-01 12:30:05"; "pc_name" := VStr "box";
      "user_name" := VStr "alice"; "sudo" := VStr "No"; "os" := VStr "Linux";
      "kernel" := VStr "6.1.0"; "uptime" := VTimedelta 2 12605 0 ]};
    "environment" := VDict {[
      "desktop_env" := VStr "GNOME"; "resolution" := VStr "1920x1080";
      "shell" := VStr "/bin/bash" ]};
    "hardware" := VDict {[
      "cpu" := VDict {[ "name" := VStr "x86_64"; "frequency" := VStr "3400.00 MHz";
                        "cores" := VInt 2; "threads" := VInt 4 ]};
      "ram" := VDict {[ "total" := VStr "16.0 GB"; "used" := VStr "3.0 GB";
                        "swap_total" := VStr "0.0 GB"; "swap_used" := VStr "0.0 GB" ]};
      "disks" := VList [ VDict {[ "device" := VStr "/dev/sda1"; "mountpoint" := VStr "/";
                                  "fstype" := VStr "ext4"; "free_space" := VStr "2.0 GB" ]};
                         VDict {[ "device" := VStr "/dev/sdb1"; "mountpoint" := VStr "/home";
                                  "fstype" := VStr "ext4"; "free_space" := VStr "0.12 GB" ]} ];
      "gpu" := VStr "None" ]};
    "processes" := VDict {[
      "cpu" := VList [];
      "memory" := VList [ VDict {[ "pid" := VInt 9; "name" := VStr "editor";
                                   "memory" := VFloat f50 ]};
                          VDict {[ "pid" := VInt 1; "name" := VStr "init";
                                   "memory" := VFloat f3 ]} ] ]};
    "logs" := VDict {[ "success" := VInt 3; "warnings" := VInt 1; "errors" := VInt 0 ]}
  ]}.
(** A host none of whose texts that reach the report holds a "<": the names
    and the release of the system, the user name, the two variables of the
    environment, what the two commands print with status 0, the fields of
    the partitions and the names of the processes. *)
Definition plain_host (h : host) : Prop :=
  Pieces.plain (node h) = true
  /\ (forall user, getlogin h = Ok user -> Pieces.plain user = true)
  /\ Pieces.plain (system h) = true
  /\ Pieces.plain (release h) = true
  /\ (forall v, environ h !! "XDG_CURRENT_DESKTOP" = Some v -> Pieces.plain v = true)
  /\ (forall v, environ h !! "SHELL" = Some v -> Pieces.plain v = true)
  /\ (forall out, xrandr h = Exited 0 out -> Pieces.plain out = true)
  /\ Pieces.plain (processor h) = true
  /\ (forall out, lspci h = Exited 0 out -> Pieces.plain out = true)
  /\ Forall (fun p => Pieces.plain (device p) = true /\ Pieces.plain (mountpoint p) = true
                      /\ Pieces.plain (fstype p) = true) (disk_partitions h)
  /\ Forall (fun p => forall n, name p = Has n -> Pieces.plain n = true) (process_iter_cpu h)
  /\ Forall (fun p => forall n, name p = Has n -> Pieces.plain n = true)
       (process_iter_memory h).

(** The row of the disk table for partition [p] of host [h]. *)
Definition disk_row_of (h : host) (p : partition) (cells : list string) : Prop :=
  exists free,
    cells = [device p; mountpoint p; fstype p; free]
    /\ (disk_usage_free h (mountpoint p) ≫= gb_string) = Ok free.

(** The row of a process table for process [p], its value being [value]:
    the pid, the name and the value as [str] prints them, a percent sign
    after the value. *)
Definition process_row_of (value : pyfloat) (p : proc_info) (cells : list string) : Prop :=
  exists pid_text name_text,
    cells = [pid_text; name_text; PyRepr.repr value +:+ "%"]
    /\ PyFormat.py_str (info_get VInt (pid p) VNone) = Some pid_text
    /\ PyFormat.py_str (info_get VStr (name p) (VStr "Unknown")) = Some name_text.

(** The row of the CPU table for process [p]: the value is the percentage
    of [p] divided by the float of the count of logical cores. *)
Definition cpu_row_of (h : host) (p : proc_info) (cells : list string) : Prop :=
  exists x n y,
    cpu_percent p = Has x /\ cpu_count_logical h = Some n /\ PyNum.of_int n = Ok y
    /\ process_row_of (PyFloat.fdiv_ieee x y) p cells.

(** The row of the memory table for process [p]: the value is the
    percentage of [p] rounded to two decimals. *)
Definition memory_row_of (p : proc_info) (cells : list string) : Prop :=
  exists x, memory_percent p = Has x /\ process_row_of (PyFloat.round2 x) p cells.

(** * Properties *)

(** ** Strings *)

Lemma prefix_lower (marker line : string) :
  String.prefix (PyStr.lower marker) (PyStr.lower line) = Spec.ci_prefix marker line.
Proof.
  revert line; induction marker as [|a m IH]; intros [|b l]; simpl; try reflexivity.
  unfold Spec.ci_eq.
  destruct (ascii_dec (PyStr.lower_char a) (PyStr.lower_char b)) as [E|E].
  - rewrite E, Ascii.eqb_refl. apply IH.
  - apply Ascii.eqb_neq in E. rewrite E. reflexivity.
Qed.

(** Lower-casing the line and searching it is searching it without regard
    to case. *)
Lemma contains_lower (marker line : string) :
  PyStr.contains (PyStr.lower marker) (PyStr.lower line) = Spec.ci_contains marker line.
Proof.
  induction line as [|b l IH].
  - cbn [PyStr.lower PyStr.contains Spec.ci_contains].
    f_equal. apply (prefix_lower marker "").
  - cbn [PyStr.lower PyStr.contains Spec.ci_contains].
    rewrite <- IH. f_equal. apply (prefix_lower marker (String b l)).
Qed.

Lemma sum_bool_count (test : string -> bool) (lines : list string) :
  sum_bool test lines = Spec.count_lines test lines.
Proof.
  unfold Spec.count_lines.
  induction lines as [|l t IH]; [reflexivity|].
  cbn [sum_bool foldr]. fold (sum_bool test t). rewrite IH.
  destruct (test l) eqn:E.
  - rewrite filter_cons_True by exact E. cbn [length]. lia.
  - rewrite filter_cons_False by (rewrite E; discriminate). lia.
Qed.

Lemma sum_bool_ext (f g : string -> bool) (lines : list string) :
  (forall l, f l = g l) -> sum_bool f lines = sum_bool g lines.
Proof.
  intros E. induction lines as [|l t IH]; [reflexivity|].
  cbn [sum_bool foldr]. fold (sum_bool f t) (sum_bool g t). rewrite IH, E. reflexivity.
Qed.

(** ** analyze_logs *)

(** C2, as the code has it: for every list of log lines the success count is
    the number of lines that contain "systemd" in any case and "Started" in
    exactly this case; the warning count the number of lines that contain
    "warning" in any case; the error count the number of lines that contain
    "error" in any case.  Each count runs over all the lines, so one line
    can add to all three, and [analyze_logs] returns these counts for the
    lines of the journal whenever the command exits with status 0. *)
Theorem analyze_logs_counts (log_output : list string) :
  count_markers log_output !! "success" =
    Some (VInt (Spec.count_lines
      (fun l => Spec.ci_contains "systemd" l && PyStr.contains "Started" l) log_output))
  /\ count_markers log_output !! "warnings" =
    Some (VInt (Spec.count_lines (Spec.ci_contains "warning") log_output))
  /\ count_markers log_output !! "errors" =
    Some (VInt (Spec.count_lines (Spec.ci_contains "error") log_output))
  /\ (exists l,
        count_markers [l] !! "success" = Some (VInt 1)
        /\ count_markers [l] !! "warnings" = Some (VInt 1)
        /\ count_markers [l] !! "errors" = Some (VInt 1))
  /\ (forall h out, journalctl h = Exited 0 out ->
        analyze_logs h = Ok (VDict (count_markers (PyStr.splitlines out)))).
Proof.
  unfold count_markers.
  repeat split.
  - rewrite lookup_insert_ne by discriminate. rewrite lookup_insert_ne by discriminate.
    rewrite lookup_insert_eq. rewrite <- sum_bool_count. do 2 f_equal.
    apply sum_bool_ext. intros l. rewrite <- contains_lower. reflexivity.
  - rewrite lookup_insert_ne by discriminate. rewrite lookup_insert_eq.
    rewrite <- sum_bool_count. do 2 f_equal.
    apply sum_bool_ext. intros l. rewrite <- contains_lower. reflexivity.
  - rewrite lookup_insert_eq.
    rewrite <- sum_bool_count. do 2 f_equal.
    apply sum_bool_ext. intros l. rewrite <- contains_lower. reflexivity.
  - exists "systemd[1]: Started logger: WARNING: Error 5". repeat split.
  - intros h out Hj. unfold analyze_logs. rewrite Hj. reflexivity.
Qed.

(** C2 as the specification words it, with "Started" also matched in any
    case, fails: a line with "started" in lower case is no success. *)
Lemma analyze_logs_started_exact :
  ~ (forall log_output,
       count_markers log_output !! "success" =
         Some (VInt (Spec.count_lines
           (fun l => Spec.ci_contains "systemd" l && Spec.ci_contains "Started" l)
           log_output))).
Proof.
  intros H. specialize (H ["box systemd[1]: started session 3"]).
  vm_compute in H. discriminate.
Qed.

(** C3: when the journal command exits with a status other than 0,
    [analyze_logs] returns the three counts at 0 and raises nothing. *)
Theorem analyze_logs_nonzero_exit (h : host) (rc : Z) (out : string) :
  journalctl h = Exited rc out -> rc <> 0 ->
  analyze_logs h = Ok (VDict {[ "success" := VInt 0; "warnings" := VInt 0; "errors" := VInt 0 ]}).
Proof.
  intros Hj Hrc. unfold analyze_logs, check_output. rewrite Hj.
  destruct (Z.eqb_spec rc 0); [contradiction | reflexivity].
Qed.

Lemma analyze_logs_nonzero_exit_witness :
  analyze_logs failing_host
  = Ok (VDict {[ "success" := VInt 0; "warnings" := VInt 0; "errors" := VInt 0 ]}).
Proof.
  apply (analyze_logs_nonzero_exit failing_host 1 ""); [reflexivity | discriminate].
Defined.

(** ** collect_environment_info *)

Lemma append_cons (c : ascii) (s t : string) : String c s +:+ t = String c (s +:+ t).
Proof. reflexivity. Qed.

Lemma space2_LF (c : ascii) : PyStr.is_space2 c "010" = false.
Proof. unfold PyStr.is_space2. cbn. apply andb_false_r. Qed.

Lemma space3_LF (c d : ascii) : PyStr.is_space3 c d "010" = false.
Proof.
  unfold PyStr.is_space3. cbn. rewrite !andb_false_r. reflexivity.
Qed.

Lemma space2_not_LF (d : ascii) : PyStr.is_space2 "010" d = false.
Proof. reflexivity. Qed.

Lemma lstrip_1 (c : ascii) :
  PyStr.lstrip (String c "") = if PyStr.is_space c then "" else String c "".
Proof. reflexivity. Qed.

Lemma lstrip_2 (c d : ascii) :
  PyStr.lstrip (String c (String d "")) =
  if PyStr.is_space c then PyStr.lstrip (String d "")
  else if PyStr.is_space2 c d then "" else String c (String d "").
Proof. reflexivity. Qed.

Lemma lstrip_3 (c d e : ascii) (t : string) :
  PyStr.lstrip (String c (String d (String e t))) =
  if PyStr.is_space c then PyStr.lstrip (String d (String e t))
  else if PyStr.is_space2 c d then PyStr.lstrip (String e t)
  else if PyStr.is_space3 c d e then PyStr.lstrip t
  else String c (String d (String e t)).
Proof. reflexivity. Qed.

(** A line feed after a text is stripped with the white space before it. *)
Lemma lstrip_app_LF (s : string) :
  PyStr.lstrip (s +:+ LF) =
  match PyStr.lstrip s with
  | EmptyString => EmptyString
  | r => r +:+ LF
  end.
Proof.
  remember (String.length s) as n eqn:Hn. revert s Hn.
  induction n as [n IH] using lt_wf_ind. intros s Hn.
  destruct s as [|c [|d [|e t]]].
  - reflexivity.
  - change (String c "" +:+ LF) with (String c (String "010" "")).
    rewrite lstrip_2, (lstrip_1 c), space2_LF.
    destruct (PyStr.is_space c); reflexivity.
  - change (String c (String d "") +:+ LF) with (String c (String d (String "010" ""))).
    rewrite lstrip_3, (lstrip_2 c d), space3_LF.
    destruct (PyStr.is_space c).
    + refine (IH _ _ (String d "") eq_refl); subst n; cbn; lia.
    + destruct (PyStr.is_space2 c d); reflexivity.
  - change (String c (String d (String e t)) +:+ LF)
      with (String c (String d (String e (t +:+ LF)))).
    rewrite (lstrip_3 c d e t), (lstrip_3 c d e (t +:+ LF)).
    destruct (PyStr.is_space c).
    + refine (IH _ _ (String d (String e t)) eq_refl); subst n; cbn; lia.
    + destruct (PyStr.is_space2 c d).
      * refine (IH _ _ (String e t) eq_refl); subst n; cbn; lia.
      * destruct (PyStr.is_space3 c d e); [|reflexivity].
        refine (IH _ _ t eq_refl); subst n; cbn; lia.
Qed.

Lemma rstrip_app_LF (s : string) : PyStr.rstrip (s +:+ LF) = PyStr.rstrip s.
Proof.
  induction s as [|c t IH]; [reflexivity|].
  rewrite append_cons. cbn [PyStr.rstrip]. rewrite <- append_cons, lstrip_app_LF, IH.
  destruct (PyStr.lstrip (String c t)); reflexivity.
Qed.

Lemma strip_app_LF (s : string) : PyStr.strip (s +:+ LF) = PyStr.strip s.
Proof.
  unfold PyStr.strip. rewrite lstrip_app_LF.
  destruct (PyStr.lstrip s) as [|c t] eqn:E; [reflexivity|].
  apply rstrip_app_LF.
Qed.

(** No-break space, line feed: nothing but white space. *)
Example strip_unicode_space :
  PyStr.strip (String "194" (String "160" LF)) = ""
  /\ PyStr.strip (String "227" (String "128" (String "128" "a b")) +:+ String "226" (String "128" (String "137" ""))) = "a b"
  /\ PyStr.strip (String "194" (String "161" "")) = String "194" (String "161" "").
Proof. repeat split. Qed.

(** The field, whatever the display command did. *)
Lemma environment_resolution_field (h : host) (rc : Z) (out : string) :
  xrandr h = Exited rc out ->
  exists d, collect_environment_info h = Ok (VDict d)
    /\ d !! "resolution" =
         Some (VStr (if rc =? 0 then str_or (PyStr.strip out) "Unknown" else "Unknown")).
Proof.
  intros Hx. unfold collect_environment_info, check_output. rewrite Hx.
  destruct (rc =? 0); eexists; (split; [reflexivity|]);
    rewrite lookup_insert_ne by discriminate; apply lookup_insert_eq.
Qed.

(** C6, as the code has it: the "resolution" field is there in every case.
    It is "Unknown" when the display command exits with a status other than
    0 and when its output is empty once stripped of white space (that of
    Unicode included); otherwise it is the stripped output of the pipeline,
    one first field for each active-mode line that [xrandr] lists, and with
    exactly one such line the stripped first field of this line. *)
Theorem environment_resolution (h : host) (rc : Z) (out : string) :
  xrandr h = Exited rc out ->
  exists d, collect_environment_info h = Ok (VDict d)
    /\ (rc <> 0 \/ PyStr.strip out = "" -> d !! "resolution" = Some (VStr "Unknown"))
    /\ (rc = 0 -> PyStr.strip out <> "" ->
        d !! "resolution" = Some (VStr (PyStr.strip out))
        /\ forall listing line,
             Shell.is_ascii_text listing = true ->
             out = Shell.xrandr_pipeline listing ->
             Shell.grep_star (Shell.text_lines listing) = [line] ->
             d !! "resolution" = Some (VStr (PyStr.strip (Shell.first_field line)))).
Proof.
  intros Hx. destruct (environment_resolution_field h rc out Hx) as (d & Hd & Hr).
  exists d. split; [exact Hd|]. split.
  - intros [Hrc|He].
    + rewrite Hr. destruct (Z.eqb_spec rc 0); [contradiction | reflexivity].
    + rewrite Hr, He. destruct (rc =? 0); reflexivity.
  - intros -> Hne.
    assert (Hs : d !! "resolution" = Some (VStr (PyStr.strip out))).
    { rewrite Hr. cbn [Z.eqb]. destruct (PyStr.strip out); [contradiction | reflexivity]. }
    split; [exact Hs|].
    intros listing line _ -> Hl. rewrite Hs. do 2 f_equal.
    unfold Shell.xrandr_pipeline. rewrite Hl. cbn [fmap list_fmap Shell.print_lines].
    replace (Shell.first_field line +:+ LF +:+ "") with (Shell.first_field line +:+ LF).
    + apply strip_app_LF.
    + clear. induction (Shell.first_field line) as [|c t IH]; [reflexivity|].
      rewrite !append_cons, IH. reflexivity.
Qed.

Lemma environment_resolution_witness :
  exists d, collect_environment_info sample_host = Ok (VDict d)
    /\ (0 <> 0 \/ PyStr.strip ("1920x1080" +:+ LF) = "" ->
        d !! "resolution" = Some (VStr "Unknown"))
    /\ (0 = 0 -> PyStr.strip ("1920x1080" +:+ LF) <> "" ->
        d !! "resolution" = Some (VStr (PyStr.strip ("1920x1080" +:+ LF)))
        /\ forall listing line,
             Shell.is_ascii_text listing = true ->
             "1920x1080" +:+ LF = Shell.xrandr_pipeline listing ->
             Shell.grep_star (Shell.text_lines listing) = [line] ->
             d !! "resolution" = Some (VStr (PyStr.strip (Shell.first_field line)))).
Proof.
  apply (environment_resolution sample_host 0 ("1920x1080" +:+ LF)). reflexivity.
Defined.

(** An output of a no-break space and a line feed is empty once stripped:
    the field reads "Unknown". *)
Example environment_resolution_blank :
  forall h, xrandr h = Exited 0 (String "194" (String "160" LF)) ->
    exists d, collect_environment_info h = Ok (VDict d)
      /\ d !! "resolution" = Some (VStr "Unknown").
Proof.
  intros h Hx. destruct (environment_resolution_field h _ _ Hx) as (d & Hd & Hr).
  exists d. split; [exact Hd | exact Hr].
Qed.

(** The sample listing has one active-mode line; the pipeline prints its
    first field. *)
Example pipeline_sample :
  Shell.is_ascii_text sample_listing = true
  /\ Shell.grep_star (Shell.text_lines sample_listing) = ["   1920x1080     60.02*+  59.97"]
  /\ Shell.xrandr_pipeline sample_listing = "1920x1080" +:+ LF.
Proof. repeat split. Qed.

(** C6 as the specification words it, with one active-mode line taken for
    granted, fails where two displays are connected: the command exits with
    status 0, its output is not empty, and the field holds both first fields
    with a line break between them, which is the first field of no line. *)
Lemma environment_resolution_two_displays :
  ~ (forall h listing d,
       xrandr h = Exited 0 (Shell.xrandr_pipeline listing) ->
       PyStr.strip (Shell.xrandr_pipeline listing) <> "" ->
       collect_environment_info h = Ok (VDict d) ->
       exists line, line ∈ Shell.grep_star (Shell.text_lines listing)
         /\ d !! "resolution" = Some (VStr (PyStr.strip (Shell.first_field line)))).
Proof.
  intros H.
  assert (Hc : exists d, collect_environment_info two_display_host = Ok (VDict d)
                 /\ d !! "resolution" = Some (VStr ("1920x1080" +:+ LF +:+ "1280x1024"))).
  { eexists; split; reflexivity. }
  destruct Hc as (d & Hd & Hr).
  destruct (H two_display_host two_display_listing d eq_refl) as (line & Hl & Hs);
    [vm_compute; discriminate | exact Hd |].
  rewrite Hr in Hs. vm_compute in Hl.
  apply elem_of_cons in Hl as [->|Hl]; [vm_compute in Hs; discriminate|].
  apply elem_of_cons in Hl as [->|Hl]; [vm_compute in Hs; discriminate|].
  apply elem_of_nil in Hl. exact Hl.
Qed.

(** ** collect_general_info *)

(** C8, as the code has it: the "sudo" field is the string "Yes" when the
    effective user id is 0 and the string "No" for every other id; where
    [os] has no [geteuid] the collector raises [AttributeError] and returns
    no record. *)
Theorem general_sudo_field (h : host) (user : string) :
  getlogin h = Ok user ->
  match geteuid h with
  | Some euid =>
      exists d, collect_general_info h = Ok (VDict d)
        /\ d !! "sudo" = Some (VStr (if euid =? 0 then "Yes" else "No"))
        /\ (d !! "sudo" = Some (VStr "Yes") <-> euid = 0)
  | None => collect_general_info h = Err AttributeError
  end.
Proof.
  intros Hu. unfold collect_general_info. rewrite Hu.
  destruct (geteuid h) as [euid|]; [|reflexivity].
  eexists. split; [reflexivity|].
  assert (Hs : forall v : pyval,
    ({[ "date_time" := VStr (PyDate.strftime ":" (now_report h));
        "pc_name" := VStr (node h); "user_name" := VStr user; "sudo" := v;
        "os" := VStr (system h); "kernel" := VStr (release h);
        "uptime" := PyDate.sub (now_uptime h) (boot_time h) ]} : gmap string pyval)
    !! "sudo" = Some v).
  { intros v. do 3 (rewrite lookup_insert_ne by discriminate). apply lookup_insert_eq. }
  cbn [mret result_ret mbind result_bind]. rewrite Hs. split; [reflexivity|].
  destruct (Z.eqb_spec euid 0); split; intros H; try congruence; try reflexivity.
Qed.

Lemma general_sudo_field_witness :
  exists d, collect_general_info failing_host = Ok (VDict d)
    /\ d !! "sudo" = Some (VStr "Yes")
    /\ (d !! "sudo" = Some (VStr "Yes") <-> 0 = 0).
Proof.
  exact (general_sudo_field failing_host "alice" eq_refl).
Defined.

(** C8 as the specification words it fails twice: the field is a string,
    not a boolean, and a host without [geteuid] gets an exception, not a
    record with false in it. *)
Lemma general_sudo_not_bool :
  ~ (forall h user, getlogin h = Ok user ->
       exists d, collect_general_info h = Ok (VDict d)
         /\ d !! "sudo" = Some (VBool (match geteuid h with Some 0 => true | _ => false end)))
  /\ collect_general_info no_geteuid_host = Err AttributeError
  /\ (collect_general_info failing_host ≫= fun v => getitem v "sudo") = Ok (VStr "Yes").
Proof.
  split; [|split; reflexivity].
  intros H. destruct (H failing_host "alice" eq_refl) as (d & Hd & Hs).
  vm_compute in Hd. injection Hd as <-. vm_compute in Hs. discriminate.
Qed.

(** ** The order of floats *)

Section FloatOrder.
Import PyFloat.

Lemma fleb_Qle (x y : pyfloat) :
  match x, y with
  | FZero _, FZero _ | FZero _, FNum _ _ _ | FNum _ _ _, FZero _ | FNum _ _ _, FNum _ _ _ =>
      fleb x y = true <-> (fval x <= fval y)%Q
  | _, _ => True
  end.
Proof.
  destruct x, y; try exact I; unfold fleb, fcompare;
    rewrite Qle_alt; destruct (Qcompare _ _); split; intros; congruence.
Qed.

Lemma fleb_refl (x : pyfloat) : is_nan x = false -> fleb x x = true.
Proof.
  destruct x as [|[]|s|s m e]; try discriminate; intros _; try reflexivity.
  apply (fleb_Qle (FNum s m e) (FNum s m e)). apply Qle_refl.
Qed.

Lemma fleb_trans (x y z : pyfloat) :
  fleb x y = true -> fleb y z = true -> fleb x z = true.
Proof.
  destruct x as [|[]|sx|sx mx ex], y as [|[]|sy|sy my ey], z as [|[]|sz|sz mz ez];
    try discriminate; try reflexivity; intros Hxy Hyz;
    match goal with
    | |- fleb ?a ?c = true =>
        apply (fleb_Qle a c);
        match type of Hxy with fleb _ ?b = true =>
          apply (Qle_trans _ (fval b)); [apply (fleb_Qle a b) | apply (fleb_Qle b c)]; assumption
        end
    end.
Qed.

(** Where [x < y] fails and neither is NaN, [y <= x]. *)
Lemma fltb_false_fleb (x y : pyfloat) :
  is_nan x = false -> is_nan y = false -> fltb x y = false -> fleb y x = true.
Proof.
  destruct x as [|[]|sx|sx mx ex], y as [|[]|sy|sy my ey];
    try discriminate; try reflexivity; intros _ _; unfold fltb, fleb, fcompare;
    rewrite <- (Qcompare_antisym (fval _) (fval _));
    destruct (Qcompare _ _); simpl; congruence.
Qed.

Lemma fltb_true_fleb (x y : pyfloat) : fltb x y = true -> fleb x y = true.
Proof. unfold fltb, fleb. destruct (fcompare x y) as [[]|]; congruence. Qed.

End FloatOrder.

(** ** sorted(..., reverse=True) *)

Section Sorting.
Context {A : Type} (key : A -> pyfloat).

(** [a] stands before [b] in a descending order: [key b <= key a]. *)
Definition desc (a b : A) : Prop := PyFloat.fleb (key b) (key a) = true.

Definition no_nan (l : list A) : Prop :=
  Forall (fun a => PyFloat.is_nan (key a) = false) l.

Lemma insert_desc_perm (x : A) (l : list A) : insert_desc key x l ≡ₚ x :: l.
Proof.
  induction l as [|y t IH]; [reflexivity|].
  cbn [insert_desc]. destruct (PyFloat.fltb (key x) (key y)); [|reflexivity].
  rewrite IH. apply Permutation_swap.
Qed.

Lemma sorted_reverse_perm (l : list A) : sorted_reverse key l ≡ₚ l.
Proof.
  induction l as [|x t IH]; [reflexivity|].
  cbn [sorted_reverse foldr]. fold (sorted_reverse key t).
  rewrite insert_desc_perm, IH. reflexivity.
Qed.

Lemma sorted_reverse_length (l : list A) : length (sorted_reverse key l) = length l.
Proof. apply Permutation_length, sorted_reverse_perm. Qed.

Lemma insert_desc_sorted (x : A) (l : list A) :
  PyFloat.is_nan (key x) = false -> no_nan l ->
  StronglySorted desc l -> StronglySorted desc (insert_desc key x l).
Proof.
  intros Hx Hl Hs. induction Hs as [|y t Hs IH Hy]; cbn [insert_desc].
  - repeat constructor.
  - apply Forall_cons in Hl as [Hny Hl].
    destruct (PyFloat.fltb (key x) (key y)) eqn:E.
    + constructor; [apply IH; exact Hl|].
      rewrite insert_desc_perm. constructor; [|exact Hy].
      apply fltb_true_fleb, E.
    + constructor; [constructor; assumption|].
      assert (Hyx : desc x y) by (apply fltb_false_fleb; assumption).
      constructor; [exact Hyx|].
      eapply Forall_impl; [exact Hy|]. intros z Hz. unfold desc in *.
      eapply fleb_trans; eassumption.
Qed.

(** Without NaN among the keys the result is in descending order: every
    item stands before all the items of smaller or equal key after it. *)
Lemma sorted_reverse_sorted (l : list A) :
  no_nan l -> StronglySorted desc (sorted_reverse key l).
Proof.
  induction l as [|x t IH]; intros Hl; [constructor|].
  apply Forall_cons in Hl as [Hx Hl].
  cbn [sorted_reverse foldr]. fold (sorted_reverse key t).
  apply insert_desc_sorted; [exact Hx | | apply IH; exact Hl].
  unfold no_nan. rewrite sorted_reverse_perm. exact Hl.
Qed.

End Sorting.

(** ** Loops that may raise *)

Lemma mapM_Ok {A B : Type} (f : A -> result B) (xs : list A) (ys : list B) :
  mapM f xs = Ok ys -> Forall2 (fun x y => f x = Ok y) xs ys.
Proof.
  revert ys; induction xs as [|x t IH]; intros ys; cbn [mapM].
  - intros [= <-]. constructor.
  - destruct (f x) as [y|e] eqn:E; cbn; [|discriminate].
    destruct (mapM f t) as [ys'|e]; cbn; [|discriminate].
    intros [= <-]. constructor; [exact E | apply IH; reflexivity].
Qed.

Lemma mapM_total {A B : Type} (f : A -> result B) (xs : list A) :
  Forall (fun x => exists y, f x = Ok y) xs -> exists ys, mapM f xs = Ok ys.
Proof.
  induction 1 as [|x t [y Hy] _ [ys Hys]]; cbn [mapM].
  - eexists; reflexivity.
  - rewrite Hy, Hys. eexists; reflexivity.
Qed.

(** ** sorted(..., key=..., reverse=True) on the values of Python *)

Lemma StronglySorted_impl_elem {A : Type} (R R' : A -> A -> Prop) (l : list A) :
  (forall a b, a ∈ l -> b ∈ l -> R a b -> R' a b) ->
  StronglySorted R l -> StronglySorted R' l.
Proof.
  intros H S. induction S as [|a l S IH F]; [constructor|].
  constructor.
  - apply IH. intros x y Hx Hy. apply H; right; assumption.
  - rewrite Forall_forall in *. intros b Hb. apply H; [left | right; exact Hb | apply F, Hb].
Qed.

Section SortedBy.
Context {A : Type} (key : A -> pyval).
Import PySort.

(** Every key is a float other than NaN. *)
Definition float_keys (l : list A) : Prop :=
  Forall (fun a => exists x, key a = VFloat x /\ PyFloat.is_nan x = false) l.

(** [a] stands before [b]: both keys are floats, that of [b] at most that
    of [a]. *)
Definition key_desc (a b : A) : Prop :=
  exists x y, key a = VFloat x /\ key b = VFloat y /\ PyFloat.fleb y x = true.

(** Whenever the sort returns, it returns the stable descending order of
    the exact values of the keys. *)
Lemma sorted_reverse_by_Ok (l r : list A) :
  sorted_reverse_by key l = Ok r -> r = sorted_reverse (fun a => key_value (key a)) l.
Proof.
  destruct l as [|a [|b t]]; cbn [sorted_reverse_by].
  - intros [= <-]. reflexivity.
  - intros [= <-]. reflexivity.
  - destruct (existsb _ _); [discriminate|].
    destruct (forallb _ _); [|discriminate]. intros [= <-]. reflexivity.
Qed.

Lemma sorted_reverse_by_perm (l r : list A) : sorted_reverse_by key l = Ok r -> r ≡ₚ l.
Proof. intros H. rewrite (sorted_reverse_by_Ok l r H). apply sorted_reverse_perm. Qed.

Lemma sorted_reverse_by_length (l r : list A) :
  sorted_reverse_by key l = Ok r -> length r = length l.
Proof. intros H. apply Permutation_length, sorted_reverse_by_perm, H. Qed.

Lemma float_keys_no_nan (l : list A) :
  float_keys l -> no_nan (fun a => key_value (key a)) l.
Proof.
  intros F. eapply Forall_impl; [exact F|]. intros a (x & E & N). rewrite E. exact N.
Qed.

(** On keys that are floats other than NaN the sort returns. *)
Lemma sorted_reverse_by_floats (l : list A) :
  float_keys l -> sorted_reverse_by key l = Ok (sorted_reverse (fun a => key_value (key a)) l).
Proof.
  intros F. destruct l as [|a [|b t]]; [reflexivity..|].
  cbn [sorted_reverse_by].
  assert (E : existsb (fun x => is_none (key x)) (a :: b :: t) = false).
  { apply not_true_is_false. intros H. apply existsb_exists in H as (x & Hx & Hn).
    unfold float_keys in F. rewrite Forall_forall in F.
    destruct (F x (proj2 (list_elem_of_In _ _) Hx)) as (f & Ef & _).
    rewrite Ef in Hn. discriminate. }
  assert (O : forallb (fun x => ordered_key (key x)) (a :: b :: t) = true).
  { apply forallb_forall. intros x Hx.
    unfold float_keys in F. rewrite Forall_forall in F.
    destruct (F x (proj2 (list_elem_of_In _ _) Hx)) as (f & Ef & Nf).
    unfold ordered_key. rewrite Ef. cbn. rewrite Nf. reflexivity. }
  rewrite E, O. reflexivity.
Qed.

(** The result is in descending order of the floats. *)
Lemma sorted_reverse_by_sorted (l r : list A) :
  float_keys l -> sorted_reverse_by key l = Ok r -> StronglySorted key_desc r.
Proof.
  intros F H. pose proof (sorted_reverse_by_perm l r H) as P.
  rewrite (sorted_reverse_by_Ok l r H) in *.
  pose proof (sorted_reverse_sorted _ l (float_keys_no_nan l F)) as S.
  eapply StronglySorted_impl_elem; [|exact S].
  intros a b Ha Hb D. rewrite P in Ha, Hb.
  unfold float_keys in F. rewrite Forall_forall in F.
  destruct (F a Ha) as (x & Ex & _), (F b Hb) as (y & Ey & _).
  exists x, y. split; [exact Ex|]. split; [exact Ey|].
  unfold desc in D. rewrite Ex, Ey in D. exact D.
Qed.


End SortedBy.
(** ** Rounding keeps the order *)

Section Rounding.
Import PyFloat FloatValue.

Lemma rhe_spec (n : Z) (d : positive) :
  2 * n - Zpos d <= 2 * Zpos d * rhe n d <= 2 * n + Zpos d
  /\ (2 * Zpos d * rhe n d = 2 * n + Zpos d -> Z.even (rhe n d) = true)
  /\ (2 * Zpos d * rhe n d = 2 * n - Zpos d -> Z.even (rhe n d) = true).
Proof.
  unfold rhe.
  pose proof (Z.div_mod n (Zpos d) ltac:(discriminate)) as E.
  pose proof (Z.mod_pos_bound n (Zpos d) ltac:(reflexivity)) as B.
  set (q := n / Zpos d) in *. set (r := n mod Zpos d) in *.
  destruct (Z.compare_spec (2 * r) (Zpos d)) as [C|C|C].
  - destruct (Z.even q) eqn:Ev.
    + repeat split; try nia. intros _. exact Ev.
    + repeat split; try nia. intros _.
      rewrite Z.even_add, Ev. reflexivity.
  - repeat split; nia.
  - repeat split; nia.
Qed.

Lemma rhe_mono (n1 : Z) (d1 : positive) (n2 : Z) (d2 : positive) :
  n1 * Zpos d2 <= n2 * Zpos d1 -> rhe n1 d1 <= rhe n2 d2.
Proof.
  intros H.
  destruct (rhe_spec n1 d1) as ([L1 U1] & T1 & _).
  destruct (rhe_spec n2 d2) as ([L2 U2] & _ & T2).
  set (a := rhe n1 d1) in *. set (b := rhe n2 d2) in *.
  destruct (Z_le_gt_dec a b) as [|G]; [assumption|exfalso].
  assert (P1 : 0 < Zpos d1) by reflexivity. assert (P2 : 0 < Zpos d2) by reflexivity.
  assert (F1 : 2 * Zpos d1 * a * Zpos d2 <= (2 * n1 + Zpos d1) * Zpos d2)
    by (apply Z.mul_le_mono_nonneg_r; lia).
  assert (F2 : (2 * n2 - Zpos d2) * Zpos d1 <= 2 * Zpos d2 * b * Zpos d1)
    by (apply Z.mul_le_mono_nonneg_r; lia).
  assert (F3 : Zpos d1 * Zpos d2 * (b + 1) <= Zpos d1 * Zpos d2 * a)
    by (apply Z.mul_le_mono_nonneg_l; lia).
  assert (E0 : Zpos d1 * Zpos d2 * a = Zpos d1 * Zpos d2 * (b + 1)) by lia.
  assert (Eab : a = b + 1) by (apply (Z.mul_reg_l _ _ (Zpos d1 * Zpos d2)); lia).
  assert (E1 : (2 * Zpos d1 * a) * Zpos d2 = (2 * n1 + Zpos d1) * Zpos d2) by lia.
  assert (E2 : (2 * Zpos d2 * b) * Zpos d1 = (2 * n2 - Zpos d2) * Zpos d1) by lia.
  apply Z.mul_reg_r in E1; [|lia]. apply Z.mul_reg_r in E2; [|lia].
  apply T1 in E1. apply T2 in E2.
  rewrite Eab, Z.even_add, E2 in E1. discriminate.
Qed.

Lemma rhe_int (z : Z) (d : positive) : rhe (z * Zpos d) d = z.
Proof.
  unfold rhe. rewrite Z.div_mul by discriminate. rewrite Z.mod_mul by discriminate.
  reflexivity.
Qed.

Lemma rhe_le_int (n : Z) (d : positive) (N : Z) : n <= N * Zpos d -> rhe n d <= N.
Proof.
  intros H. rewrite <- (rhe_int N 1). apply rhe_mono. lia.
Qed.

Lemma rhe_ge_int (n : Z) (d : positive) (N : Z) : N * Zpos d <= n -> N <= rhe n d.
Proof.
  intros H. rewrite <- (rhe_int N 1) at 1. apply rhe_mono. lia.
Qed.

Lemma rhe_opp (n : Z) (d : positive) : rhe (- n) d = - rhe n d.
Proof.
  apply Z.le_antisymm.
  - destruct (rhe_spec n d) as ([L U] & Tu & Tl).
    destruct (rhe_spec (- n) d) as ([L' U'] & Tu' & Tl').
    set (a := rhe n d) in *. set (b := rhe (- n) d) in *.
    destruct (Z_le_gt_dec b (- a)); [assumption|exfalso].
    assert (E : 2 * Zpos d * b = 2 * - n + Zpos d) by nia.
    assert (E' : 2 * Zpos d * a = 2 * n + Zpos d) by nia.
    assert (b = - a + 1) by nia.
    apply Tu' in E. apply Tu in E'. rewrite H, Z.even_add, Z.even_opp, E' in E. discriminate.
  - destruct (rhe_spec n d) as ([L U] & Tu & Tl).
    destruct (rhe_spec (- n) d) as ([L' U'] & Tu' & Tl').
    set (a := rhe n d) in *. set (b := rhe (- n) d) in *.
    destruct (Z_le_gt_dec (- a) b); [assumption|exfalso].
    assert (E : 2 * Zpos d * b = 2 * - n - Zpos d) by nia.
    assert (E' : 2 * Zpos d * a = 2 * n - Zpos d) by nia.
    assert (b = - a - 1) by nia.
    apply Tl' in E. apply Tl in E'. rewrite H, Z.even_sub, Z.even_opp, E' in E. discriminate.
Qed.

Local Open Scope Q_scope.

Lemma p2_pos k : 0 < p2 k.
Proof. apply Qpower_0_lt. reflexivity. Qed.

Lemma p2_add a b : p2 (a + b) == p2 a * p2 b.
Proof. apply Qpower_plus. discriminate. Qed.

Lemma p2_le a b : (a <= b)%Z -> p2 a <= p2 b.
Proof. intros H. apply Qpower_le_compat_l; [exact H | discriminate]. Qed.

Lemma p2_lt a b : (a < b)%Z -> p2 a < p2 b.
Proof. intros H. apply Qpower_lt_compat_l; [exact H | reflexivity]. Qed.

Lemma p2_lt_inv a b : p2 a < p2 b -> (a < b)%Z.
Proof. intros H. eapply Qpower_lt_compat_l_inv; [exact H | reflexivity]. Qed.

Lemma p2_Z k : (0 <= k)%Z -> p2 k == inject_Z (2 ^ k).
Proof. intros H. unfold p2. rewrite Zpower_Qpower by exact H. reflexivity. Qed.

Lemma p2_opp k : p2 (- k) == / p2 k.
Proof. apply Qpower_opp. Qed.

Lemma p2_cancel k : p2 k * p2 (- k) == 1.
Proof. rewrite <- p2_add. rewrite Z.add_opp_diag_r. reflexivity. Qed.

Lemma pow2_pos k : (0 < 2 ^ Z.max k 0)%Z.
Proof. apply Z.pow_pos_nonneg; lia. Qed.

Lemma den2_pos e : Zpos (den2 e) = (2 ^ Z.max (- e) 0)%Z.
Proof. unfold den2. apply Z2Pos.id, pow2_pos. Qed.

Lemma num_den2 (m e : Z) : num2 m e # den2 e == inject_Z m * p2 e.
Proof.
  rewrite Qmake_Qdiv, den2_pos. unfold num2. rewrite inject_Z_mult.
  destruct (Z.le_gt_cases 0 e) as [H|H].
  - rewrite (Z.max_l e 0), (Z.max_r (- e) 0) by lia.
    rewrite p2_Z by exact H. change (inject_Z (2 ^ 0)) with 1. field.
  - rewrite (Z.max_r e 0), (Z.max_l (- e) 0) by lia.
    change (inject_Z (2 ^ 0)) with 1.
    rewrite <- (p2_Z (- e)) by lia. rewrite p2_opp.
    pose proof (p2_pos e). field. intros E. rewrite E in H0. discriminate.
Qed.

Lemma rheq_mono q1 q2 : q1 <= q2 -> (rheq q1 <= rheq q2)%Z.
Proof. intros H. apply rhe_mono. exact H. Qed.

Lemma rheq_ext q1 q2 : q1 == q2 -> rheq q1 = rheq q2.
Proof.
  intros H. apply Z.le_antisymm; apply rheq_mono; rewrite H; apply Qle_refl.
Qed.

Lemma rheq_ge q N : inject_Z N <= q -> (N <= rheq q)%Z.
Proof. intros H. apply rhe_ge_int. unfold Qle in H. simpl in H. lia. Qed.

Lemma rheq_le q N : q <= inject_Z N -> (rheq q <= N)%Z.
Proof. intros H. apply rhe_le_int. unfold Qle in H. simpl in H. lia. Qed.

(** [Z.log2] brackets a positive integer between two powers of two. *)
Lemma log2_bracket (n : positive) :
  p2 (Z.log2 (Zpos n)) <= inject_Z (Zpos n) < p2 (Z.log2 (Zpos n) + 1).
Proof.
  pose proof (Z.log2_nonneg (Zpos n)) as Hn.
  destruct (Z.log2_spec (Zpos n) ltac:(reflexivity)) as [L U].
  rewrite !p2_Z by lia. rewrite <- Zle_Qle, <- Zlt_Qlt.
  rewrite <- Z.add_1_r in U. split; assumption.
Qed.

Lemma Qmake_pos (n d : positive) : Zpos n # d == inject_Z (Zpos n) / inject_Z (Zpos d).
Proof. apply Qmake_Qdiv. Qed.

Lemma inject_pos (n : positive) : 0 < inject_Z (Zpos n).
Proof. reflexivity. Qed.

(** The test of [flog2]. *)
Lemma scaled_le (n d : positive) (k : Z) :
  (Zpos d * 2 ^ Z.max k 0 <= Zpos n * 2 ^ Z.max (- k) 0)%Z <-> p2 k <= Zpos n # d.
Proof.
  rewrite <- (Qmult_1_l (p2 k)). change 1 with (inject_Z 1).
  rewrite <- num_den2. unfold Qle. cbn [Qnum Qden]. rewrite den2_pos.
  unfold num2. split; intros H; lia.
Qed.

Lemma flog2_spec (n d : positive) :
  p2 (flog2 n d) <= Zpos n # d < p2 (flog2 n d + 1).
Proof.
  destruct (log2_bracket n) as [Ln Un]. destruct (log2_bracket d) as [Ld Ud].
  pose proof (inject_pos n) as Pn. pose proof (inject_pos d) as Pd.
  set (ln := Z.log2 (Zpos n)) in *. set (ld := Z.log2 (Zpos d)) in *.
  assert (Lo : p2 (ln - ld - 1) < Zpos n # d).
  { rewrite Qmake_pos.
    apply Qlt_shift_div_l; [exact Pd|].
    apply Qlt_le_trans with (p2 (ln - ld - 1) * p2 (ld + 1)).
    - apply Qmult_lt_l; [apply p2_pos | exact Ud].
    - rewrite <- p2_add. replace (ln - ld - 1 + (ld + 1))%Z with ln by lia. exact Ln. }
  assert (Hi : Zpos n # d < p2 (ln - ld + 1)).
  { rewrite Qmake_pos.
    apply Qlt_shift_div_r; [exact Pd|].
    apply Qlt_le_trans with (p2 (ln + 1)); [exact Un|].
    replace (ln + 1)%Z with (ln - ld + 1 + ld)%Z by lia. rewrite p2_add.
    apply Qmult_le_l; [apply p2_pos | exact Ld]. }
  unfold flog2. fold ln ld.
  destruct (Z.leb_spec (Zpos d * 2 ^ Z.max (ln - ld) 0) (Zpos n * 2 ^ Z.max (- (ln - ld)) 0))
    as [H|H].
  - apply scaled_le in H. split; assumption.
  - split.
    + apply Qlt_le_weak. exact Lo.
    + replace (ln - ld - 1 + 1)%Z with (ln - ld)%Z by lia.
      apply Qnot_le_lt. intros C. apply scaled_le in C. lia.
Qed.

Lemma flog2_mono (n1 d1 n2 d2 : positive) :
  Zpos n1 # d1 <= Zpos n2 # d2 -> (flog2 n1 d1 <= flog2 n2 d2)%Z.
Proof.
  intros H. destruct (flog2_spec n1 d1) as [L1 _]. destruct (flog2_spec n2 d2) as [_ U2].
  assert (p2 (flog2 n1 d1) < p2 (flog2 n2 d2 + 1)).
  { eapply Qle_lt_trans; [exact L1|]. eapply Qle_lt_trans; [exact H | exact U2]. }
  apply p2_lt_inv in H0. lia.
Qed.

Lemma round_mag_eq (n d : positive) :
  let u := Z.max (flog2 n d - 52) (-1074) in
  round_mag n d = (rheq ((Zpos n # d) * p2 (- u)), u).
Proof.
  intros u. unfold round_mag. fold u. f_equal.
  change (rhe (num2 (Zpos n) (- u)) (d * den2 (- u)))
    with (rheq (num2 (Zpos n) (- u) # d * den2 (- u))).
  apply rheq_ext.
  transitivity ((Zpos n # d) * (num2 1 (- u) # den2 (- u))).
  - unfold Qeq, Qmult, num2. cbn [Qnum Qden]. lia.
  - rewrite num_den2. change (inject_Z 1) with 1. rewrite Qmult_1_l. reflexivity.
Qed.

Lemma rheq_nonneg q : 0 <= q -> (0 <= rheq q)%Z.
Proof. intros H. apply rheq_ge. exact H. Qed.

Lemma Qmake_pos_lt (n d : positive) : 0 < Zpos n # d.
Proof. reflexivity. Qed.

(** Rounding to the binary64 grid is monotone. *)
Lemma round_mag_mono (n1 d1 n2 d2 : positive) :
  Zpos n1 # d1 <= Zpos n2 # d2 -> qv (round_mag n1 d1) <= qv (round_mag n2 d2).
Proof.
  intros H. pose proof (flog2_mono _ _ _ _ H) as He.
  destruct (flog2_spec n1 d1) as [L1 U1]. destruct (flog2_spec n2 d2) as [L2 U2].
  rewrite !round_mag_eq. cbv zeta. unfold qv. cbn [fst snd].
  set (e1 := flog2 n1 d1) in *. set (e2 := flog2 n2 d2) in *.
  set (u1 := Z.max (e1 - 52) (-1074)). set (u2 := Z.max (e2 - 52) (-1074)).
  set (q1 := Zpos n1 # d1) in *. set (q2 := Zpos n2 # d2) in *.
  destruct (Z.eq_dec u1 u2) as [E|E].
  - rewrite <- E. apply Qmult_le_compat_r; [|apply Qlt_le_weak, p2_pos].
    rewrite <- Zle_Qle. apply rheq_mono.
    apply Qmult_le_compat_r; [exact H | apply Qlt_le_weak, p2_pos].
  - assert (Hu : (u1 < u2)%Z) by lia.
    assert (Hu2 : u2 = (e2 - 52)%Z) by lia.
    assert (He12 : (e1 + 1 <= e2)%Z) by lia.
    apply Qle_trans with (p2 e2).
    + (* the smaller one stays below 2^e2 *)
      apply Qle_trans with (inject_Z (2 ^ (e2 - u1)) * p2 u1).
      * apply Qmult_le_compat_r; [|apply Qlt_le_weak, p2_pos].
        rewrite <- Zle_Qle. apply rheq_le. rewrite <- p2_Z by lia.
        replace (e2 - u1)%Z with (e2 + - u1)%Z by lia. rewrite p2_add.
        apply Qmult_le_compat_r; [|apply Qlt_le_weak, p2_pos].
        apply Qlt_le_weak. eapply Qlt_le_trans; [exact U1 | apply p2_le; lia].
      * rewrite <- p2_Z by lia. rewrite <- p2_add.
        replace (e2 - u1 + u1)%Z with e2 by lia. apply Qle_refl.
    + (* the larger one has 53 bits *)
      apply Qle_trans with (inject_Z (2 ^ 52) * p2 u2).
      * rewrite <- p2_Z by lia. rewrite <- p2_add.
        replace (52 + u2)%Z with e2 by lia. apply Qle_refl.
      * apply Qmult_le_compat_r; [|apply Qlt_le_weak, p2_pos].
        rewrite <- Zle_Qle. apply rheq_ge. rewrite <- p2_Z by lia.
        apply Qle_trans with (p2 e2 * p2 (- u2)).
        -- rewrite <- p2_add. replace (e2 + - u2)%Z with 52%Z by lia. apply Qle_refl.
        -- apply Qmult_le_compat_r; [exact L2 | apply Qlt_le_weak, p2_pos].
Qed.

Lemma round_mag_nonneg (n d : positive) : (0 <= fst (round_mag n d))%Z.
Proof.
  rewrite round_mag_eq. cbn [fst]. apply rheq_nonneg.
  apply Qmult_le_0_compat; [discriminate | apply Qlt_le_weak, p2_pos].
Qed.

#[local] Instance signedQ_wd (s : bool) : Proper (Qeq ==> Qeq) (signedQ s).
Proof. intros x y E. destruct s; cbn [signedQ]; rewrite E; reflexivity. Qed.

Lemma fval_FNum s m e : fval (FNum s m e) == signedQ s (inject_Z (Zpos m) * p2 e).
Proof.
  cbn [fval]. destruct s; cbn [signed signedQ].
  - rewrite <- num_den2. unfold Qeq, Qopp, num2. cbn [Qnum Qden]. lia.
  - apply num_den2.
Qed.

Lemma top_pos : 0 < top.
Proof. apply p2_pos. Qed.

Lemma FNum_pos m e : 0 < inject_Z (Zpos m) * p2 e.
Proof. apply Qmult_lt_0_compat; [reflexivity | apply p2_pos]. Qed.

Lemma clamp_fleb (a b : pyfloat) :
  valid a -> valid b -> clamp a <= clamp b -> fleb a b = true.
Proof.
  pose proof top_pos as T.
  destruct a as [|sa|sa|sa ma ea], b as [|sb|sb|sb mb eb]; cbn [valid clamp];
    try contradiction; intros Va Vb H.
  - destruct sa, sb; try reflexivity. exfalso. cbn [signedQ] in H. lra.
  - destruct sa; [reflexivity|]. exfalso. cbn [signedQ fval] in H. lra.
  - destruct sa; [reflexivity|]. exfalso. rewrite fval_FNum in H.
    pose proof (FNum_pos mb eb). destruct sb; cbn [signedQ] in H; lra.
  - destruct sb; [|reflexivity]. exfalso. cbn [signedQ fval] in H. lra.
  - apply (fleb_Qle (FZero sa) (FZero sb)); exact H.
  - apply (fleb_Qle (FZero sa) (FNum sb mb eb)); exact H.
  - destruct sb; [|reflexivity]. exfalso. rewrite fval_FNum in H.
    pose proof (FNum_pos ma ea). destruct sa; cbn [signedQ] in H; lra.
  - apply (fleb_Qle (FNum sa ma ea) (FZero sb)); exact H.
  - apply (fleb_Qle (FNum sa ma ea) (FNum sb mb eb)); exact H.
Qed.

Lemma odd_part_value (p : positive) (u : Z) :
  inject_Z (Zpos (fst (odd_part p u))) * p2 (snd (odd_part p u))
  == inject_Z (Zpos p) * p2 u.
Proof.
  revert u; induction p as [p IH|p IH|]; intros u; cbn [odd_part fst snd];
    try reflexivity.
  rewrite IH. rewrite p2_add. change (p2 1) with 2.
  rewrite (Pos2Z.inj_xO p), inject_Z_mult. change (inject_Z 2) with 2. ring.
Qed.

(** From [2^1024] on [mk_float] overflows. *)
Lemma overflow_iff (p : positive) (u : Z) :
  (1024 <= Z.log2 (Zpos p) + u)%Z <-> top <= inject_Z (Zpos p) * p2 u.
Proof.
  destruct (log2_bracket p) as [L U]. pose proof (p2_pos u) as Pu. unfold top. split; intros H.
  - apply Qle_trans with (p2 (Z.log2 (Zpos p)) * p2 u).
    + rewrite <- p2_add. apply p2_le, H.
    + apply Qmult_le_compat_r; [exact L | apply Qlt_le_weak, Pu].
  - assert (p2 1024 < p2 (Z.log2 (Zpos p) + 1 + u)).
    { eapply Qle_lt_trans; [exact H|]. rewrite (p2_add (_ + 1)).
      apply Qmult_lt_compat_r; [exact Pu | exact U]. }
    apply p2_lt_inv in H0. lia.
Qed.

Lemma mk_float_clamp (s : bool) (m u : Z) :
  (0 <= m)%Z ->
  valid (mk_float s m u)
  /\ clamp (mk_float s m u) == signedQ s (Qmin (inject_Z m * p2 u) top).
Proof.
  intros Hm. pose proof top_pos as T. destruct m as [|p|p]; [| |lia]; cbn [mk_float].
  - split; [exact I|]. cbn [clamp fval].
    assert (E0 : inject_Z 0 * p2 u == 0) by ring.
    rewrite E0, Q.min_l by (apply Qlt_le_weak, T). destruct s; reflexivity.
  - destruct (Z.leb_spec 1024 (Z.log2 (Zpos p) + u)) as [H|H].
    + apply overflow_iff in H. split; [exact I|]. cbn [clamp].
      rewrite Q.min_r by exact H. reflexivity.
    + assert (Hv : inject_Z (Zpos p) * p2 u < top).
      { apply Qnot_le_lt. intros C. apply overflow_iff in C. lia. }
      pose proof (odd_part_value p u) as E.
      destruct (odd_part p u) as [m' e']. cbn [fst snd] in E.
      split.
      * cbn [valid]. rewrite E. exact Hv.
      * cbn [clamp]. rewrite fval_FNum, E.
        rewrite Q.min_l by (apply Qlt_le_weak, Hv). reflexivity.
Qed.

Lemma qv_nonneg (n d : positive) : 0 <= qv (round_mag n d).
Proof.
  unfold qv. apply Qmult_le_0_compat; [|apply Qlt_le_weak, p2_pos].
  change 0 with (inject_Z 0). rewrite <- Zle_Qle. apply round_mag_nonneg.
Qed.

Lemma grid_nonneg k d : 0 <= grid k d.
Proof. destruct k; cbn [grid]; try apply Qle_refl. apply qv_nonneg. Qed.

Lemma grid_mono k1 d1 k2 d2 :
  (0 <= k1)%Z -> (0 <= k2)%Z -> k1 # d1 <= k2 # d2 -> grid k1 d1 <= grid k2 d2.
Proof.
  intros H1 H2 H. destruct k1 as [|p1|p1]; [| |lia].
  - apply grid_nonneg.
  - destruct k2 as [|p2|p2]; [| |lia].
    + exfalso. unfold Qle in H. cbn in H. lia.
    + cbn [grid]. apply round_mag_mono, H.
Qed.

Lemma round_z_clamp s k d :
  (0 <= k)%Z ->
  valid (round_z s k d) /\ clamp (round_z s k d) == signedQ s (Qmin (grid k d) top).
Proof.
  intros Hk. destruct k as [|p|p]; [| |lia]; cbn [round_z grid].
  - split; [exact I|]. cbn [clamp fval].
    rewrite Q.min_l by (apply Qlt_le_weak, top_pos). destruct s; reflexivity.
  - unfold round_b64. pose proof (round_mag_nonneg p d) as Hm.
    unfold qv. destruct (round_mag p d) as [m u]. cbn [fst snd] in *.
    apply mk_float_clamp, Hm.
Qed.

Lemma Qmin_mono a b c : a <= b -> Qmin a c <= Qmin b c.
Proof. intros H. apply Q.min_le_compat_r, H. Qed.

Lemma round_z_mono s1 k1 d1 s2 k2 d2 :
  (0 <= k1)%Z -> (0 <= k2)%Z ->
  signed s1 k1 # d1 <= signed s2 k2 # d2 ->
  fleb (round_z s1 k1 d1) (round_z s2 k2 d2) = true.
Proof.
  intros H1 H2 H.
  destruct (round_z_clamp s1 k1 d1 H1) as [V1 C1].
  destruct (round_z_clamp s2 k2 d2 H2) as [V2 C2].
  apply clamp_fleb; [exact V1 | exact V2 |]. rewrite C1, C2.
  pose proof (grid_nonneg k1 d1) as G1. pose proof (grid_nonneg k2 d2) as G2.
  pose proof top_pos as T.
  assert (M1 : 0 <= Qmin (grid k1 d1) top) by (apply Q.min_glb; lra).
  assert (M2 : 0 <= Qmin (grid k2 d2) top) by (apply Q.min_glb; lra).
  destruct s1, s2; cbn [signed signedQ] in *.
  - assert (Hk : k2 # d2 <= k1 # d1) by (unfold Qle in *; cbn [Qnum Qden] in *; lia).
    pose proof (Qmin_mono _ _ top (grid_mono _ _ _ _ H2 H1 Hk)). lra.
  - lra.
  - assert (k1 = 0%Z /\ k2 = 0%Z) as [-> ->] by (unfold Qle in H; cbn [Qnum Qden] in H; nia).
    cbn [grid]. rewrite Q.min_l by lra. lra.
  - apply Qmin_mono, grid_mono; assumption.
Qed.

Lemma round2_round_z (x : pyfloat) :
  finite x = true -> round2 x = round_z (sign_of x) (hundredths x) 100.
Proof. destruct x; try discriminate; reflexivity. Qed.

Lemma hundredths_nonneg x : (0 <= hundredths x)%Z.
Proof.
  destruct x; cbn [hundredths]; try lia.
  apply rhe_ge_int. unfold num2. pose proof (pow2_pos e). nia.
Qed.

Lemma num2_100 (m e : Z) : num2 (100 * m) e = (100 * num2 m e)%Z.
Proof. unfold num2. ring. Qed.

Lemma Qmake_100 (s : bool) (N : Z) (D : positive) :
  signed s (100 * N) # D == 100 * (signed s N # D).
Proof.
  destruct s; cbn [signed]; unfold Qeq, Qmult; cbn [Qnum Qden]; lia.
Qed.

Lemma hundredths_signed (x : pyfloat) :
  finite x = true -> signed (sign_of x) (hundredths x) = rheq (100 * fval x).
Proof.
  destruct x as [| |s|s m e]; try discriminate; intros _.
  - destruct s; reflexivity.
  - cbn [sign_of hundredths fval]. rewrite num2_100.
    rewrite <- (rheq_ext _ _ (Qmake_100 s (num2 (Zpos m) e) (den2 e))).
    destruct s; cbn [signed]; [rewrite <- rhe_opp|]; reflexivity.
Qed.

Lemma round2_not_nan (x : pyfloat) : is_nan x = false -> is_nan (round2 x) = false.
Proof.
  destruct x as [| | |s m e]; try discriminate; try reflexivity. intros _.
  rewrite round2_round_z by reflexivity.
  destruct (round_z_clamp s (hundredths (FNum s m e)) 100 (hundredths_nonneg _)) as [V _].
  cbn [sign_of]. destruct (round_z _ _ _); [contradiction | reflexivity..].
Qed.

Lemma fleb_not_nan (x y : pyfloat) :
  fleb x y = true -> is_nan x = false /\ is_nan y = false.
Proof. destruct x, y; try discriminate; split; reflexivity. Qed.

(** [round(x, 2)] keeps the order of floats. *)
Lemma round2_mono (x y : pyfloat) :
  fleb x y = true -> fleb (round2 x) (round2 y) = true.
Proof.
  intros H. destruct (fleb_not_nan x y H) as [Nx Ny].
  pose proof (round2_not_nan x Nx) as Rx. pose proof (round2_not_nan y Ny) as Ry.
  destruct (finite x) eqn:Fx, (finite y) eqn:Fy.
  - rewrite (round2_round_z x Fx), (round2_round_z y Fy).
    apply round_z_mono; try apply hundredths_nonneg.
    rewrite (hundredths_signed x Fx), (hundredths_signed y Fy).
    assert (Hv : fval x <= fval y).
    { pose proof (fleb_Qle x y) as P. destruct x, y; try discriminate; apply P, H. }
    assert (Hz : (rheq (100 * fval x) <= rheq (100 * fval y))%Z).
    { apply rheq_mono. lra. }
    unfold Qle. cbn [Qnum Qden]. lia.
  - destruct y as [|[]| |]; try discriminate.
    + destruct x as [|[]| |]; discriminate.
    + cbn [round2]. destruct (round2 x) as [|[]| |]; try discriminate; reflexivity.
  - destruct x as [|[]| |]; try discriminate.
    + cbn [round2]. destruct (round2 y) as [|[]| |]; try discriminate; reflexivity.
    + destruct y as [|[]| |]; discriminate.
  - destruct x as [|[]| |], y as [|[]| |]; try discriminate; reflexivity.
Qed.

End Rounding.

(** ** The size of a quotient *)

Section Magnitude.
Import PyFloat FloatValue.
Local Open Scope Q_scope.

(** Below [2^1024] nothing rounds to an infinity. *)
Lemma round_z_finite (s : bool) (k : Z) (d N : positive) :
  (0 <= k)%Z -> k # d <= Zpos N # 1 -> qv (round_mag N 1) < top ->
  finite (round_z s k d) = true.
Proof.
  intros Hk Hle Hn. destruct k as [|p|p]; [reflexivity| |lia].
  cbn [round_z]. unfold round_b64.
  pose proof (round_mag_mono p d N 1 Hle) as M.
  pose proof (round_mag_nonneg p d) as Hm.
  unfold qv in M at 1. destruct (round_mag p d) as [m u]. cbn [fst snd] in *.
  destruct m as [|q|q]; [reflexivity| |lia]. cbn [mk_float].
  destruct (Z.leb_spec 1024 (Z.log2 (Zpos q) + u)) as [H|H].
  - apply overflow_iff in H. exfalso. lra.
  - destruct (odd_part q u). reflexivity.
Qed.

Lemma round_z_positive (s : bool) (k : Z) (d n0 d0 : positive) :
  (0 <= k)%Z -> Zpos n0 # d0 <= k # d -> 0 < qv (round_mag n0 d0) ->
  match round_z s k d with FZero _ => False | _ => True end.
Proof.
  intros Hk Hle Hn. destruct k as [|p|p]; [|clear Hk|lia].
  { exfalso. unfold Qle in Hle. cbn in Hle. lia. }
  cbn [round_z]. unfold round_b64.
  pose proof (round_mag_mono n0 d0 p d Hle) as M.
  pose proof (round_mag_nonneg p d) as Hm.
  unfold qv in M at 2. destruct (round_mag p d) as [m u]. cbn [fst snd] in *.
  destruct m as [|q|q]; [|clear Hm|lia].
  { exfalso. assert (inject_Z 0 * p2 u == 0) as E by ring. rewrite E in M. lra. }
  cbn [mk_float]. destruct (1024 <=? Z.log2 (Zpos q) + u)%Z; [exact I|].
  destruct (odd_part q u). exact I.
Qed.

End Magnitude.

Lemma bound_below_top :
  (FloatValue.qv (PyFloat.round_mag (2 ^ 1000) 1) < FloatValue.top)%Q.
Proof. vm_compute. reflexivity. Qed.

Lemma int_truediv_pos (a : Z) (d : positive) :
  0 <= a < 2 ^ 1000 ->
  PyNum.int_truediv a (Zpos d) = Ok (FloatValue.round_z false a d)
  /\ FloatValue.finite (FloatValue.round_z false a d) = true.
Proof.
  intros Ha.
  assert (F : FloatValue.finite (FloatValue.round_z false a d) = true).
  { apply (round_z_finite false a d (2 ^ 1000)); [lia| |exact bound_below_top].
    unfold Qle. cbn [Qnum Qden]. change (Zpos (2 ^ 1000)) with (2 ^ 1000). nia. }
  split; [|exact F]. unfold PyNum.int_truediv.
  destruct a as [|p|p]; [reflexivity| |lia]. cbn -[PyFloat.round_b64].
  cbn [FloatValue.round_z] in F. change (Z.to_pos (Z.abs (Zpos p))) with p.
  change (Z.to_pos (Z.abs (Zpos d))) with d.
  destruct (PyFloat.round_b64 false p d); try reflexivity. discriminate.
Qed.

(** The float a GB string shows, for a count of bytes that is an [int]. *)
Lemma gb_string_int (b : Z) :
  0 <= b < 2 ^ 1000 ->
  let r := PyFloat.round2 (FloatValue.round_z false b (Z.to_pos PyNum.GiB)) in
  (PyNum.truediv (VInt b) (VInt PyNum.GiB) ≫= PyNum.round_2) = Ok (VFloat r)
  /\ gb_string (VInt b) = Ok (PyRepr.repr r +:+ " GB").
Proof.
  intros Hb r. unfold gb_string, PyNum.truediv. cbn [PyNum.as_num].
  change PyNum.GiB with (Zpos (Z.to_pos PyNum.GiB)) at 1 2.
  destruct (int_truediv_pos b (Z.to_pos PyNum.GiB) Hb) as [-> _].
  split; reflexivity.
Qed.

Lemma one_above_zero : (0 < FloatValue.qv (PyFloat.round_mag 1 1))%Q.
Proof. vm_compute. reflexivity. Qed.

Lemma of_int_positive (n : Z) :
  1 <= n < 2 ^ 1000 -> exists s m e, PyNum.of_int n = Ok (FNum s m e).
Proof.
  intros Hn. destruct n as [|p|p]; try lia. cbn [PyNum.of_int].
  change (Zpos p <? 0) with false.
  assert (B : (Zpos p # 1 <= Zpos (2 ^ 1000) # 1)%Q).
  { unfold Qle. cbn [Qnum Qden]. change (Zpos (2 ^ 1000)) with (2 ^ 1000). lia. }
  assert (O : (1 # 1 <= Zpos p # 1)%Q) by (unfold Qle; cbn [Qnum Qden]; lia).
  pose proof (round_z_finite false (Zpos p) 1 (2 ^ 1000) ltac:(lia) B bound_below_top) as F.
  pose proof (round_z_positive false (Zpos p) 1 1 1 ltac:(lia) O one_above_zero) as P.
  cbn [FloatValue.round_z] in F, P.
  destruct (PyFloat.round_b64 false p 1) as [|s|s|s m e];
    [discriminate F | discriminate F | destruct P | eauto].
Qed.

Lemma gb_string_byte_count (v : pyval) : byte_count v -> exists s, gb_string v = Ok s.
Proof. intros (b & -> & Hb). destruct (gb_string_int b Hb) as [_ E]. eauto. Qed.

(** ** collect_top_processes *)

Lemma mapM_Forall2 {A B : Type} (f : A -> result B) (R : A -> B -> Prop) (xs : list A) :
  Forall (fun x => exists y, f x = Ok y /\ R x y) xs ->
  exists ys, mapM f xs = Ok ys /\ Forall2 R xs ys.
Proof.
  induction 1 as [|x t (y & Hy & Ry) _ (ys & Hys & Rys)]; cbn [mapM].
  - exists []. split; [reflexivity | constructor].
  - rewrite Hy, Hys. exists (y :: ys). split; [reflexivity | constructor; assumption].
Qed.

Lemma StronglySorted_take {A : Type} (R : A -> A -> Prop) (n : nat) (l : list A) :
  StronglySorted R l -> StronglySorted R (take n l).
Proof.
  intros H. revert n. induction H as [|x l H IH Hx]; intros [|n]; cbn [take]; try constructor.
  - apply IH.
  - apply Forall_take, Hx.
Qed.

Lemma collect_top_processes_Ok (h : host) (v : pyval) :
  collect_top_processes h = Ok v ->
  exists by_cpu by_memory cpu memory,
    PySort.sorted_reverse_by (fun p => info_get VFloat (cpu_percent p) (VInt 0))
      (process_iter_cpu h) = Ok by_cpu
    /\ mapM (cpu_entry (int_or_none (cpu_count_logical h))) (take 5 (drop 1 by_cpu)) = Ok cpu
    /\ PySort.sorted_reverse_by (fun p => info_get VFloat (memory_percent p) (VInt 0))
         (process_iter_memory h) = Ok by_memory
    /\ mapM memory_entry (take 5 by_memory) = Ok memory
    /\ v = VDict (<["memory" := VList memory]> (<["cpu" := VList cpu]> ∅)).
Proof.
  unfold collect_top_processes, top_cpu_processes, top_memory_processes.
  destruct (PySort.sorted_reverse_by _ (process_iter_cpu h)) as [by_cpu|e] eqn:E1;
    cbn [mbind result_bind]; [|discriminate].
  destruct (mapM (cpu_entry _) _) as [cpu|e] eqn:E2; cbn [mbind result_bind]; [|discriminate].
  destruct (PySort.sorted_reverse_by _ (process_iter_memory h)) as [by_memory|e] eqn:E3;
    cbn [mbind result_bind]; [|discriminate].
  destruct (mapM memory_entry _) as [memory|e] eqn:E4; cbn [mbind result_bind]; [|discriminate].
  intros [= <-]. exists by_cpu, by_memory, cpu, memory. repeat split; assumption.
Qed.

(** A table that is measured has floats other than NaN for keys. *)
Lemma measured_float_keys (percent : proc_info -> attr pyfloat) (table : list proc_info) :
  Ranking.measured percent table ->
  float_keys (fun p => info_get VFloat (percent p) (VInt 0)) table.
Proof.
  intros M. eapply Forall_impl; [exact M|]. intros p (x & E & N).
  exists x. rewrite E. split; [reflexivity | exact N].
Qed.

(** The ranking of a measured table: the table in another order, descending
    by the percentages. *)
Lemma ranking_measured (percent : proc_info -> attr pyfloat) (table : list proc_info) :
  Ranking.measured percent table ->
  exists ranking,
    PySort.sorted_reverse_by (fun p => info_get VFloat (percent p) (VInt 0)) table = Ok ranking
    /\ ranking ≡ₚ table
    /\ StronglySorted (Ranking.before percent) ranking.
Proof.
  intros M. pose proof (measured_float_keys percent table M) as F.
  pose proof (sorted_reverse_by_floats _ table F) as E.
  eexists. split; [exact E|].
  pose proof (sorted_reverse_by_perm _ _ _ E) as P. split; [exact P|].
  pose proof (sorted_reverse_by_sorted _ _ _ F E) as S.
  eapply StronglySorted_impl_elem; [|exact S].
  intros a b Ha Hb (x & y & Ex & Ey & L). rewrite P in Ha, Hb.
  unfold Ranking.measured in M. rewrite Forall_forall in M.
  destruct (M a Ha) as (x' & Ea & _), (M b Hb) as (y' & Eb & _).
  rewrite Ea in Ex. rewrite Eb in Ey. cbn [info_get] in Ex, Ey.
  injection Ex as ->. injection Ey as ->.
  exists x, y. repeat split; assumption.
Qed.

(** In a descending list the first item stands before every item. *)
Lemma before_head (percent : proc_info -> attr pyfloat) (ranking : list proc_info)
    (top : proc_info) (rest : list proc_info) :
  Ranking.measured percent ranking ->
  StronglySorted (Ranking.before percent) ranking ->
  ranking = top :: rest ->
  forall p, p ∈ ranking -> Ranking.before percent top p.
Proof.
  intros M S -> p Hp. apply StronglySorted_inv in S as [_ F].
  apply elem_of_cons in Hp as [->|Hp].
  - apply Forall_cons in M as [(x & E & N) _]. exists x, x.
    split; [exact E|]. split; [exact E|]. apply fleb_refl, N.
  - rewrite Forall_forall in F. apply F, Hp.
Qed.

Lemma cpu_entry_measured (n : Z) (s : bool) (m : positive) (e : Z) (p : proc_info)
    (x : pyfloat) :
  PyNum.of_int n = Ok (FNum s m e) -> cpu_percent p = Has x ->
  exists v, cpu_entry (VInt n) p = Ok v /\ Ranking.cpu_entry_of (FNum s m e) p v.
Proof.
  intros Hn Hx. unfold cpu_entry, PyNum.truediv. rewrite Hx.
  cbn [info_get PyNum.as_num PyNum.to_float mbind result_bind]. rewrite Hn.
  cbn [mbind result_bind PyNum.float_truediv fmap result_fmap].
  eexists. split; [reflexivity|]. exists x. split; [exact Hx | reflexivity].
Qed.

Lemma memory_entry_measured (p : proc_info) (x : pyfloat) :
  memory_percent p = Has x ->
  exists v, memory_entry p = Ok v /\ Ranking.memory_entry_of p v.
Proof.
  intros Hx. unfold memory_entry. rewrite Hx. cbn.
  eexists. split; [reflexivity|]. exists x. split; [exact Hx | reflexivity].
Qed.

Lemma measured_sublist (percent : proc_info -> attr pyfloat) (table l : list proc_info) :
  Ranking.measured percent table -> (forall p, p ∈ l -> p ∈ table) ->
  Ranking.measured percent l.
Proof.
  unfold Ranking.measured. rewrite !Forall_forall. intros M S p Hp. apply M, S, Hp.
Qed.

Lemma elem_of_take_drop {A : Type} (n k : nat) (l : list A) (x : A) :
  x ∈ take n (drop k l) -> x ∈ l.
Proof.
  intros H. apply elem_of_take in H as (i & H & _). rewrite lookup_drop in H.
  eapply list_elem_of_lookup_2, H.
Qed.

(** The memory part of the collector on a measured table. *)
Lemma memory_part_measured (table : list proc_info) :
  Ranking.measured memory_percent table ->
  exists ranking memory,
    top_memory_processes table = Ok (take 5 ranking)
    /\ ranking ≡ₚ table
    /\ StronglySorted (Ranking.before memory_percent) ranking
    /\ mapM memory_entry (take 5 ranking) = Ok memory
    /\ Forall2 Ranking.memory_entry_of (take 5 ranking) memory.
Proof.
  intros M. destruct (ranking_measured _ _ M) as (ranking & E & P & S).
  destruct (mapM_Forall2 memory_entry Ranking.memory_entry_of (take 5 ranking))
    as (memory & Hm & Fm).
  { apply Forall_forall. intros p Hp.
    assert (Hp' : p ∈ table) by (rewrite <- P; apply (elem_of_take_drop 5 0), Hp).
    unfold Ranking.measured in M. rewrite Forall_forall in M.
    destruct (M p Hp') as (x & Ex & _). eapply memory_entry_measured, Ex. }
  exists ranking, memory. unfold top_memory_processes. rewrite E.
  repeat split; assumption.
Qed.

(** The CPU part of the collector on a measured table, the count of
    logical cores being a positive [int]. *)
Lemma cpu_part_measured (table : list proc_info) (n : Z) :
  Ranking.measured cpu_percent table -> 1 <= n < 2 ^ 1000 ->
  exists ranking cpu y,
    top_cpu_processes table = Ok (take 5 (drop 1 ranking))
    /\ PyNum.of_int n = Ok y
    /\ ranking ≡ₚ table
    /\ StronglySorted (Ranking.before cpu_percent) ranking
    /\ mapM (cpu_entry (VInt n)) (take 5 (drop 1 ranking)) = Ok cpu
    /\ Forall2 (Ranking.cpu_entry_of y) (take 5 (drop 1 ranking)) cpu.
Proof.
  intros M Hn. destruct (ranking_measured _ _ M) as (ranking & E & P & S).
  destruct (of_int_positive n Hn) as (s & m & e & Hy).
  destruct (mapM_Forall2 (cpu_entry (VInt n)) (Ranking.cpu_entry_of (FNum s m e))
              (take 5 (drop 1 ranking))) as (cpu & Hc & Fc).
  { apply Forall_forall. intros p Hp.
    assert (Hp' : p ∈ table) by (rewrite <- P; apply (elem_of_take_drop 5 1), Hp).
    unfold Ranking.measured in M. rewrite Forall_forall in M.
    destruct (M p Hp') as (x & Ex & _). eapply cpu_entry_measured; eassumption. }
  exists ranking, cpu, (FNum s m e). unfold top_cpu_processes. rewrite E.
  repeat split; assumption.
Qed.

(** On measured tables and with a positive count of logical cores the
    collector returns its record. *)
Lemma collect_top_processes_measured (h : host) (n : Z) :
  Ranking.measured cpu_percent (process_iter_cpu h) ->
  Ranking.measured memory_percent (process_iter_memory h) ->
  cpu_count_logical h = Some n -> 1 <= n < 2 ^ 1000 ->
  exists by_cpu by_memory cpu memory y,
    collect_top_processes h
      = Ok (VDict (<["memory" := VList memory]> (<["cpu" := VList cpu]> ∅)))
    /\ PyNum.of_int n = Ok y
    /\ by_cpu ≡ₚ process_iter_cpu h
    /\ StronglySorted (Ranking.before cpu_percent) by_cpu
    /\ Forall2 (Ranking.cpu_entry_of y) (take 5 (drop 1 by_cpu)) cpu
    /\ by_memory ≡ₚ process_iter_memory h
    /\ StronglySorted (Ranking.before memory_percent) by_memory
    /\ Forall2 Ranking.memory_entry_of (take 5 by_memory) memory.
Proof.
  intros Mc Mm Hc Hn.
  destruct (cpu_part_measured _ n Mc Hn) as (by_cpu & cpu & y & Ec & Hy & Pc & Sc & Hcpu & Fc).
  destruct (memory_part_measured _ Mm) as (by_memory & memory & Em & Pm & Sm & Hmem & Fm).
  exists by_cpu, by_memory, cpu, memory, y.
  split; [|repeat split; assumption].
  unfold collect_top_processes. rewrite Hc, Ec. cbn [int_or_none mbind result_bind].
  rewrite Hcpu. cbn [mbind result_bind]. rewrite Em. cbn [mbind result_bind].
  rewrite Hmem. reflexivity.
Qed.

(** C10: the CPU ranking has [min (n - 1) 5] entries for a table of [n]
    processes, so none for a table of one process or none.  The collector
    does return it when [psutil] read the percentage of every process and
    the count of logical cores is a positive [int]; for a table of at most
    one process nothing is compared or divided, and it returns the empty
    ranking whatever the CPU percentage and the core count are. *)
Theorem top_cpu_count (h : host) :
  (forall d, collect_top_processes h = Ok (VDict d) ->
     exists l, d !! "cpu" = Some (VList l)
       /\ length l = Nat.min (length (process_iter_cpu h) - 1) 5
       /\ (length (process_iter_cpu h) <= 1 -> l = [])%nat)
  /\ (forall n,
        Ranking.measured cpu_percent (process_iter_cpu h) ->
        Ranking.measured memory_percent (process_iter_memory h) ->
        cpu_count_logical h = Some n -> 1 <= n < 2 ^ 1000 ->
        exists d, collect_top_processes h = Ok (VDict d))
  /\ ((length (process_iter_cpu h) <= 1)%nat ->
      Ranking.measured memory_percent (process_iter_memory h) ->
      exists d, collect_top_processes h = Ok (VDict d) /\ d !! "cpu" = Some (VList [])).
Proof.
  split; [|split].
  - intros d Hd.
    apply collect_top_processes_Ok in Hd as (by_cpu & by_memory & cpu & memory
                                              & Ec & Hc & _ & _ & [= ->]).
    exists cpu. split; [rewrite lookup_insert_ne by discriminate; apply lookup_insert_eq|].
    apply mapM_Ok, Forall2_length in Hc.
    apply sorted_reverse_by_length in Ec.
    rewrite length_take, length_drop, Ec in Hc.
    split; [lia|]. intros Hn. destruct cpu; [reflexivity|]. cbn [length] in Hc. lia.
  - intros n Mc Mm Hc Hn.
    destruct (collect_top_processes_measured h n Mc Mm Hc Hn)
      as (? & ? & cpu & memory & ? & E & _). eexists. exact E.
  - intros L Mm.
    destruct (memory_part_measured _ Mm) as (by_memory & memory & Em & _ & _ & Hmem & _).
    exists (<["memory" := VList memory]> (<["cpu" := VList []]> ∅)).
    split; [|rewrite lookup_insert_ne by discriminate; apply lookup_insert_eq].
    unfold collect_top_processes, top_cpu_processes.
    destruct (process_iter_cpu h) as [|a [|b t]]; cbn in L; try lia.
    all: cbn [PySort.sorted_reverse_by drop take mapM mbind result_bind].
    all: rewrite Em; cbn [mbind result_bind]; rewrite Hmem; reflexivity.
Qed.

(** One process in the table: the CPU ranking is empty. *)
Example top_cpu_count_single :
  exists d, collect_top_processes failing_host = Ok (VDict d)
            /\ d !! "cpu" = Some (VList []).
Proof. eexists; split; reflexivity. Qed.

(** C1: on a process table that [psutil] measured (every CPU percentage a
    float, none NaN), with a positive count of logical cores, the collector
    returns a CPU ranking of at most 5 entries: they are the processes at
    places 2 to 6 of the table put in descending order of the CPU
    percentage, so that exactly the first process of that order, one of
    greatest percentage, is left out; each entry reports the raw percentage
    of its process divided by the count of logical cores. *)
Theorem top_cpu_ranking (h : host) (n : Z) :
  Ranking.measured cpu_percent (process_iter_cpu h) ->
  Ranking.measured memory_percent (process_iter_memory h) ->
  cpu_count_logical h = Some n -> 1 <= n < 2 ^ 1000 ->
  exists (ranking : list proc_info) (l : list pyval) (d : gmap string pyval) (y : pyfloat),
    collect_top_processes h = Ok (VDict d)
    /\ d !! "cpu" = Some (VList l)
    /\ PyNum.of_int n = Ok y
    /\ ranking ≡ₚ process_iter_cpu h
    /\ StronglySorted (Ranking.before cpu_percent) ranking
    /\ (forall top rest, ranking = top :: rest ->
          forall p, p ∈ process_iter_cpu h -> Ranking.before cpu_percent top p)
    /\ (length l <= 5)%nat
    /\ Forall2 (Ranking.cpu_entry_of y) (take 5 (drop 1 ranking)) l.
Proof.
  intros Mc Mm Hc Hn.
  destruct (collect_top_processes_measured h n Mc Mm Hc Hn)
    as (by_cpu & by_memory & cpu & memory & y & E & Hy & Pc & Sc & Fc & _).
  eexists by_cpu, cpu, _, y. split; [exact E|].
  split; [rewrite lookup_insert_ne by discriminate; apply lookup_insert_eq|].
  split; [exact Hy|]. split; [exact Pc|]. split; [exact Sc|].
  split.
  - intros top rest Er p Hp. rewrite <- Pc in Hp.
    eapply before_head; [|exact Sc|exact Er|exact Hp].
    eapply measured_sublist; [exact Mc|]. intros q Hq. rewrite <- Pc. exact Hq.
  - split; [|exact Fc].
    apply Forall2_length in Fc. rewrite <- Fc, length_take. lia.
Qed.

Lemma top_cpu_ranking_witness :
  exists (ranking : list proc_info) (l : list pyval) (d : gmap string pyval) (y : pyfloat),
    collect_top_processes sample_host = Ok (VDict d)
    /\ d !! "cpu" = Some (VList l)
    /\ PyNum.of_int 4 = Ok y
    /\ ranking ≡ₚ process_iter_cpu sample_host
    /\ StronglySorted (Ranking.before cpu_percent) ranking
    /\ (forall top rest, ranking = top :: rest ->
          forall p, p ∈ process_iter_cpu sample_host -> Ranking.before cpu_percent top p)
    /\ (length l <= 5)%nat
    /\ Forall2 (Ranking.cpu_entry_of y) (take 5 (drop 1 ranking)) l.
Proof.
  apply (top_cpu_ranking sample_host 4).
  - repeat constructor; eexists; split; reflexivity.
  - repeat constructor; eexists; split; reflexivity.
  - reflexivity.
  - split; [lia | reflexivity].
Defined.

(** On the sample host "report" (50.0%) leads and is left out; "editor"
    (12.5% of 4 cores) and "init" follow. *)
Example top_cpu_ranking_sample :
  exists d, collect_top_processes sample_host = Ok (VDict d)
    /\ d !! "cpu" = Some (VList [
         VDict {[ "pid" := VInt 9; "name" := VStr "editor"; "cpu" := VFloat (FNum false 25 (-3)) ]};
         VDict {[ "pid" := VInt 1; "name" := VStr "init"; "cpu" := VFloat (FNum false 3 (-2)) ]} ]).
Proof. eexists; split; reflexivity. Qed.

(** ** The memory ranking *)

Lemma memory_of_entry (p : proc_info) (v : pyval) (x : pyfloat) :
  Ranking.memory_entry_of p v -> memory_percent p = Has x ->
  memory_of v = PyFloat.round2 x.
Proof.
  intros (x' & E & ->) Hx. rewrite Hx in E. injection E as <-. reflexivity.
Qed.

Lemma memory_entries_sorted (ps : list proc_info) (l : list pyval) :
  Forall2 Ranking.memory_entry_of ps l ->
  StronglySorted (Ranking.before memory_percent) ps -> StronglySorted memory_desc l.
Proof.
  induction 1 as [|p v ps l Hpv Hl IH]; intros Hs; [constructor|].
  apply StronglySorted_inv in Hs as [Hs Hp]. constructor; [apply IH, Hs|].
  clear IH Hs. induction Hl as [|p' v' ps l Hpv' Hl IH]; [constructor|].
  apply Forall_cons in Hp as [(x & y & Ex & Ey & L) Hp]. constructor; [|apply IH, Hp].
  unfold memory_desc.
  rewrite (memory_of_entry _ _ _ Hpv Ex), (memory_of_entry _ _ _ Hpv' Ey).
  apply round2_mono, L.
Qed.

Lemma memory_entries_bounded (ps : list proc_info) (l : list pyval) :
  Forall2 Ranking.memory_entry_of ps l ->
  (forall p x, p ∈ ps -> memory_percent p = Has x -> at_most_100 x) ->
  Forall (fun v => at_most_100 (memory_of v)) l.
Proof.
  induction 1 as [|p v ps l Hpv Hl IH]; intros Hb; [constructor|].
  constructor.
  - destruct Hpv as (x & Ex & ->). unfold at_most_100. cbn.
    change f100 with (PyFloat.round2 f100). apply round2_mono.
    apply (Hb p x); [left | exact Ex].
  - apply IH. intros q y Hq. apply Hb. right. exact Hq.
Qed.

(** C4, as the code has it: on a process table that [psutil] measured (every
    memory percentage a float, none NaN) the collector returns a memory
    ranking of at most 5 entries, the first 5 processes of the table put in
    descending order of the memory percentage; each entry reports the raw
    percentage of its process rounded to two decimals and divided by
    nothing; the reported values do not increase along the list; and no
    reported value exceeds 100 when no raw percentage of the table does (the
    code applies no bound of its own). *)
Theorem top_memory_ranking (h : host) (n : Z) :
  Ranking.measured cpu_percent (process_iter_cpu h) ->
  Ranking.measured memory_percent (process_iter_memory h) ->
  cpu_count_logical h = Some n -> 1 <= n < 2 ^ 1000 ->
  exists (ranking : list proc_info) (l : list pyval) (d : gmap string pyval),
    collect_top_processes h = Ok (VDict d)
    /\ d !! "memory" = Some (VList l)
    /\ ranking ≡ₚ process_iter_memory h
    /\ StronglySorted (Ranking.before memory_percent) ranking
    /\ (length l <= 5)%nat
    /\ Forall2 Ranking.memory_entry_of (take 5 ranking) l
    /\ StronglySorted memory_desc l
    /\ ((forall p x, p ∈ process_iter_memory h -> memory_percent p = Has x -> at_most_100 x) ->
        Forall (fun v => at_most_100 (memory_of v)) l).
Proof.
  intros Mc Mm Hc Hn.
  destruct (collect_top_processes_measured h n Mc Mm Hc Hn)
    as (by_cpu & by_memory & cpu & memory & y & E & _ & _ & _ & _ & Pm & Sm & Fm).
  eexists by_memory, memory, _. split; [exact E|].
  split; [apply lookup_insert_eq|].
  split; [exact Pm|]. split; [exact Sm|].
  split; [apply Forall2_length in Fm; rewrite <- Fm, length_take; lia|].
  split; [exact Fm|].
  split.
  - eapply memory_entries_sorted; [exact Fm|]. apply StronglySorted_take, Sm.
  - intros Hb. eapply memory_entries_bounded; [exact Fm|].
    intros p x Hp. apply Hb. rewrite <- Pm. apply (elem_of_take_drop 5 0), Hp.
Qed.

Lemma top_memory_ranking_witness :
  exists (ranking : list proc_info) (l : list pyval) (d : gmap string pyval),
    collect_top_processes sample_host = Ok (VDict d)
    /\ d !! "memory" = Some (VList l)
    /\ ranking ≡ₚ process_iter_memory sample_host
    /\ StronglySorted (Ranking.before memory_percent) ranking
    /\ (length l <= 5)%nat
    /\ Forall2 Ranking.memory_entry_of (take 5 ranking) l
    /\ StronglySorted memory_desc l
    /\ ((forall p x, p ∈ process_iter_memory sample_host -> memory_percent p = Has x ->
           at_most_100 x) ->
        Forall (fun v => at_most_100 (memory_of v)) l).
Proof.
  apply (top_memory_ranking sample_host 4).
  - repeat constructor; eexists; split; reflexivity.
  - repeat constructor; eexists; split; reflexivity.
  - reflexivity.
  - split; [lia | reflexivity].
Defined.

(** C4 as the specification words it, with the bound of 100 for every
    process table, fails: the code passes on whatever percentage the table
    holds, here 150.0. *)
Lemma top_memory_unbounded :
  ~ (forall h d l,
       collect_top_processes h = Ok (VDict d) -> d !! "memory" = Some (VList l) ->
       Forall (fun v => at_most_100 (memory_of v)) l).
Proof.
  intros H.
  assert (Hc : exists d, collect_top_processes failing_host = Ok (VDict d)
                 /\ d !! "memory" = Some (VList [
                      VDict {[ "pid" := VInt 1; "name" := VStr "init";
                               "memory" := VFloat f150 ]} ])).
  { eexists; split; reflexivity. }
  destruct Hc as (d & Hd & Hl). specialize (H _ _ _ Hd Hl).
  apply Forall_cons in H as [H _]. vm_compute in H. discriminate.
Qed.

(** On the sample host: 50.0, 12.5 and 3.0 percent, in this order. *)
Example top_memory_ranking_sample :
  exists d, collect_top_processes sample_host = Ok (VDict d)
    /\ d !! "memory" = Some (VList [
         VDict {[ "pid" := VInt 9; "name" := VStr "editor"; "memory" := VFloat f50 ]};
         VDict {[ "pid" := VInt 7; "name" := VStr "report"; "memory" := VFloat f12_5 ]};
         VDict {[ "pid" := VInt 1; "name" := VStr "init"; "memory" := VFloat f3 ]} ]).
Proof. eexists; split; reflexivity. Qed.
(** ** collect_hardware_info *)

Lemma gb_string_Ok (b : pyval) (s : string) :
  gb_string b = Ok s ->
  exists q r t,
    PyNum.truediv b (VInt (1024 ^ 3)) = Ok q
    /\ PyNum.round_2 q = Ok r
    /\ PyFormat.fmt r = Ok t
    /\ s = t +:+ " GB".
Proof.
  unfold gb_string. change PyNum.GiB with (1024 ^ 3)%Z.
  destruct (PyNum.truediv _ _) as [q|] eqn:Eq; cbn; [|discriminate].
  destruct (PyNum.round_2 q) as [r|] eqn:Er; cbn; [|discriminate].
  destruct (PyFormat.fmt r) as [t|] eqn:Et; cbn; [|discriminate].
  intros [= <-]. exists q, r, t. repeat split; assumption.
Qed.

Lemma disk_entry_spec (h : host) (p : partition) (v : pyval) :
  disk_entry h p = Ok v -> disk_entry_of h p v.
Proof.
  unfold disk_entry.
  destruct (disk_usage_free h (mountpoint p)) as [free|] eqn:Ef; cbn; [|discriminate].
  destruct (gb_string free) as [s|] eqn:Es; cbn; [|discriminate].
  intros [= <-]. eexists _, free, s. split; [reflexivity|].
  split; [apply lookup_insert_eq|].
  split; [rewrite lookup_insert_ne by discriminate; apply lookup_insert_eq|].
  split; [do 2 (rewrite lookup_insert_ne by discriminate); apply lookup_insert_eq|].
  split; [exact Ef|]. split; [exact Es|].
  do 3 (rewrite lookup_insert_ne by discriminate). apply lookup_insert_eq.
Qed.

Lemma disk_entries (h : host) (ps : list partition) (l : list pyval) :
  mapM (disk_entry h) ps = Ok l -> Forall2 (disk_entry_of h) ps l.
Proof.
  intros H. apply mapM_Ok in H. eapply Forall2_impl; [exact H|].
  intros p v. apply disk_entry_spec.
Qed.

(** What [check_output] makes of the outcome of a command. *)
Lemma check_output_cases (o : cmd_outcome) :
  (exists out, o = Exited 0 out /\ check_output o = Ok out)
  \/ (exists rc, check_output o = Err (CalledProcessError rc)
        /\ (forall out, o <> Exited 0 out))
  \/ (exists e, o = Raised e /\ check_output o = Err e
        /\ forall rc, e <> CalledProcessError rc).
Proof.
  destruct o as [rc out|e]; cbn [check_output].
  - destruct (Z.eqb_spec rc 0) as [->|Hrc].
    + left. eauto.
    + right. left. exists rc. split; [reflexivity|]. intros out' [= E _]. contradiction.
  - destruct e; try (right; right; eexists; repeat split; discriminate).
    right. left. eexists. split; [reflexivity|]. discriminate.
Qed.

(** A command whose failure the collectors handle: it exited, or the call
    raised [CalledProcessError] itself. *)
Lemma check_output_handled (o : cmd_outcome) :
  (forall e, o = Raised e -> exists rc, e = CalledProcessError rc) ->
  (exists out, o = Exited 0 out /\ check_output o = Ok out)
  \/ (exists rc, check_output o = Err (CalledProcessError rc) /\ forall out, o <> Exited 0 out).
Proof.
  intros Hr. destruct (check_output_cases o) as [?|[?|(e & -> & _ & N)]]; auto.
  destruct (Hr e eq_refl) as [rc ->]. destruct (N rc eq_refl).
Qed.

Lemma gpu_of_other (o : cmd_outcome) : (forall out, o <> Exited 0 out) -> gpu_of o = "None".
Proof. intros N. destruct o as [[|p|p] out|e]; try reflexivity. destruct (N out eq_refl). Qed.

(** [collect_hardware_info] returns exactly when the four memory figures
    convert, every partition gives its entry and [lspci] raised nothing the
    handler does not catch; the record is then the one below. *)
Lemma collect_hardware_info_iff (h : host) (v : pyval) :
  collect_hardware_info h = Ok v <->
  exists total used swap_total swap_used disks,
    gb_string (virtual_memory_total h) = Ok total
    /\ gb_string (virtual_memory_used h) = Ok used
    /\ gb_string (swap_memory_total h) = Ok swap_total
    /\ gb_string (swap_memory_used h) = Ok swap_used
    /\ mapM (disk_entry h) (disk_partitions h) = Ok disks
    /\ (forall e, lspci h = Raised e -> exists rc, e = CalledProcessError rc)
    /\ v = VDict (<["gpu" := VStr (gpu_of (lspci h))]>
            (<["disks" := VList disks]>
            (<["ram" := VDict {[
                 "total" := VStr total; "used" := VStr used;
                 "swap_total" := VStr swap_total; "swap_used" := VStr swap_used ]}]>
            (<["cpu" := VDict {[
                 "name" := VStr (processor h);
                 "frequency" := VStr (match cpu_freq_max h with
                                      | Some f => PyFormat.format_2f f +:+ " MHz"
                                      | None => "Unknown"
                                      end);
                 "cores" := int_or_none (cpu_count_physical h);
                 "threads" := int_or_none (cpu_count_logical h) ]}]> ∅)))).
Proof.
  unfold collect_hardware_info. split.
  - destruct (gb_string (virtual_memory_total h)) as [total|]; cbn; [|discriminate].
    destruct (gb_string (virtual_memory_used h)) as [used|]; cbn; [|discriminate].
    destruct (gb_string (swap_memory_total h)) as [swap_total|]; cbn; [|discriminate].
    destruct (gb_string (swap_memory_used h)) as [swap_used|]; cbn; [|discriminate].
    destruct (mapM (disk_entry h) (disk_partitions h)) as [disks|] eqn:Ed; cbn; [|discriminate].
    destruct (check_output_cases (lspci h)) as
      [(out & E & ->)|[(rc & Hc & N)|(e & E & -> & N)]]; cbn.
    + rewrite E. intros [= <-]. exists total, used, swap_total, swap_used, disks.
      repeat (split; [reflexivity|]). split; [intros ? [=] | reflexivity].
    + rewrite Hc. intros [= <-]. exists total, used, swap_total, swap_used, disks.
      repeat (split; [reflexivity|]). split.
      * intros e E. rewrite E in Hc. injection Hc as ->. eauto.
      * rewrite (gpu_of_other _ N). reflexivity.
    + destruct e; try discriminate. destruct (N _ eq_refl).
  - intros (total & used & swap_total & swap_used & disks & -> & -> & -> & -> & Hd & Hr & ->).
    cbn. rewrite Hd. cbn.
    destruct (check_output_handled _ Hr) as [(out & E & ->)|(rc & -> & N)]; cbn.
    + rewrite E. reflexivity.
    + rewrite (gpu_of_other _ N). reflexivity.
Qed.

(** The GB string of a count of bytes is the text of the specification. *)
Lemma gb_string_text (b : Z) : 0 <= b < 2 ^ 1000 -> gb_string (VInt b) = Ok (gb_text b).
Proof.
  intros Hb. destruct (gb_string_int b Hb) as [_ E]. rewrite E. unfold gb_text.
  destruct b as [|p|p]; [reflexivity | reflexivity | lia].
Qed.

Lemma disk_entry_bytes (h : host) (p : partition) (free : Z) :
  disk_usage_free h (mountpoint p) = Ok (VInt free) -> 0 <= free < 2 ^ 1000 ->
  exists v, disk_entry h p = Ok v /\ disk_entry_gb h p v.
Proof.
  intros Hf Hb. unfold disk_entry. rewrite Hf. cbn [mbind result_bind].
  rewrite (gb_string_text free Hb). cbn [mbind result_bind].
  eexists. split; [reflexivity|]. exists free. split; [exact Hf | reflexivity].
Qed.

(** C7: where the host reports counts of bytes (ints from 0 up) for the
    memory, the swap and the free space of every partition, the collector
    returns the hardware record, and each gigabyte value of it is the count
    divided by 1024 ** 3, rounded to two decimals and printed with " GB"
    after it.  2 * 1024 ** 3 bytes give "2.0 GB" and 2.345 * 1024 ** 3
    bytes give "2.35 GB". *)
Theorem hardware_gb_values (h : host) (total used swap_total swap_used : Z) :
  virtual_memory_total h = VInt total -> 0 <= total < 2 ^ 1000 ->
  virtual_memory_used h = VInt used -> 0 <= used < 2 ^ 1000 ->
  swap_memory_total h = VInt swap_total -> 0 <= swap_total < 2 ^ 1000 ->
  swap_memory_used h = VInt swap_used -> 0 <= swap_used < 2 ^ 1000 ->
  (forall p, p ∈ disk_partitions h ->
     exists free, disk_usage_free h (mountpoint p) = Ok (VInt free) /\ 0 <= free < 2 ^ 1000) ->
  handled (lspci h) ->
  exists (d : gmap string pyval) (disks : list pyval),
    collect_hardware_info h = Ok (VDict d)
    /\ d !! "ram" = Some (VDict {[
         "total" := VStr (gb_text total); "used" := VStr (gb_text used);
         "swap_total" := VStr (gb_text swap_total);
         "swap_used" := VStr (gb_text swap_used) ]})
    /\ d !! "disks" = Some (VList disks)
    /\ Forall2 (disk_entry_gb h) (disk_partitions h) disks
    /\ gb_text (2 * 1024 ^ 3) = "2.0 GB"
    /\ gb_string (VInt (2 * 1024 ^ 3)) = Ok "2.0 GB"
    /\ gb_string (VFloat f2_345_GiB) = Ok "2.35 GB".
Proof.
  intros E1 B1 E2 B2 E3 B3 E4 B4 Hd Hl.
  destruct (mapM_Forall2 (disk_entry h) (disk_entry_gb h) (disk_partitions h))
    as (disks & Hm & Fd).
  { apply Forall_forall. intros p Hp. destruct (Hd p Hp) as (free & Hf & Hb).
    eapply disk_entry_bytes; eassumption. }
  eexists _, disks. split.
  - apply collect_hardware_info_iff.
    exists (gb_text total), (gb_text used), (gb_text swap_total), (gb_text swap_used), disks.
    rewrite E1, E2, E3, E4.
    split; [apply gb_string_text, B1|]. split; [apply gb_string_text, B2|].
    split; [apply gb_string_text, B3|]. split; [apply gb_string_text, B4|].
    split; [exact Hm|]. split; [exact Hl | reflexivity].
  - split; [do 2 (rewrite lookup_insert_ne by discriminate); apply lookup_insert_eq|].
    split; [rewrite lookup_insert_ne by discriminate; apply lookup_insert_eq|].
    split; [exact Fd|]. split; [|split]; vm_compute; reflexivity.
Qed.

Lemma hardware_gb_values_witness :
  exists (d : gmap string pyval) (disks : list pyval),
    collect_hardware_info sample_host = Ok (VDict d)
    /\ d !! "ram" = Some (VDict {[
         "total" := VStr (gb_text (16 * 1024 ^ 3)); "used" := VStr (gb_text (3 * 1024 ^ 3));
         "swap_total" := VStr (gb_text 0); "swap_used" := VStr (gb_text 0) ]})
    /\ d !! "disks" = Some (VList disks)
    /\ Forall2 (disk_entry_gb sample_host) (disk_partitions sample_host) disks
    /\ gb_text (2 * 1024 ^ 3) = "2.0 GB"
    /\ gb_string (VInt (2 * 1024 ^ 3)) = Ok "2.0 GB"
    /\ gb_string (VFloat f2_345_GiB) = Ok "2.35 GB".
Proof.
  apply (hardware_gb_values sample_host (16 * 1024 ^ 3) (3 * 1024 ^ 3) 0 0).
  - reflexivity.
  - split; [lia | reflexivity].
  - reflexivity.
  - split; [lia | reflexivity].
  - reflexivity.
  - split; [lia | reflexivity].
  - reflexivity.
  - split; [lia | reflexivity].
  - intros p Hp. exists (2 * 1024 ^ 3). split; [reflexivity|]. split; [lia | reflexivity].
  - intros e [=].
Defined.

(** The record of the sample host, as text. *)
Example hardware_gb_sample :
  gb_text (16 * 1024 ^ 3) = "16.0 GB" /\ gb_text (3 * 1024 ^ 3) = "3.0 GB"
  /\ gb_text 0 = "0.0 GB" /\ gb_text 2517924578 = "2.35 GB".
Proof. split; [|split; [|split]]; vm_compute; reflexivity. Qed.

(** The float of the second example is the one Python computes, and byte
    counts that are [int]s round the same way: 2517924577 bytes are 2.34 GB,
    2517924578 bytes 2.35 GB, and a tie goes to the even digit. *)
Example gb_string_samples :
  PyFloat.round_b64 false (2345 * 1024 ^ 3) 1000 = f2_345_GiB
  /\ gb_string (VInt 2517924577) = Ok "2.34 GB"
  /\ gb_string (VInt 2517924578) = Ok "2.35 GB"
  /\ gb_string (VInt (1024 ^ 3 / 8)) = Ok "0.12 GB"
  /\ gb_string (VInt 0) = Ok "0.0 GB"
  /\ gb_string (VInt 16691544064) = Ok "15.55 GB"
  /\ gb_string VNone = Err TypeError.
Proof. repeat split; vm_compute; reflexivity. Qed.

(** ** Reading a document piece by piece *)

Section PieceReading.
Import Html Pieces.

Lemma append_assoc (a b c : string) : (a +:+ b) +:+ c = a +:+ (b +:+ c).
Proof. induction a as [|x a IH]; [reflexivity|]. rewrite !append_cons, IH. reflexivity. Qed.

Lemma append_nil_r (a : string) : a +:+ "" = a.
Proof. induction a as [|x a IH]; [reflexivity|]. rewrite append_cons, IH. reflexivity. Qed.

Lemma feed_opt_app (o : option lexer) (a b : string) :
  feed_opt o (a +:+ b) = feed_opt (feed_opt o a) b.
Proof.
  destruct o as [st|]; [|reflexivity]. cbn [feed_opt].
  revert st; induction a as [|c a IH]; intros st; [reflexivity|].
  rewrite append_cons. cbn [feed]. destruct (step st c); [apply IH | reflexivity].
Qed.

(** Text without "<" is read as text, in one piece. *)
Lemma feed_plain (st : lexer) (v : string) :
  plain v = true -> in_tag st = false ->
  feed st v = Some {| in_tag := false; acc := acc st +:+ v; done := done st |}.
Proof.
  revert st; induction v as [|c v IH]; intros [t a d] Hv Ht; cbn in Ht; subst t.
  - cbn [feed Html.acc Html.done]. rewrite append_nil_r. reflexivity.
  - cbn [plain] in Hv. apply andb_prop in Hv as [Hc Hv].
    cbn [feed]. unfold step. cbn [Html.in_tag Html.acc Html.done].
    destruct (Ascii.eqb c "<"); [discriminate|].
    rewrite (IH {| in_tag := false; acc := a +:+ String c ""; done := d |} Hv eq_refl).
    cbn [Html.acc Html.done]. rewrite append_assoc. reflexivity.
Qed.

Lemma feed_atom_sound (o : option lexer) (a : atom) (st' : lexer) :
  atom_plain a -> feed_atom o a = Some st' -> feed_opt o (atom_str a) = Some st'.
Proof.
  destruct o as [st|]; [|discriminate]. destruct a as [s|v]; cbn; [intros _ H; exact H|].
  intros Hv. destruct (in_tag st) eqn:Et; [discriminate|]. intros [= <-].
  apply feed_plain; assumption.
Qed.

Lemma foldl_None {A : Type} (f : option lexer -> A -> option lexer) (l : list A) :
  (forall a, f None a = None) -> foldl f None l = None.
Proof. intros H. induction l as [|a l IH]; [reflexivity|]. cbn. rewrite H. exact IH. Qed.

Lemma feed_opt_nil (o : option lexer) : feed_opt o "" = o.
Proof. destruct o; reflexivity. Qed.

(** Reading the pieces one by one is reading their concatenation. *)
Lemma foldl_sound {A : Type} (f : option lexer -> A -> option lexer) (str : A -> string)
    (ok : A -> Prop) (l : list A) :
  (forall a, f None a = None) ->
  (forall o a st', ok a -> f o a = Some st' -> feed_opt o (str a) = Some st') ->
  Forall ok l ->
  forall o st', foldl f o l = Some st' -> feed_opt o (join_all (str <$> l)) = Some st'.
Proof.
  intros HN Hf Hl. induction Hl as [|a l Ha Hl IH]; intros o st' H.
  - cbn in *. rewrite feed_opt_nil. exact H.
  - cbn [foldl] in H. cbn [fmap list_fmap join_all]. rewrite feed_opt_app.
    destruct (f o a) as [st1|] eqn:E1; [|rewrite foldl_None in H by exact HN; discriminate].
    rewrite (Hf _ _ _ Ha E1). apply IH, H.
Qed.

Lemma feed_atoms_sound (o : option lexer) (l : list atom) (st' : lexer) :
  Forall atom_plain l -> feed_atoms o l = Some st' -> feed_opt o (atoms_str l) = Some st'.
Proof.
  intros Hl. apply (foldl_sound feed_atom atom_str atom_plain); try assumption.
  - reflexivity.
  - intros; apply feed_atom_sound; assumption.
Qed.

Lemma feed_atoms_None (l : list atom) : feed_atoms None l = None.
Proof. apply foldl_None. reflexivity. Qed.

Lemma feed_piece_sound (o : option lexer) (p : piece) (st' : lexer) :
  piece_plain p -> feed_piece o p = Some st' -> feed_opt o (piece_str p) = Some st'.
Proof.
  destruct p as [a|rs]; cbn [piece_plain feed_piece piece_str].
  - apply feed_atom_sound.
  - intros Hrs. apply (foldl_sound feed_atoms atoms_str (Forall atom_plain)); try assumption.
    + apply feed_atoms_None.
    + intros; apply feed_atoms_sound; assumption.
Qed.

Lemma feed_piece_None (p : piece) : feed_piece None p = None.
Proof.
  destruct p as [a|rs]; [reflexivity|]. cbn [feed_piece].
  apply foldl_None, feed_atoms_None.
Qed.

(** If the document read piece by piece ends outside a tag, its tags and
    texts are the ones read. *)
Lemma lex_pieces (ps : list piece) (st' : lexer) :
  Forall piece_plain ps -> feed_pieces (Some start) ps = Some st' ->
  lex (pieces_str ps) = finish st'.
Proof.
  intros Hp H. unfold lex, pieces_str.
  change (feed start (join_all (piece_str <$> ps)))
    with (feed_opt (Some start) (join_all (piece_str <$> ps))).
  rewrite (foldl_sound feed_piece piece_str piece_plain ps feed_piece_None
             feed_piece_sound Hp _ _ H).
  reflexivity.
Qed.

End PieceReading.

(** ** generate_html_report *)

Lemma report_pieces_str
    (general_date_time general_pc_name general_user_name general_sudo general_os
     general_kernel general_uptime environment_desktop_env environment_resolution
     environment_shell cpu_name cpu_frequency cpu_cores cpu_threads ram_total ram_used
     ram_swap_total ram_swap_used hardware_gpu logs_success logs_warnings logs_errors : string)
    (disk_rows top_cpu_rows top_memory_rows : list (list Pieces.atom)) :
  join_all (report_parts
    general_date_time general_pc_name general_user_name general_sudo general_os
    general_kernel general_uptime environment_desktop_env environment_resolution
    environment_shell cpu_name cpu_frequency cpu_cores cpu_threads ram_total ram_used
    ram_swap_total ram_swap_used hardware_gpu
    (join_all (Pieces.atoms_str <$> disk_rows))
    (join_all (Pieces.atoms_str <$> top_cpu_rows))
    (join_all (Pieces.atoms_str <$> top_memory_rows))
    logs_success logs_warnings logs_errors)
  = Pieces.pieces_str (report_pieces
      general_date_time general_pc_name general_user_name general_sudo general_os
      general_kernel general_uptime environment_desktop_env environment_resolution
      environment_shell cpu_name cpu_frequency cpu_cores cpu_threads ram_total ram_used
      ram_swap_total ram_swap_used hardware_gpu logs_success logs_warnings logs_errors
      disk_rows top_cpu_rows top_memory_rows).
Proof. reflexivity. Qed.

Lemma Forall2_cons_inv_l' {A B : Type} (P : A -> B -> Prop) (x : A) (l : list A) (k : list B) :
  Forall2 P (x :: l) k -> exists y k', k = y :: k' /\ P x y /\ Forall2 P l k'.
Proof. intros H. inversion H; subst. eauto. Qed.

Lemma Forall2_nil_inv_l' {A B : Type} (P : A -> B -> Prop) (k : list B) :
  Forall2 P [] k -> k = [].
Proof. intros H. inversion H. reflexivity. Qed.

Ltac split_fields H :=
  repeat (apply Forall2_cons_inv_l' in H as (? & ? & -> & ? & H));
  apply Forall2_nil_inv_l' in H as ->.

Ltac split_plain H :=
  repeat (apply Forall_cons in H as [? H]); clear H.

(** C9, as the code has it: for a document with one disk entry and one
    process in each ranking, whose interpolated values hold no "<", the
    renderer returns a document that reads as tags and text, every tag
    closed in order, and whose disk table, top-CPU table and top-memory
    table (the fourth, fifth and sixth table) hold one data row each, with
    the values of the entry as the text of its cells. *)
Theorem report_one_row_each (data disk pc pm : pyval) (values dv cv mv : list string) :
  getpath data ["hardware"; "disks"] = Ok (VList [disk]) ->
  getpath data ["processes"; "cpu"] = Ok (VList [pc]) ->
  getpath data ["processes"; "memory"] = Ok (VList [pm]) ->
  has_fields data report_fields values ->
  has_fields disk [["device"]; ["mountpoint"]; ["fstype"]; ["free_space"]] dv ->
  has_fields pc [["pid"]; ["name"]; ["cpu"]] cv ->
  has_fields pm [["pid"]; ["name"]; ["memory"]] mv ->
  all_plain values -> all_plain dv -> all_plain cv -> all_plain mv ->
  exists html ts,
    generate_html_report data = Ok html
    /\ Html.tokens html = Some ts
    /\ Html.balanced ts = true
    /\ length (Html.data_rows ts) = 7%nat
    /\ Html.data_rows ts !! 3%nat = Some [dv]
    /\ (exists pid name cpu, cv = [pid; name; cpu]
          /\ Html.data_rows ts !! 4%nat = Some [[pid; name; cpu +:+ "%"]])
    /\ (exists pid name memory, mv = [pid; name; memory]
          /\ Html.data_rows ts !! 5%nat = Some [[pid; name; memory +:+ "%"]]).
Proof.
  intros Hd Hc Hm Hv Hdv Hcv Hmv Pv Pd Pc Pm.
  unfold has_fields in *.
  split_fields Hv. split_fields Hdv. split_fields Hcv. split_fields Hmv.
  unfold all_plain in *. split_plain Pv. split_plain Pd. split_plain Pc. split_plain Pm.
  unfold generate_html_report, rows_html, disk_row, process_row, field.
  rewrite Hd, Hc, Hm. cbn [mbind result_bind py_iter mapM].
  repeat match goal with E : fieldpath _ _ = Ok _ |- _ => rewrite E; clear E end.
  cbn [mbind result_bind mret result_ret fmap result_fmap].
  match goal with
  | |- context [join_all [join_all ["<tr><td>"; ?a; _; ?b; _; ?c; _; ?d; _]]] =>
      change (join_all [join_all ["<tr><td>"; a; "</td><td>"; b; "</td><td>"; c;
                                  "</td><td>"; d; "</td></tr>"]])
        with (join_all (Pieces.atoms_str <$> [disk_row_atoms a b c d]))
  end.
  repeat match goal with
  | |- context [join_all [join_all ["<tr><td>"; ?a; _; ?b; _; ?c; "%</td></tr>"]]] =>
      change (join_all [join_all ["<tr><td>"; a; "</td><td>"; b; "</td><td>"; c;
                                  "%</td></tr>"]])
        with (join_all (Pieces.atoms_str <$> [process_row_atoms a b c]))
  end.
  rewrite report_pieces_str.
  match goal with
  | |- context [Pieces.pieces_str ?ps] =>
      assert (Hl : exists st, Pieces.feed_pieces (Some Html.start) ps = Some st
                     /\ Html.lex (Pieces.pieces_str ps) = Html.finish st)
  end.
  { eexists. split; [vm_compute; reflexivity|].
    apply lex_pieces; [|vm_compute; reflexivity].
    repeat constructor; assumption. }
  destruct Hl as (st & Hst & Hl). vm_compute in Hst. injection Hst as <-.
  eexists _, _. split; [reflexivity|].
  unfold Html.tokens. rewrite Hl.
  split; [vm_compute; reflexivity|].
  split; [vm_compute; reflexivity|].
  split; [vm_compute; reflexivity|].
  split; [vm_compute; reflexivity|].
  split; eexists _, _, _; (split; [reflexivity|]); vm_compute; reflexivity.
Qed.

Lemma report_one_row_each_witness :
  exists html ts,
    generate_html_report (scenario_doc "editor") = Ok html
    /\ Html.tokens html = Some ts
    /\ Html.balanced ts = true
    /\ length (Html.data_rows ts) = 7%nat
    /\ Html.data_rows ts !! 3%nat = Some [["/dev/sda1"; "/"; "ext4"; "2.0 GB"]]
    /\ (exists pid name cpu, ["9"; "editor"; "12.5"] = [pid; name; cpu]
          /\ Html.data_rows ts !! 4%nat = Some [[pid; name; cpu +:+ "%"]])
    /\ (exists pid name memory, ["9"; "editor"; "3.0"] = [pid; name; memory]
          /\ Html.data_rows ts !! 5%nat = Some [[pid; name; memory +:+ "%"]]).
Proof.
  apply (report_one_row_each (scenario_doc "editor")
           (VDict {[ "device" := VStr "/dev/sda1"; "mountpoint" := VStr "/";
                     "fstype" := VStr "ext4"; "free_space" := VStr "2.0 GB" ]})
           (VDict {[ "pid" := VInt 9; "name" := VStr "editor"; "cpu" := VFloat f12_5 ]})
           (VDict {[ "pid" := VInt 9; "name" := VStr "editor"; "memory" := VFloat f3 ]})
           ["2024-03-01 12:30:05"; "box"; "alice"; "No"; "Linux"; "6.1.0"; "2 days, 3:30:05";
            "GNOME"; "1920x1080"; "/bin/bash"; "x86_64"; "3400.00 MHz"; "2"; "4";
            "16.0 GB"; "3.0 GB"; "0.0 GB"; "0.0 GB"; "None"; "3"; "1"; "0"]
           ["/dev/sda1"; "/"; "ext4"; "2.0 GB"] ["9"; "editor"; "12.5"] ["9"; "editor"; "3.0"]);
    try reflexivity; repeat constructor.
Defined.

(** C9 as the specification words it, for every such document, fails: the
    values are interpolated as they are, so a process named "<b>" opens an
    element that nothing closes. *)
Lemma report_markup_in_value :
  exists html,
    generate_html_report (scenario_doc "<b>") = Ok html /\ ~ Html.well_formed html.
Proof.
  eexists. split; [vm_compute; reflexivity|].
  intros (ts & Ht & Hb). vm_compute in Ht. injection Ht as <-.
  vm_compute in Hb. discriminate.
Qed.

(** ** main *)

Lemma collect_general_info_Ok (h : host) (v : pyval) :
  collect_general_info h = Ok v ->
  exists user euid,
    getlogin h = Ok user /\ geteuid h = Some euid
    /\ v = VDict {[
         "date_time" := VStr (PyDate.strftime ":" (now_report h));
         "pc_name" := VStr (node h);
         "user_name" := VStr user;
         "sudo" := VStr (if euid =? 0 then "Yes" else "No");
         "os" := VStr (system h);
         "kernel" := VStr (release h);
         "uptime" := PyDate.sub (now_uptime h) (boot_time h) ]}.
Proof.
  unfold collect_general_info.
  destruct (getlogin h) as [user|]; cbn; [|discriminate].
  destruct (geteuid h) as [euid|]; cbn; [|discriminate].
  intros [= <-]. exists user, euid. repeat split.
Qed.

Lemma collect_environment_info_Ok (h : host) (v : pyval) :
  collect_environment_info h = Ok v ->
  v = VDict (<["shell" := VStr (default "Unknown" (environ h !! "SHELL"))]>
            (<["resolution" := VStr (resolution_of (xrandr h))]>
            (<["desktop_env" := VStr (default "Unknown" (environ h !! "XDG_CURRENT_DESKTOP"))]>
             ∅))).
Proof.
  unfold collect_environment_info.
  destruct (check_output_cases (xrandr h)) as
    [(out & E & ->)|[(rc & -> & N)|(e & E & -> & N)]]; cbn.
  - rewrite E. intros [= <-]. reflexivity.
  - intros [= <-]. do 4 f_equal.
    destruct (xrandr h) as [[|p|p] out|e]; try reflexivity. destruct (N out eq_refl).
  - destruct e; try discriminate. destruct (N _ eq_refl).
Qed.

Lemma analyze_logs_Ok (h : host) (v : pyval) :
  analyze_logs h = Ok v -> v = VDict (logs_of (journalctl h)).
Proof.
  unfold analyze_logs.
  destruct (check_output_cases (journalctl h)) as
    [(out & E & ->)|[(rc & -> & N)|(e & E & -> & N)]]; cbn.
  - rewrite E. intros [= <-]. reflexivity.
  - intros [= <-]. f_equal.
    destruct (journalctl h) as [[|p|p] out|e]; try reflexivity. destruct (N out eq_refl).
  - destruct e; try discriminate. destruct (N _ eq_refl).
Qed.

Lemma collect_hardware_info_shape (h : host) (v : pyval) :
  collect_hardware_info h = Ok v ->
  exists total used swap_total swap_used disks,
    Forall2 (disk_entry_of h) (disk_partitions h) disks
    /\ v = VDict (<["gpu" := VStr (gpu_of (lspci h))]>
            (<["disks" := VList disks]>
            (<["ram" := VDict {[
                 "total" := VStr total; "used" := VStr used;
                 "swap_total" := VStr swap_total; "swap_used" := VStr swap_used ]}]>
            (<["cpu" := VDict {[
                 "name" := VStr (processor h);
                 "frequency" := VStr (match cpu_freq_max h with
                                      | Some f => PyFormat.format_2f f +:+ " MHz"
                                      | None => "Unknown"
                                      end);
                 "cores" := int_or_none (cpu_count_physical h);
                 "threads" := int_or_none (cpu_count_logical h) ]}]> ∅)))).
Proof.
  unfold collect_hardware_info.
  destruct (gb_string (virtual_memory_total h)) as [total|]; cbn; [|discriminate].
  destruct (gb_string (virtual_memory_used h)) as [used|]; cbn; [|discriminate].
  destruct (gb_string (swap_memory_total h)) as [swap_total|]; cbn; [|discriminate].
  destruct (gb_string (swap_memory_used h)) as [swap_used|]; cbn; [|discriminate].
  destruct (mapM (disk_entry h) (disk_partitions h)) as [disks|] eqn:Ed; cbn; [|discriminate].
  apply disk_entries in Ed.
  destruct (check_output_cases (lspci h)) as
    [(out & E & ->)|[(rc & -> & N)|(e & E & -> & N)]]; cbn.
  - rewrite E. intros [= <-]. exists total, used, swap_total, swap_used, disks.
    split; [exact Ed | reflexivity].
  - intros [= <-]. exists total, used, swap_total, swap_used, disks.
    split; [exact Ed|]. do 4 f_equal.
    destruct (lspci h) as [[|p|p] out|e]; try reflexivity. destruct (N out eq_refl).
  - destruct e; try discriminate. destruct (N _ eq_refl).
Qed.

Lemma fmt_int_or_none (x : option Z) : exists s, PyFormat.fmt (int_or_none x) = Ok s.
Proof. destruct x; eexists; reflexivity. Qed.

Lemma fmt_info_pid (x : attr Z) : exists s, PyFormat.fmt (info_get VInt x VNone) = Ok s.
Proof. destruct x; eexists; reflexivity. Qed.

Lemma fmt_info_name (x : attr string) :
  exists s, PyFormat.fmt (info_get VStr x (VStr "Unknown")) = Ok s.
Proof. destruct x; eexists; reflexivity. Qed.

Lemma truediv_float (a b v : pyval) :
  PyNum.truediv a b = Ok v -> exists f, v = VFloat f.
Proof.
  assert (F : forall r : result pyfloat, VFloat <$> r = Ok v -> exists f, v = VFloat f).
  { intros [f|e]; cbn; [intros [= <-]; eauto | discriminate]. }
  unfold PyNum.truediv.
  destruct (PyNum.as_num a) as [[m|x]|], (PyNum.as_num b) as [[n|y]|];
    try discriminate; cbn [PyNum.to_float mbind result_bind]; try apply F.
  - destruct (PyNum.of_int m); cbn; [apply F | discriminate].
  - destruct (PyNum.of_int n); cbn; [apply F | discriminate].
Qed.

Lemma round_2_scalar (a v : pyval) :
  PyNum.round_2 a = Ok v -> exists s, PyFormat.fmt v = Ok s.
Proof.
  unfold PyNum.round_2. destruct (PyNum.as_num a) as [[n|x]|]; try discriminate;
    intros [= <-]; eexists; reflexivity.
Qed.

Lemma field_lookup (e : gmap string pyval) (k : string) (x : pyval) (s : string) :
  e !! k = Some x -> PyFormat.fmt x = Ok s -> field (VDict e) k = Ok s.
Proof.
  intros Hk Hs. unfold field, fieldpath. cbn [getpath getitem]. rewrite Hk. cbn. exact Hs.
Qed.

Lemma disk_entry_ready (h : host) (p : partition) (v : pyval) :
  disk_entry_of h p v -> row_ready ["device"; "mountpoint"; "fstype"; "free_space"] v.
Proof.
  intros (e & free & s & -> & H1 & H2 & H3 & _ & _ & H4).
  repeat constructor; eexists; (eapply field_lookup; [eassumption | reflexivity]).
Qed.

Lemma cpu_entry_ready (logical_cores : pyval) (p : proc_info) (v : pyval) :
  cpu_entry logical_cores p = Ok v -> row_ready ["pid"; "name"; "cpu"] v.
Proof.
  unfold cpu_entry.
  destruct (PyNum.truediv _ _) as [cpu|e] eqn:E; cbn [mbind result_bind]; [|discriminate].
  intros [= <-].
  destruct (fmt_info_pid (pid p)) as [s Hs]. destruct (fmt_info_name (name p)) as [t Ht].
  destruct (truediv_float _ _ _ E) as [f ->].
  constructor; [eexists; eapply field_lookup; [apply lookup_insert_eq | exact Hs]|].
  constructor;
    [eexists; eapply field_lookup;
       [rewrite lookup_insert_ne by discriminate; apply lookup_insert_eq | exact Ht]|].
  constructor; [|constructor].
  eexists; eapply field_lookup;
    [do 2 (rewrite lookup_insert_ne by discriminate); apply lookup_insert_eq | reflexivity].
Qed.

Lemma memory_entry_ready (p : proc_info) (v : pyval) :
  memory_entry p = Ok v -> row_ready ["pid"; "name"; "memory"] v.
Proof.
  unfold memory_entry.
  destruct (PyNum.round_2 _) as [m|e] eqn:E; cbn [mbind result_bind]; [|discriminate].
  intros [= <-].
  destruct (fmt_info_pid (pid p)) as [s Hs]. destruct (fmt_info_name (name p)) as [t Ht].
  destruct (round_2_scalar _ _ E) as [u Hu].
  constructor; [eexists; eapply field_lookup; [apply lookup_insert_eq | exact Hs]|].
  constructor;
    [eexists; eapply field_lookup;
       [rewrite lookup_insert_ne by discriminate; apply lookup_insert_eq | exact Ht]|].
  constructor; [|constructor].
  eexists; eapply field_lookup;
    [do 2 (rewrite lookup_insert_ne by discriminate); apply lookup_insert_eq | exact Hu].
Qed.

Lemma disk_row_total (v : pyval) :
  row_ready ["device"; "mountpoint"; "fstype"; "free_space"] v ->
  exists r, disk_row v = Ok r.
Proof.
  intros H. unfold row_ready in H.
  apply Forall_cons in H as [[s1 E1] H]. apply Forall_cons in H as [[s2 E2] H].
  apply Forall_cons in H as [[s3 E3] H]. apply Forall_cons in H as [[s4 E4] _].
  unfold disk_row. rewrite E1, E2, E3, E4. eexists; reflexivity.
Qed.

Lemma process_row_total (metric : string) (v : pyval) :
  row_ready ["pid"; "name"; metric] v -> exists r, process_row metric v = Ok r.
Proof.
  intros H. unfold row_ready in H.
  apply Forall_cons in H as [[s1 E1] H]. apply Forall_cons in H as [[s2 E2] H].
  apply Forall_cons in H as [[s3 E3] _].
  unfold process_row. rewrite E1, E2, E3. eexists; reflexivity.
Qed.

Lemma rows_html_total (row : pyval -> result string) (keys : list string) (l : list pyval) :
  (forall v, row_ready keys v -> exists r, row v = Ok r) ->
  Forall (row_ready keys) l -> exists r, rows_html row (VList l) = Ok r.
Proof.
  intros Hrow Hl. unfold rows_html. cbn [py_iter mbind result_bind].
  destruct (mapM_total row l) as [rs ->]; [|eexists; reflexivity].
  eapply Forall_impl; [exact Hl | exact Hrow].
Qed.

(** The renderer returns a document for every aggregate document that has
    its scalar fields and whose three lists hold entries with theirs. *)
Lemma generate_html_report_total (data : pyval) (values : list string)
    (disks cpu memory : list pyval) :
  has_fields data report_fields values ->
  getpath data ["hardware"; "disks"] = Ok (VList disks) ->
  getpath data ["processes"; "cpu"] = Ok (VList cpu) ->
  getpath data ["processes"; "memory"] = Ok (VList memory) ->
  Forall (row_ready ["device"; "mountpoint"; "fstype"; "free_space"]) disks ->
  Forall (row_ready ["pid"; "name"; "cpu"]) cpu ->
  Forall (row_ready ["pid"; "name"; "memory"]) memory ->
  exists html, generate_html_report data = Ok html.
Proof.
  intros Hv Hd Hc Hm Rd Rc Rm. unfold has_fields in Hv. split_fields Hv.
  destruct (rows_html_total disk_row _ disks disk_row_total Rd) as [r1 E1].
  destruct (rows_html_total (process_row "cpu") _ cpu (process_row_total "cpu") Rc) as [r2 E2].
  destruct (rows_html_total (process_row "memory") _ memory (process_row_total "memory") Rm)
    as [r3 E3].
  unfold generate_html_report. rewrite Hd, Hc, Hm. cbn [mbind result_bind].
  rewrite E1, E2, E3.
  repeat match goal with E : fieldpath _ _ = Ok _ |- _ => rewrite E; clear E end.
  eexists; reflexivity.
Qed.

Lemma collect_all_Ok (h : host) (doc : pyval) :
  collect_all h = Ok doc ->
  exists general environment hardware processes logs,
    collect_general_info h = Ok general
    /\ collect_environment_info h = Ok environment
    /\ collect_hardware_info h = Ok hardware
    /\ collect_top_processes h = Ok processes
    /\ analyze_logs h = Ok logs
    /\ doc = VDict {[ "general" := general; "environment" := environment;
                     "hardware" := hardware; "processes" := processes; "logs" := logs ]}.
Proof.
  unfold collect_all.
  destruct (collect_general_info h) as [g|]; cbn; [|discriminate].
  destruct (collect_environment_info h) as [e|]; cbn; [|discriminate].
  destruct (collect_hardware_info h) as [hw|]; cbn; [|discriminate].
  destruct (collect_top_processes h) as [p|]; cbn; [|discriminate].
  destruct (analyze_logs h) as [l|]; cbn; [|discriminate].
  intros [= <-]. exists g, e, hw, p, l. repeat split.
Qed.

Lemma logs_of_fields (o : cmd_outcome) :
  exists a b c, logs_of o !! "success" = Some (VInt a)
    /\ logs_of o !! "warnings" = Some (VInt b)
    /\ logs_of o !! "errors" = Some (VInt c)
    /\ ((forall out, o <> Exited 0 out) -> a = 0 /\ b = 0 /\ c = 0)%Z.
Proof.
  destruct o as [[|p|p] out|e]; cbn [logs_of];
    try (exists 0%Z, 0%Z, 0%Z; repeat split; reflexivity).
  unfold count_markers. eexists _, _, _.
  split; [do 2 (rewrite lookup_insert_ne by discriminate); apply lookup_insert_eq|].
  split; [rewrite lookup_insert_ne by discriminate; apply lookup_insert_eq|].
  split; [apply lookup_insert_eq|]. intros N. destruct (N out eq_refl).
Qed.

(** C5: when the orchestrator completes, the document it hands to the
    renderer has the five top-level fields, each a record with all of its
    own fields, whatever the three shell commands did.  The resolution is
    the stripped output of the display command when this is not empty, and
    "Unknown" in every other case: a status other than 0, or an output that
    is empty once stripped, which is how a missing [xrandr] shows (the
    pipeline ends with the status of [awk]).  In the same way the GPU is the
    stripped output of [lspci] or "None"; the three log counts are 0 where
    [journalctl] exited with a status other than 0; and an unset environment
    variable reads "Unknown".  Every field the template interpolates is
    there and the renderer returns a document for it. *)
Theorem collect_all_complete (h : host) (doc : pyval) :
  collect_all h = Ok doc ->
  (exists general environment hardware processes logs : gmap string pyval,
     doc = VDict {[ "general" := VDict general; "environment" := VDict environment;
                    "hardware" := VDict hardware; "processes" := VDict processes;
                    "logs" := VDict logs ]})
  /\ (exists values, has_fields doc report_fields values)
  /\ (exists disks cpu memory,
        getpath doc ["hardware"; "disks"] = Ok (VList disks)
        /\ getpath doc ["processes"; "cpu"] = Ok (VList cpu)
        /\ getpath doc ["processes"; "memory"] = Ok (VList memory)
        /\ Forall (row_ready ["device"; "mountpoint"; "fstype"; "free_space"]) disks
        /\ Forall (row_ready ["pid"; "name"; "cpu"]) cpu
        /\ Forall (row_ready ["pid"; "name"; "memory"]) memory)
  /\ (forall out, xrandr h = Exited 0 out -> PyStr.strip out <> "" ->
      fieldpath doc ["environment"; "resolution"] = Ok (PyStr.strip out))
  /\ ((forall out, xrandr h = Exited 0 out -> PyStr.strip out = "") ->
      fieldpath doc ["environment"; "resolution"] = Ok "Unknown")
  /\ (forall out, lspci h = Exited 0 out -> PyStr.strip out <> "" ->
      fieldpath doc ["hardware"; "gpu"] = Ok (PyStr.strip out))
  /\ ((forall out, lspci h = Exited 0 out -> PyStr.strip out = "") ->
      fieldpath doc ["hardware"; "gpu"] = Ok "None")
  /\ ((forall out, journalctl h <> Exited 0 out) ->
      fieldpath doc ["logs"; "success"] = Ok "0"
      /\ fieldpath doc ["logs"; "warnings"] = Ok "0"
      /\ fieldpath doc ["logs"; "errors"] = Ok "0")
  /\ (forall v, environ h !! "XDG_CURRENT_DESKTOP" = Some v ->
      fieldpath doc ["environment"; "desktop_env"] = Ok v)
  /\ (environ h !! "XDG_CURRENT_DESKTOP" = None ->
      fieldpath doc ["environment"; "desktop_env"] = Ok "Unknown")
  /\ (forall v, environ h !! "SHELL" = Some v ->
      fieldpath doc ["environment"; "shell"] = Ok v)
  /\ (environ h !! "SHELL" = None -> fieldpath doc ["environment"; "shell"] = Ok "Unknown")
  /\ exists html, generate_html_report doc = Ok html.
Proof.
  intros H.
  apply collect_all_Ok in H as (g & e & hw & p & l & Hg & He & Hh & Hp & Hl & ->).
  apply collect_general_info_Ok in Hg as (user & euid & _ & _ & ->).
  apply collect_environment_info_Ok in He as ->.
  apply collect_hardware_info_shape in Hh
    as (total & used & swap_total & swap_used & disks & Hdisks & ->).
  apply collect_top_processes_Ok in Hp as (by_cpu & by_memory & cpu & memory & _ & Hc & _ & Hm & ->).
  apply analyze_logs_Ok in Hl as ->.
  destruct (logs_of_fields (journalctl h)) as (a & b & c & La & Lb & Lc & L0).
  destruct (fmt_int_or_none (cpu_count_physical h)) as [cores Hcores].
  destruct (fmt_int_or_none (cpu_count_logical h)) as [threads Hthreads].
  assert (Rd : Forall (row_ready ["device"; "mountpoint"; "fstype"; "free_space"]) disks).
  { apply (Forall2_Forall_r _ _ _ _ Hdisks). apply Forall_forall.
    intros q _ v. apply disk_entry_ready. }
  assert (Rc : Forall (row_ready ["pid"; "name"; "cpu"]) cpu).
  { apply mapM_Ok in Hc.
    apply (Forall2_Forall_r _ _ _ _ Hc). apply Forall_forall.
    intros q _ v Hv. eapply cpu_entry_ready, Hv. }
  assert (Rm : Forall (row_ready ["pid"; "name"; "memory"]) memory).
  { apply mapM_Ok in Hm.
    apply (Forall2_Forall_r _ _ _ _ Hm). apply Forall_forall.
    intros q _ v Hv. eapply memory_entry_ready, Hv. }
  remember (resolution_of (xrandr h)) as res eqn:Eres.
  remember (gpu_of (lspci h)) as gpu eqn:Egpu.
  remember (default "Unknown" (environ h !! "XDG_CURRENT_DESKTOP")) as desktop eqn:Edesk.
  remember (default "Unknown" (environ h !! "SHELL")) as shell eqn:Eshell.
  assert (Fl : forall k x, logs_of (journalctl h) !! k = Some (VInt x) ->
             fieldpath (VDict {[ "general" := VDict {[
                 "date_time" := VStr (PyDate.strftime ":" (now_report h));
                 "pc_name" := VStr (node h); "user_name" := VStr user;
                 "sudo" := VStr (if (euid =? 0)%Z then "Yes" else "No");
                 "os" := VStr (system h); "kernel" := VStr (release h);
                 "uptime" := PyDate.sub (now_uptime h) (boot_time h) ]};
               "environment" := VDict (<["shell" := VStr shell]>
                 (<["resolution" := VStr res]>
                 (<["desktop_env" := VStr desktop]> ∅)));
               "hardware" := VDict (<["gpu" := VStr gpu]>
                 (<["disks" := VList disks]>
                 (<["ram" := VDict {[ "total" := VStr total; "used" := VStr used;
                       "swap_total" := VStr swap_total; "swap_used" := VStr swap_used ]}]>
                 (<["cpu" := VDict {[ "name" := VStr (processor h);
                       "frequency" := VStr (match cpu_freq_max h with
                                            | Some f => PyFormat.format_2f f +:+ " MHz"
                                            | None => "Unknown"
                                            end);
                       "cores" := int_or_none (cpu_count_physical h);
                       "threads" := int_or_none (cpu_count_logical h) ]}]> ∅))));
               "processes" := VDict (<["memory" := VList memory]> (<["cpu" := VList cpu]> ∅));
               "logs" := VDict (logs_of (journalctl h)) ]}) ["logs"; k]
             = Ok (pretty x)).
  { intros k x Hk. unfold fieldpath. cbn [getpath].
    replace (getitem _ "logs") with (Ok (VDict (logs_of (journalctl h)))) by reflexivity.
    cbn [mbind result_bind getitem]. rewrite Hk. reflexivity. }
  assert (Hvals : exists values, has_fields
             (VDict {[ "general" := VDict {[
                 "date_time" := VStr (PyDate.strftime ":" (now_report h));
                 "pc_name" := VStr (node h); "user_name" := VStr user;
                 "sudo" := VStr (if (euid =? 0)%Z then "Yes" else "No");
                 "os" := VStr (system h); "kernel" := VStr (release h);
                 "uptime" := PyDate.sub (now_uptime h) (boot_time h) ]};
               "environment" := VDict (<["shell" := VStr shell]>
                 (<["resolution" := VStr res]>
                 (<["desktop_env" := VStr desktop]> ∅)));
               "hardware" := VDict (<["gpu" := VStr gpu]>
                 (<["disks" := VList disks]>
                 (<["ram" := VDict {[ "total" := VStr total; "used" := VStr used;
                       "swap_total" := VStr swap_total; "swap_used" := VStr swap_used ]}]>
                 (<["cpu" := VDict {[ "name" := VStr (processor h);
                       "frequency" := VStr (match cpu_freq_max h with
                                            | Some f => PyFormat.format_2f f +:+ " MHz"
                                            | None => "Unknown"
                                            end);
                       "cores" := int_or_none (cpu_count_physical h);
                       "threads" := int_or_none (cpu_count_logical h) ]}]> ∅))));
               "processes" := VDict (<["memory" := VList memory]> (<["cpu" := VList cpu]> ∅));
               "logs" := VDict (logs_of (journalctl h)) ]}) report_fields values).
  { eexists. unfold has_fields, report_fields.
    do 12 (constructor; [reflexivity|]).
    constructor; [exact Hcores|]. constructor; [exact Hthreads|].
    do 5 (constructor; [reflexivity|]).
    constructor; [apply Fl, La|]. constructor; [apply Fl, Lb|].
    constructor; [apply Fl, Lc|]. constructor. }
  split; [eexists _, _, _, _, _; reflexivity|].
  split; [exact Hvals|].
  split; [exists disks, cpu, memory; repeat split; assumption|].
  split.
  { intros out E N. subst res. rewrite E. cbn [resolution_of].
    destruct (PyStr.strip out); [contradiction | reflexivity]. }
  split.
  { intros N. subst res. destruct (xrandr h) as [[|q|q] out|x]; try reflexivity.
    cbn [resolution_of]. rewrite (N out eq_refl). reflexivity. }
  split.
  { intros out E N. subst gpu. rewrite E. cbn [gpu_of].
    destruct (PyStr.strip out); [contradiction | reflexivity]. }
  split.
  { intros N. subst gpu. destruct (lspci h) as [[|q|q] out|x]; try reflexivity.
    cbn [gpu_of]. rewrite (N out eq_refl). reflexivity. }
  split.
  { intros N. destruct (L0 N) as (-> & -> & ->).
    split; [apply (Fl "success" 0%Z La)|].
    split; [apply (Fl "warnings" 0%Z Lb) | apply (Fl "errors" 0%Z Lc)]. }
  split; [intros v E; subst desktop; rewrite E; reflexivity|].
  split; [intros E; subst desktop; rewrite E; reflexivity|].
  split; [intros v E; subst shell; rewrite E; reflexivity|].
  split; [intros E; subst shell; rewrite E; reflexivity|].
  destruct Hvals as [values Hvals].
  eapply (generate_html_report_total _ values disks cpu memory); try assumption; reflexivity.
Qed.

(** The run on the host without a display server, a VGA line and a journal:
    the record of each collector is whole. *)
Example collect_all_failing_host :
  collect_all failing_host = Ok (VDict {[
    "general" := VDict {[
      "date_time" := VStr "2024-03-01 12:30:05"; "pc_name" := VStr "box";
      "user_name" := VStr "alice"; "sudo" := VStr "Yes"; "os" := VStr "Linux";
      "kernel" := VStr "6.1.0"; "uptime" := VTimedelta 2 12605 0 ]};
    "environment" := VDict {[
      "desktop_env" := VStr "Unknown"; "resolution" := VStr "Unknown";
      "shell" := VStr "Unknown" ]};
    "hardware" := VDict {[
      "cpu" := VDict {[ "name" := VStr ""; "frequency" := VStr "Unknown";
                        "cores" := VNone; "threads" := VInt 4 ]};
      "ram" := VDict {[ "total" := VStr "16.0 GB"; "used" := VStr "3.0 GB";
                        "swap_total" := VStr "0.0 GB"; "swap_used" := VStr "0.0 GB" ]};
      "disks" := VList [];
      "gpu" := VStr "None" ]};
    "processes" := VDict {[
      "cpu" := VList [];
      "memory" := VList [ VDict {[ "pid" := VInt 1; "name" := VStr "init";
                                   "memory" := VFloat f150 ]} ] ]};
    "logs" := VDict {[ "success" := VInt 0; "warnings" := VInt 0; "errors" := VInt 0 ]}
  ]}).
Proof. vm_compute. reflexivity. Qed.

Lemma collect_all_complete_witness :
  exists doc,
    collect_all failing_host = Ok doc
    /\ fieldpath doc ["environment"; "resolution"] = Ok "Unknown"
    /\ fieldpath doc ["hardware"; "gpu"] = Ok "None"
    /\ fieldpath doc ["logs"; "errors"] = Ok "0"
    /\ fieldpath doc ["environment"; "shell"] = Ok "Unknown"
    /\ exists html, generate_html_report doc = Ok html.
Proof.
  eexists. split; [exact collect_all_failing_host|].
  destruct (collect_all_complete failing_host _ collect_all_failing_host)
    as (_ & _ & _ & _ & Hr & _ & Hg & Hl & _ & _ & _ & Hs & Hh).
  split; [apply Hr; intros out [= <-]; reflexivity|].
  split; [apply Hg; intros out [=]|].
  split; [apply Hl; discriminate|].
  split; [apply Hs; reflexivity | exact Hh].
Defined.

(** ** The model and the floats of the machine *)

(** On every pair of the samples (normal and subnormal numbers, zeros,
    infinities, results that overflow or underflow) the model divides and
    compares as the processor does, and rounds a quotient of integers as the
    processor rounds the quotient of their floats. *)
Example model_matches_hardware :
  (fun '(x, y) => Hardware.to_prim (PyFloat.fdiv_ieee x y)) <$> Hardware.sample_pairs
    = (fun '(x, y) => PrimFloat.div (Hardware.to_prim x) (Hardware.to_prim y))
        <$> Hardware.sample_pairs
  /\ (fun '(x, y) => PyFloat.fltb x y) <$> Hardware.sample_pairs
    = (fun '(x, y) => PrimFloat.ltb (Hardware.to_prim x) (Hardware.to_prim y))
        <$> Hardware.sample_pairs
  /\ (fun '(x, y) => PyFloat.fleb x y) <$> Hardware.sample_pairs
    = (fun '(x, y) => PrimFloat.leb (Hardware.to_prim x) (Hardware.to_prim y))
        <$> Hardware.sample_pairs
  /\ (fun k => Hardware.to_prim (Hardware.fl k 100)) <$> [1; 12; 235; 1555; 9999; 10001; 123457]%Z
    = (fun k => PrimFloat.div (Hardware.to_prim (Hardware.fl k 1))
                              (Hardware.to_prim (Hardware.fl 100 1)))
        <$> [1; 12; 235; 1555; 9999; 10001; 123457]%Z.
Proof. split; [|split; [|split]]; vm_compute; reflexivity. Qed.

(** * Further properties of the program *)

(** What a returned report is made of: the scalar fields and the three
    bodies of rows the renderer read, and the template filled with them. *)
Lemma generate_html_report_Ok (data : pyval) (html : string) :
  generate_html_report data = Ok html ->
  exists (disks cpu memory : pyval) (disks_html top_cpu_html top_memory_html : string)
         (v1 v2 v3 v4 v5 v6 v7 v8 v9 v10 v11 v12 v13 v14 v15 v16 v17 v18 v19 v20 v21 v22 : string),
    getpath data ["hardware"; "disks"] = Ok disks
    /\ rows_html disk_row disks = Ok disks_html
    /\ getpath data ["processes"; "cpu"] = Ok cpu
    /\ rows_html (process_row "cpu") cpu = Ok top_cpu_html
    /\ getpath data ["processes"; "memory"] = Ok memory
    /\ rows_html (process_row "memory") memory = Ok top_memory_html
    /\ has_fields data report_fields
         [v1; v2; v3; v4; v5; v6; v7; v8; v9; v10; v11; v12; v13; v14; v15; v16; v17; v18;
          v19; v20; v21; v22]
    /\ html = join_all (report_parts v1 v2 v3 v4 v5 v6 v7 v8 v9 v10 v11 v12 v13 v14 v15 v16
                          v17 v18 v19 disks_html top_cpu_html top_memory_html v20 v21 v22).
Proof.
  unfold generate_html_report. intros H.
  destruct (getpath data ["hardware"; "disks"]) as [disks|] eqn:E1; [|discriminate].
  cbn [mbind result_bind] in H.
  destruct (rows_html disk_row disks) as [dr|] eqn:R1; [|discriminate].
  destruct (getpath data ["processes"; "cpu"]) as [cpu|] eqn:E2; [|discriminate].
  cbn [mbind result_bind] in H.
  destruct (rows_html (process_row "cpu") cpu) as [cr|] eqn:R2; [|discriminate].
  destruct (getpath data ["processes"; "memory"]) as [memory|] eqn:E3; [|discriminate].
  cbn [mbind result_bind] in H.
  destruct (rows_html (process_row "memory") memory) as [mr|] eqn:R3; [|discriminate].
  repeat match type of H with
  | context [fieldpath data ?p] =>
      let E := fresh "F" in
      destruct (fieldpath data p) eqn:E; [cbn [mbind result_bind] in H | discriminate]
  end.
  injection H as <-.
  eexists disks, cpu, memory, dr, cr, mr, _, _, _, _, _, _, _, _, _, _, _, _, _, _, _, _, _,
    _, _, _, _, _.
  repeat (split; [first [reflexivity | eassumption]|]).
  split; [|reflexivity].
  unfold has_fields, report_fields. repeat (constructor; [eassumption|]). constructor.
Qed.

Lemma resolution_of_other (o : cmd_outcome) :
  (forall out, o <> Exited 0 out) -> resolution_of o = "Unknown".
Proof. intros N. destruct o as [[|p|p] out|e]; try reflexivity. destruct (N out eq_refl). Qed.

Lemma collect_environment_info_iff (h : host) (v : pyval) :
  collect_environment_info h = Ok v <->
  (forall e, xrandr h = Raised e -> exists rc, e = CalledProcessError rc)
  /\ v = VDict (<["shell" := VStr (default "Unknown" (environ h !! "SHELL"))]>
            (<["resolution" := VStr (resolution_of (xrandr h))]>
            (<["desktop_env" := VStr (default "Unknown" (environ h !! "XDG_CURRENT_DESKTOP"))]>
             ∅))).
Proof.
  split.
  - intros H. split; [|apply collect_environment_info_Ok, H].
    intros e E. unfold collect_environment_info in H. rewrite E in H. cbn in H.
    destruct e; try discriminate. eauto.
  - intros [Hr ->]. unfold collect_environment_info.
    destruct (check_output_handled _ Hr) as [(out & E & ->)|(rc & -> & N)]; cbn.
    + rewrite E. reflexivity.
    + rewrite (resolution_of_other _ N). reflexivity.
Qed.

Lemma logs_of_other (o : cmd_outcome) :
  (forall out, o <> Exited 0 out) ->
  logs_of o = {[ "success" := VInt 0; "warnings" := VInt 0; "errors" := VInt 0 ]}.
Proof. intros N. destruct o as [[|p|p] out|e]; try reflexivity. destruct (N out eq_refl). Qed.

Lemma analyze_logs_iff (h : host) (v : pyval) :
  analyze_logs h = Ok v <->
  (forall e, journalctl h = Raised e -> exists rc, e = CalledProcessError rc)
  /\ v = VDict (logs_of (journalctl h)).
Proof.
  split.
  - intros H. split; [|apply analyze_logs_Ok, H].
    intros e E. unfold analyze_logs in H. rewrite E in H. cbn in H.
    destruct e; try discriminate. eauto.
  - intros [Hr ->]. unfold analyze_logs.
    destruct (check_output_handled _ Hr) as [(out & E & ->)|(rc & -> & N)]; cbn.
    + rewrite E. reflexivity.
    + rewrite (logs_of_other _ N). reflexivity.
Qed.

(** The document of a run, field for field, from what the host answered. *)
Lemma collect_all_fields (h : host) (doc : pyval) :
  collect_all h = Ok doc ->
  exists (user uptime cores threads total used swap_total swap_used : string)
         (euid a b c : Z) (disks cpu memory : list pyval),
    getlogin h = Ok user /\ geteuid h = Some euid
    /\ PyFormat.fmt (PyDate.sub (now_uptime h) (boot_time h)) = Ok uptime
    /\ PyFormat.fmt (int_or_none (cpu_count_physical h)) = Ok cores
    /\ PyFormat.fmt (int_or_none (cpu_count_logical h)) = Ok threads
    /\ gb_string (virtual_memory_total h) = Ok total
    /\ gb_string (virtual_memory_used h) = Ok used
    /\ gb_string (swap_memory_total h) = Ok swap_total
    /\ gb_string (swap_memory_used h) = Ok swap_used
    /\ logs_of (journalctl h) !! "success" = Some (VInt a)
    /\ logs_of (journalctl h) !! "warnings" = Some (VInt b)
    /\ logs_of (journalctl h) !! "errors" = Some (VInt c)
    /\ mapM (disk_entry h) (disk_partitions h) = Ok disks
    /\ (exists top_cpu,
          top_cpu_processes (process_iter_cpu h) = Ok top_cpu
          /\ mapM (cpu_entry (int_or_none (cpu_count_logical h))) top_cpu = Ok cpu)
    /\ (exists top_memory,
          top_memory_processes (process_iter_memory h) = Ok top_memory
          /\ mapM memory_entry top_memory = Ok memory)
    /\ getpath doc ["hardware"; "disks"] = Ok (VList disks)
    /\ getpath doc ["processes"; "cpu"] = Ok (VList cpu)
    /\ getpath doc ["processes"; "memory"] = Ok (VList memory)
    /\ has_fields doc report_fields
         [ PyDate.strftime ":" (now_report h); node h; user;
           if euid =? 0 then "Yes" else "No"; system h; release h; uptime;
           default "Unknown" (environ h !! "XDG_CURRENT_DESKTOP");
           resolution_of (xrandr h);
           default "Unknown" (environ h !! "SHELL");
           processor h;
           match cpu_freq_max h with
           | Some f => PyFormat.format_2f f +:+ " MHz"
           | None => "Unknown"
           end;
           cores; threads; total; used; swap_total; swap_used;
           gpu_of (lspci h); pretty a; pretty b; pretty c ].
Proof.
  intros H.
  apply collect_all_Ok in H as (g & e & hw & p & l & Hg & He & Hh & Hp & Hl & ->).
  apply collect_general_info_Ok in Hg as (user & euid & Hu & Hi & ->).
  apply collect_environment_info_Ok in He as ->.
  apply collect_hardware_info_iff in Hh
    as (total & used & swap_total & swap_used & disks & T1 & T2 & T3 & T4 & Hd & _ & ->).
  apply collect_top_processes_Ok in Hp
    as (by_cpu & by_memory & cpu & memory & Sc & Hc & Sm & Hm & ->).
  apply analyze_logs_Ok in Hl as ->.
  destruct (logs_of_fields (journalctl h)) as (a & b & c & La & Lb & Lc & _).
  destruct (fmt_int_or_none (cpu_count_physical h)) as [cores Hcores].
  destruct (fmt_int_or_none (cpu_count_logical h)) as [threads Hthreads].
  assert (exists uptime, PyFormat.fmt (PyDate.sub (now_uptime h) (boot_time h)) = Ok uptime)
    as [uptime Hup] by (eexists; reflexivity).
  exists user, uptime, cores, threads, total, used, swap_total, swap_used, euid, a, b, c,
    disks, cpu, memory.
  do 13 (split; [assumption|]).
  split; [exists (take 5 (drop 1 by_cpu)); unfold top_cpu_processes; rewrite Sc; split;
          [reflexivity | exact Hc]|].
  split; [exists (take 5 by_memory); unfold top_memory_processes; rewrite Sm; split;
          [reflexivity | exact Hm]|].
  split; [reflexivity|]. split; [reflexivity|]. split; [reflexivity|].
  unfold has_fields, report_fields.
  do 6 (constructor; [reflexivity|]).
  constructor; [exact Hup|].
  do 5 (constructor; [reflexivity|]).
  constructor; [exact Hcores|]. constructor; [exact Hthreads|].
  do 5 (constructor; [reflexivity|]).
  assert (Fl : forall k x (m : gmap string pyval) g e hw p,
             m !! k = Some (VInt x) ->
             fieldpath (VDict {[ "general" := g; "environment" := e; "hardware" := hw;
                                 "processes" := p; "logs" := VDict m ]}) ["logs"; k]
             = Ok (pretty x)).
  { intros k x m g0 e0 hw0 p0 Hk. unfold fieldpath. cbn [getpath].
    replace (getitem _ "logs") with (Ok (VDict m)) by reflexivity.
    cbn [mbind result_bind getitem]. rewrite Hk. reflexivity. }
  constructor; [apply Fl, La|]. constructor; [apply Fl, Lb|].
  constructor; [apply Fl, Lc|]. constructor.
Qed.

Lemma prefix_app (v s : string) : String.prefix v (v +:+ s) = true.
Proof.
  induction v as [|c v IH]; [destruct s; reflexivity|].
  rewrite append_cons. cbn. rewrite IH. destruct (ascii_dec c c); [reflexivity | contradiction].
Qed.

Lemma contains_app_r (v a s : string) :
  PyStr.contains v s = true -> PyStr.contains v (a +:+ s) = true.
Proof.
  intros H. induction a as [|c a IH]; [exact H|].
  rewrite append_cons. cbn [PyStr.contains]. rewrite IH. apply orb_true_r.
Qed.

Lemma contains_here (v s : string) : PyStr.contains v (v +:+ s) = true.
Proof.
  pose proof (prefix_app v s) as P.
  destruct (v +:+ s); cbn [PyStr.contains]; rewrite P; reflexivity.
Qed.

Lemma contains_join_all (v : string) (parts : list string) :
  v ∈ parts -> PyStr.contains v (join_all parts) = true.
Proof.
  induction 1 as [v l|v w l _ IH]; cbn [join_all].
  - apply contains_here.
  - apply contains_app_r, IH.
Qed.

Lemma has_fields_unique (v : pyval) (keys : list (list string)) (l1 l2 : list string) :
  has_fields v keys l1 -> has_fields v keys l2 -> l1 = l2.
Proof.
  unfold has_fields. intros H. revert l2.
  induction H as [|k s ks l1 Hk _ IH]; intros l2 H2; inversion H2 as [|? s' ? l2' Hk' H2']; subst;
    [reflexivity|].
  rewrite Hk in Hk'. injection Hk' as ->. f_equal. apply IH, H2'.
Qed.

(** The renderer returns on every document the collectors built. *)
Lemma collect_all_renders (h : host) (doc : pyval) :
  collect_all h = Ok doc -> exists html, generate_html_report doc = Ok html.
Proof.
  intros H.
  destruct (collect_all_fields h doc H)
    as (user & uptime & cores & threads & total & used & swap_total & swap_used & euid
        & a & b & c & disks & cpu & memory & _ & _ & _ & _ & _ & _ & _ & _ & _ & _ & _ & _
        & Hd & Hc & Hm & Gd & Gc & Gm & Hv).
  eapply generate_html_report_total; try eassumption.
  - apply disk_entries in Hd. apply (Forall2_Forall_r _ _ _ _ Hd), Forall_forall.
    intros q _ v. apply disk_entry_ready.
  - destruct Hc as (top_cpu & _ & Hc).
    apply mapM_Ok in Hc. apply (Forall2_Forall_r _ _ _ _ Hc), Forall_forall.
    intros q _ v Hq. eapply cpu_entry_ready, Hq.
  - destruct Hm as (top_memory & _ & Hm).
    apply mapM_Ok in Hm. apply (Forall2_Forall_r _ _ _ _ Hm), Forall_forall.
    intros q _ v Hq. eapply memory_entry_ready, Hq.
Qed.

(** What [main] does once the collectors returned: the renderer returns,
    the report is written, the line is printed. *)
Lemma main_after_collect (h : host) (doc : pyval) :
  collect_all h = Ok doc ->
  exists html,
    generate_html_report doc = Ok html
    /\ main h =
       match write_text h (report_filename h) html with
       | Some e => Err e
       | None =>
           match print_line h saved_message with
           | Some e => Err e
           | None => Ok (report_filename h, html)
           end
       end.
Proof.
  intros E. destruct (collect_all_renders h doc E) as [html Hh].
  exists html. split; [exact Hh|].
  unfold main, save_report. rewrite E. cbn [mbind result_bind]. rewrite Hh.
  cbn [mbind result_bind].
  destruct (write_text h _ html); reflexivity.
Qed.

(** X1 (main, outcome): an exception of the five collectors is the
    exception of [main] (a sort that the model does not cover apart).  When
    they all return, the renderer returns too (no run fails in the
    renderer), and what is left to fail is the file and the last line:
    [main] raises what writing the file named by the time of [save_report]
    raises, else what [print] raises, and else it is through, the report
    written. *)
Theorem main_outcome (h : host) :
  (forall e, e <> Unmodelled -> collect_all h = Err e -> main h = Err e)
  /\ (forall doc, collect_all h = Ok doc ->
        exists html,
          generate_html_report doc = Ok html
          /\ let file := report_filename h in
             (forall e, write_text h file html = Some e -> main h = Err e)
             /\ (forall e, write_text h file html = None ->
                   print_line h saved_message = Some e -> main h = Err e)
             /\ (write_text h file html = None -> print_line h saved_message = None ->
                 main h = Ok (file, html))).
Proof.
  split.
  - intros e _ E. unfold main. rewrite E. reflexivity.
  - intros doc E. destruct (main_after_collect h doc E) as (html & Hh & Hm).
    exists html. split; [exact Hh|]. cbn zeta. rewrite Hm.
    split; [intros e ->; reflexivity|].
    split; [intros e -> ->; reflexivity | intros -> ->; reflexivity].
Qed.

(** Where [main] returns, the collectors and the renderer returned and the
    file was written. *)
Lemma main_Ok (h : host) (file html : string) :
  main h = Ok (file, html) ->
  exists doc,
    collect_all h = Ok doc /\ generate_html_report doc = Ok html
    /\ file = report_filename h
    /\ write_text h file html = None /\ print_line h saved_message = None.
Proof.
  unfold main, save_report. intros H.
  destruct (collect_all h) as [doc|] eqn:E; [|discriminate]. cbn [mbind result_bind] in H.
  destruct (generate_html_report doc) as [html'|] eqn:G; [|discriminate].
  cbn [mbind result_bind] in H.
  destruct (write_text h _ html') eqn:W; [discriminate|]. cbn [mbind result_bind] in H.
  destruct (print_line h saved_message) eqn:P; [discriminate|].
  injection H as <- <-. exists doc. repeat split; assumption.
Qed.

Lemma contains_empty (s : string) : PyStr.contains "" s = true.
Proof. destruct s; reflexivity. Qed.

(** X3 (main, contents): the report [main] writes holds, as they are, the
    timestamp, the host name, the user name, the system and its release,
    the desktop environment and the shell (or "Unknown"), the processor
    name, and what the display command and [lspci] printed with status 0,
    stripped of the white space at its ends. *)
Theorem main_report_verbatim (h : host) (file html : string) :
  main h = Ok (file, html) ->
  exists user,
    getlogin h = Ok user
    /\ Forall (fun v => PyStr.contains v html = true)
         [ PyDate.strftime ":" (now_report h); node h; user; system h; release h;
           default "Unknown" (environ h !! "XDG_CURRENT_DESKTOP");
           default "Unknown" (environ h !! "SHELL");
           processor h ]
    /\ (forall out, xrandr h = Exited 0 out -> PyStr.contains (PyStr.strip out) html = true)
    /\ (forall out, lspci h = Exited 0 out -> PyStr.contains (PyStr.strip out) html = true).
Proof.
  intros H. apply main_Ok in H as (doc & E & G & _).
  destruct (collect_all_fields h doc E)
    as (user & uptime & cores & threads & total & used & swap_total & swap_used & euid
        & a & b & c & disks & cpu & memory & Hu & _ & _ & _ & _ & _ & _ & _ & _ & _ & _ & _
        & _ & _ & _ & _ & _ & _ & Hv).
  apply generate_html_report_Ok in G
    as (dv & cv & mv & dr & cr & mr & v1 & v2 & v3 & v4 & v5 & v6 & v7 & v8 & v9 & v10 & v11
        & v12 & v13 & v14 & v15 & v16 & v17 & v18 & v19 & v20 & v21 & v22
        & _ & _ & _ & _ & _ & _ & Hv' & ->).
  assert (Eq : [v1; v2; v3; v4; v5; v6; v7; v8; v9; v10; v11; v12; v13; v14; v15; v16; v17;
                v18; v19; v20; v21; v22]
               = [ PyDate.strftime ":" (now_report h); node h; user;
                   if euid =? 0 then "Yes" else "No"; system h; release h; uptime;
                   default "Unknown" (environ h !! "XDG_CURRENT_DESKTOP");
                   resolution_of (xrandr h);
                   default "Unknown" (environ h !! "SHELL");
                   processor h;
                   match cpu_freq_max h with
                   | Some f => PyFormat.format_2f f +:+ " MHz"
                   | None => "Unknown"
                   end;
                   cores; threads; total; used; swap_total; swap_used;
                   gpu_of (lspci h); pretty a; pretty b; pretty c ]).
  { eapply has_fields_unique; eassumption. }
  injection Eq as -> -> -> -> -> -> -> -> -> -> -> -> -> -> -> -> -> -> -> -> -> ->.
  exists user. split; [exact Hu|].
  split; [|split].
  - repeat constructor; apply contains_join_all; unfold report_parts;
      repeat first [apply list_elem_of_here | apply list_elem_of_further].
  - intros out X. destruct (PyStr.strip out) as [|ch tl] eqn:S; [apply contains_empty|].
    rewrite <- S. replace (PyStr.strip out) with (resolution_of (xrandr h))
      by (rewrite X; cbn [resolution_of]; rewrite S; reflexivity).
    apply contains_join_all; unfold report_parts;
      repeat first [apply list_elem_of_here | apply list_elem_of_further].
  - intros out X. destruct (PyStr.strip out) as [|ch tl] eqn:S; [apply contains_empty|].
    rewrite <- S. replace (PyStr.strip out) with (gpu_of (lspci h))
      by (rewrite X; cbn [gpu_of]; rewrite S; reflexivity).
    apply contains_join_all; unfold report_parts;
      repeat first [apply list_elem_of_here | apply list_elem_of_further].
Qed.

Lemma getpath_section (d : gmap string pyval) (k : string) (ks : list string) (x : pyval) :
  getpath (VDict d) (k :: ks) = Ok x -> exists y, d !! k = Some y.
Proof.
  cbn [getpath getitem]. destruct (d !! k) as [y|]; [eauto | discriminate].
Qed.

Lemma fieldpath_section (d : gmap string pyval) (k : string) (ks : list string) (s : string) :
  fieldpath (VDict d) (k :: ks) = Ok s -> exists y, d !! k = Some y.
Proof.
  unfold fieldpath. destruct (getpath (VDict d) (k :: ks)) as [x|] eqn:E; [|discriminate].
  intros _. eapply getpath_section, E.
Qed.

(** X14 (generate_html_report, missing record): a document that lacks one
    of the five records "general", "environment", "hardware", "processes"
    and "logs" is not rendered: the renderer raises, and it raises
    KeyError('hardware') when that record is the one missing, the disk rows
    being built first. *)
Theorem generate_html_report_missing_record (d : gmap string pyval) (k : string) :
  k ∈ ["general"; "environment"; "hardware"; "processes"; "logs"] ->
  d !! k = None ->
  (exists e, generate_html_report (VDict d) = Err e)
  /\ (k = "hardware" -> generate_html_report (VDict d) = Err (KeyError "hardware")).
Proof.
  intros Hk Hn. split.
  - destruct (generate_html_report (VDict d)) as [html|e] eqn:G; [|eauto]. exfalso.
    apply generate_html_report_Ok in G
      as (dv & cv & mv & dr & cr & mr & v1 & v2 & v3 & v4 & v5 & v6 & v7 & v8 & v9 & v10 & v11
          & v12 & v13 & v14 & v15 & v16 & v17 & v18 & v19 & v20 & v21 & v22
          & Gd & _ & Gc & _ & _ & _ & Hv & _).
    unfold has_fields, report_fields in Hv.
    apply Forall2_cons_1 in Hv as [Fg Hv].
    do 6 apply Forall2_cons_1 in Hv as [_ Hv].
    apply Forall2_cons_1 in Hv as [Fe Hv].
    do 11 apply Forall2_cons_1 in Hv as [_ Hv].
    apply Forall2_cons_1 in Hv as [Fl _].
    apply fieldpath_section in Fg as [? Fg], Fe as [? Fe], Fl as [? Fl].
    apply getpath_section in Gd as [? Gd], Gc as [? Gc].
    repeat (apply elem_of_cons in Hk as [->|Hk]; [congruence|]).
    inversion Hk.
  - intros ->. unfold generate_html_report. cbn [getpath getitem]. rewrite Hn. reflexivity.
Qed.

Lemma mapM_Err {A B : Type} (f : A -> result B) (xs : list A) (x : A) (e : exn) :
  x ∈ xs -> f x = Err e -> exists e', mapM f xs = Err e'.
Proof.
  induction 1 as [x l|x y l _ IH]; intros Hx; cbn [mapM].
  - rewrite Hx. eauto.
  - destruct (f y); cbn [mbind result_bind]; [|eauto].
    destruct (IH Hx) as [e' ->]. eauto.
Qed.

Lemma collect_all_Err_env (h : host) (e : exn) :
  collect_environment_info h = Err e -> exists e', collect_all h = Err e'.
Proof.
  intros H. unfold collect_all. destruct (collect_general_info h); cbn [mbind result_bind];
    [rewrite H|]; eauto.
Qed.

Lemma collect_all_Err_hardware (h : host) (e : exn) :
  collect_hardware_info h = Err e -> exists e', collect_all h = Err e'.
Proof.
  intros H. unfold collect_all.
  destruct (collect_general_info h); cbn [mbind result_bind]; [|eauto].
  destruct (collect_environment_info h); cbn [mbind result_bind]; [rewrite H|]; eauto.
Qed.

Lemma collect_all_Err_processes (h : host) (e : exn) :
  collect_top_processes h = Err e -> exists e', collect_all h = Err e'.
Proof.
  intros H. unfold collect_all.
  destruct (collect_general_info h); cbn [mbind result_bind]; [|eauto].
  destruct (collect_environment_info h); cbn [mbind result_bind]; [|eauto].
  destruct (collect_hardware_info h); cbn [mbind result_bind]; [rewrite H|]; eauto.
Qed.

Lemma collect_all_Err_logs (h : host) (e : exn) :
  analyze_logs h = Err e -> exists e', collect_all h = Err e'.
Proof.
  intros H. unfold collect_all.
  destruct (collect_general_info h); cbn [mbind result_bind]; [|eauto].
  destruct (collect_environment_info h); cbn [mbind result_bind]; [|eauto].
  destruct (collect_hardware_info h); cbn [mbind result_bind]; [|eauto].
  destruct (collect_top_processes h); cbn [mbind result_bind]; [rewrite H|]; eauto.
Qed.

Lemma main_Err (h : host) (e : exn) : collect_all h = Err e -> main h = Err e.
Proof. unfold main. intros ->. reflexivity. Qed.

(** X5 (subprocess errors): the collectors handle CalledProcessError only.
    An exception of another kind raised by [check_output] leaves
    [collect_environment_info] and [analyze_logs] with that exception,
    [collect_hardware_info] with an exception, and [main] without a
    report. *)
Theorem command_error_escapes (h : host) (e : exn) :
  (forall rc, e <> CalledProcessError rc) ->
  (xrandr h = Raised e -> collect_environment_info h = Err e)
  /\ (journalctl h = Raised e -> analyze_logs h = Err e)
  /\ (lspci h = Raised e -> exists e', collect_hardware_info h = Err e')
  /\ (xrandr h = Raised e \/ lspci h = Raised e \/ journalctl h = Raised e ->
      exists e', main h = Err e').
Proof.
  intros N.
  assert (X : xrandr h = Raised e -> collect_environment_info h = Err e).
  { intros E. unfold collect_environment_info. rewrite E. cbn.
    destruct e; try reflexivity. destruct (N _ eq_refl). }
  assert (J : journalctl h = Raised e -> analyze_logs h = Err e).
  { intros E. unfold analyze_logs. rewrite E. cbn.
    destruct e; try reflexivity. destruct (N _ eq_refl). }
  assert (L : lspci h = Raised e -> exists e', collect_hardware_info h = Err e').
  { intros E. destruct (collect_hardware_info h) as [v|e'] eqn:C; [|eauto].
    apply collect_hardware_info_iff in C as (? & ? & ? & ? & ? & _ & _ & _ & _ & _ & Hr & _).
    destruct (Hr e E) as [rc ->]. destruct (N rc eq_refl). }
  split; [exact X|]. split; [exact J|]. split; [exact L|].
  intros [E|[E|E]].
  - destruct (collect_all_Err_env h e (X E)) as [e' C]. exists e'. apply main_Err, C.
  - destruct (L E) as [e1 C1]. destruct (collect_all_Err_hardware h e1 C1) as [e' C].
    exists e'. apply main_Err, C.
  - destruct (collect_all_Err_logs h e (J E)) as [e' C]. exists e'. apply main_Err, C.
Qed.

Lemma command_error_escapes_witness :
  analyze_logs undecodable_journal_host = Err UnicodeDecodeError
  /\ exists e', main undecodable_journal_host = Err e'.
Proof.
  destruct (command_error_escapes undecodable_journal_host UnicodeDecodeError
              ltac:(discriminate)) as (_ & J & _ & M).
  split; [apply J; reflexivity | apply M; right; right; reflexivity].
Defined.



(** X9 (collect_hardware_info, disks): if [psutil.disk_usage] raises for
    one partition of the table, or gives a free space that does not convert,
    the collector returns no record (it skips no partition) and [main]
    writes no report. *)
Theorem hardware_disk_failure (h : host) (p : partition) (e : exn) :
  p ∈ disk_partitions h ->
  disk_usage_free h (mountpoint p) = Err e
  \/ (exists free, disk_usage_free h (mountpoint p) = Ok free /\ gb_string free = Err e) ->
  (exists e', collect_hardware_info h = Err e')
  /\ (exists e', main h = Err e').
Proof.
  intros Hp Hf.
  assert (D : disk_entry h p = Err e).
  { unfold disk_entry. destruct Hf as [->|(free & -> & Hg)]; [reflexivity|].
    cbn [mbind result_bind]. rewrite Hg. reflexivity. }
  assert (C : exists e', collect_hardware_info h = Err e').
  { destruct (collect_hardware_info h) as [v|e'] eqn:C; [|eauto].
    apply collect_hardware_info_iff in C as (? & ? & ? & ? & disks & _ & _ & _ & _ & Hd & _).
    destruct (mapM_Err _ _ _ _ Hp D) as [e' He]. congruence. }
  split; [exact C|]. destruct C as [e1 C].
  destruct (collect_all_Err_hardware h e1 C) as [e' A]. exists e'. apply main_Err, A.
Qed.

Lemma hardware_disk_failure_witness :
  (exists e', collect_hardware_info unreadable_disk_host = Err e')
  /\ (exists e', main unreadable_disk_host = Err e').
Proof.
  apply (hardware_disk_failure unreadable_disk_host
           {| device := "/dev/sr0"; mountpoint := "/media/cdrom"; fstype := "iso9660" |}
           OSError).
  - apply list_elem_of_further, list_elem_of_here.
  - left. reflexivity.
Defined.

Lemma sum_bool_bounds {A : Type} (test : A -> bool) (xs : list A) :
  0 <= sum_bool test xs <= Z.of_nat (length xs).
Proof.
  unfold sum_bool. induction xs as [|x xs IH]; cbn [foldr length]; [lia|].
  destruct (test x); lia.
Qed.

(** X13 (analyze_logs, counts): whatever status [journalctl] exits with,
    [analyze_logs] returns the three counters, each an int between 0 and
    the number of lines of the output; an empty output gives three
    zeros. *)
Theorem analyze_logs_bounds (h : host) (rc : Z) (out : string) :
  journalctl h = Exited rc out ->
  exists a b c,
    analyze_logs h = Ok (VDict {[ "success" := VInt a; "warnings" := VInt b;
                                  "errors" := VInt c ]})
    /\ 0 <= a <= Z.of_nat (length (PyStr.splitlines out))
    /\ 0 <= b <= Z.of_nat (length (PyStr.splitlines out))
    /\ 0 <= c <= Z.of_nat (length (PyStr.splitlines out))
    /\ (out = "" -> a = 0 /\ b = 0 /\ c = 0).
Proof.
  intros E. unfold analyze_logs, check_output. rewrite E.
  destruct (Z.eqb_spec rc 0) as [->|Hrc].
  - eexists _, _, _. split; [unfold count_markers; reflexivity|].
    split; [apply sum_bool_bounds|]. split; [apply sum_bool_bounds|].
    split; [apply sum_bool_bounds|]. intros ->. repeat split.
  - exists 0, 0, 0. split; [reflexivity|]. repeat split; try lia.
Qed.

Lemma float_eq_not_lt (a b k : pyfloat) :
  float_eq a k = true -> float_eq b k = true -> PyFloat.fltb a b = false.
Proof.
  unfold float_eq, PyFloat.fltb.
  destruct a as [|[]|sa|sa ma ea], b as [|[]|sb|sb mb eb], k as [|[]|sk|sk mk ek];
    cbn [PyFloat.fcompare]; try discriminate; try reflexivity;
    repeat match goal with
           | |- context [Qcompare ?x ?y] => destruct (Qcompare_spec x y)
           end;
    try discriminate; try reflexivity; intros _ _; exfalso; lra.
Qed.

Lemma insert_desc_filter {A : Type} (key : A -> pyfloat) (P : A -> bool) (x : A) (l : list A) :
  (forall y, P x = true -> P y = true -> PyFloat.fltb (key x) (key y) = false) ->
  List.filter P (insert_desc key x l) = List.filter P (x :: l).
Proof.
  intros H. induction l as [|y t IH]; [reflexivity|]. cbn [insert_desc].
  destruct (PyFloat.fltb (key x) (key y)) eqn:L; [|reflexivity].
  cbn [List.filter] in *. rewrite IH.
  destruct (P x) eqn:Px, (P y) eqn:Py; try reflexivity.
  rewrite (H y eq_refl Py) in L. discriminate.
Qed.

Lemma sorted_reverse_filter {A : Type} (key : A -> pyfloat) (P : A -> bool) (l : list A) :
  (forall x y, P x = true -> P y = true -> PyFloat.fltb (key x) (key y) = false) ->
  List.filter P (sorted_reverse key l) = List.filter P l.
Proof.
  intros H. unfold sorted_reverse. induction l as [|x t IH]; [reflexivity|].
  cbn [foldr]. rewrite insert_desc_filter by (apply H).
  cbn [List.filter]. rewrite IH. reflexivity.
Qed.

Lemma ranking_ties (percent : proc_info -> attr pyfloat) (k : pyfloat)
    (table ranking : list proc_info) :
  PySort.sorted_reverse_by (fun p => info_get VFloat (percent p) (VInt 0)) table = Ok ranking ->
  List.filter (same_percent percent k) ranking = List.filter (same_percent percent k) table.
Proof.
  intros E. rewrite (sorted_reverse_by_Ok _ _ _ E).
  apply sorted_reverse_filter. intros x y. unfold same_percent.
  destruct (percent x) as [| |a]; try discriminate.
  destruct (percent y) as [| |b]; try discriminate.
  cbn [info_get]. apply float_eq_not_lt.
Qed.

(** X11 (collect_top_processes, ties): sorted(..., reverse=True) is
    stable, so in both rankings the processes of one and the same percentage
    stand in the order in which the process table listed them, whenever the
    sort returns; and it returns on a measured table. *)
Theorem ranking_ties_keep_order (h : host) (k : pyfloat) :
  (forall ranking,
     PySort.sorted_reverse_by (fun p => info_get VFloat (memory_percent p) (VInt 0))
       (process_iter_memory h) = Ok ranking ->
     top_memory_processes (process_iter_memory h) = Ok (take 5 ranking)
     /\ List.filter (same_percent memory_percent k) ranking
        = List.filter (same_percent memory_percent k) (process_iter_memory h))
  /\ (forall ranking,
        PySort.sorted_reverse_by (fun p => info_get VFloat (cpu_percent p) (VInt 0))
          (process_iter_cpu h) = Ok ranking ->
        top_cpu_processes (process_iter_cpu h) = Ok (take 5 (drop 1 ranking))
        /\ List.filter (same_percent cpu_percent k) ranking
           = List.filter (same_percent cpu_percent k) (process_iter_cpu h))
  /\ (Ranking.measured memory_percent (process_iter_memory h) ->
      exists ranking,
        PySort.sorted_reverse_by (fun p => info_get VFloat (memory_percent p) (VInt 0))
          (process_iter_memory h) = Ok ranking)
  /\ (Ranking.measured cpu_percent (process_iter_cpu h) ->
      exists ranking,
        PySort.sorted_reverse_by (fun p => info_get VFloat (cpu_percent p) (VInt 0))
          (process_iter_cpu h) = Ok ranking).
Proof.
  split; [|split; [|split]].
  - intros ranking E. split; [|apply ranking_ties, E].
    unfold top_memory_processes. rewrite E. reflexivity.
  - intros ranking E. split; [|apply ranking_ties, E].
    unfold top_cpu_processes. rewrite E. reflexivity.
  - intros M. destruct (ranking_measured _ _ M) as (ranking & E & _). eauto.
  - intros M. destruct (ranking_measured _ _ M) as (ranking & E & _). eauto.
Qed.

(** X8 (GB strings, order): for counts of bytes [0 <= b1 <= b2 < 2**1000]
    the conversion [round(b / 1024**3, 2)] returns floats [r1] and [r2], the
    GB strings are [repr] of them followed by " GB", and [0.0 <= r1 <= r2]:
    more bytes never show as fewer gigabytes. *)
Theorem gb_string_monotone (b1 b2 : Z) :
  0 <= b1 <= b2 -> b2 < 2 ^ 1000 ->
  exists r1 r2,
    (PyNum.truediv (VInt b1) (VInt PyNum.GiB) ≫= PyNum.round_2) = Ok (VFloat r1)
    /\ (PyNum.truediv (VInt b2) (VInt PyNum.GiB) ≫= PyNum.round_2) = Ok (VFloat r2)
    /\ gb_string (VInt b1) = Ok (PyRepr.repr r1 +:+ " GB")
    /\ gb_string (VInt b2) = Ok (PyRepr.repr r2 +:+ " GB")
    /\ PyFloat.fleb (FZero false) r1 = true
    /\ PyFloat.fleb r1 r2 = true.
Proof.
  intros H1 H2.
  destruct (gb_string_int b1 ltac:(lia)) as [V1 S1].
  destruct (gb_string_int b2 ltac:(lia)) as [V2 S2].
  eexists _, _. do 4 (split; [eassumption|]).
  split.
  - change (FZero false) with (PyFloat.round2 (FloatValue.round_z false 0 1)).
    apply round2_mono, round_z_mono; try lia.
    unfold Qle. cbn [Qnum Qden PyFloat.signed]. lia.
  - apply round2_mono, round_z_mono; try lia.
    unfold Qle. cbn [Qnum Qden PyFloat.signed]. nia.
Qed.

Lemma zfill2_length_check :
  forallb (fun z => Nat.eqb (String.length (PyFormat.zfill 2 z)) 2) (FileName.upto 100) = true.
Proof. vm_compute. reflexivity. Qed.

Lemma zfill2_compare_check :
  forallb (fun a => forallb (fun b =>
    match String.compare (PyFormat.zfill 2 a) (PyFormat.zfill 2 b), (a ?= b) with
    | Eq, Eq | Lt, Lt | Gt, Gt => true | _, _ => false end) (FileName.upto 100)) (FileName.upto 100) = true.
Proof. vm_compute. reflexivity. Qed.

Lemma zfill4_check :
  forallb (fun y => String.eqb (PyFormat.zfill 4 y)
     (PyFormat.zfill 2 (y / 100) +:+ PyFormat.zfill 2 (y mod 100))) (seqZ 1000 9000) = true.
Proof. vm_compute. reflexivity. Qed.

Lemma upto_In (n z : Z) : 0 <= z < n -> In z (FileName.upto n).
Proof. intros H. apply list_elem_of_In, elem_of_seqZ. lia. Qed.

Lemma zfill2_length (z : Z) : 0 <= z <= 99 -> String.length (PyFormat.zfill 2 z) = 2%nat.
Proof.
  intros H. pose proof zfill2_length_check as C.
  rewrite forallb_forall in C. apply Nat.eqb_eq, C, upto_In. lia.
Qed.

Lemma zfill2_compare (a b : Z) :
  0 <= a <= 99 -> 0 <= b <= 99 ->
  String.compare (PyFormat.zfill 2 a) (PyFormat.zfill 2 b) = (a ?= b).
Proof.
  intros Ha Hb. pose proof zfill2_compare_check as C.
  rewrite forallb_forall in C. specialize (C a (upto_In 100 a ltac:(lia))).
  rewrite forallb_forall in C. specialize (C b (upto_In 100 b ltac:(lia))).
  destruct (String.compare _ _), (a ?= b); congruence.
Qed.

Lemma year_digits_check :
  forallb (fun y => String.eqb (pretty y) (PyFormat.zfill 4 y)) (seqZ 1000 9000) = true.
Proof. vm_compute. reflexivity. Qed.

(** A year from 1000 to 9999 has four digits. *)
Lemma year_digits (y : Z) : 1000 <= y <= 9999 -> pretty y = PyFormat.zfill 4 y.
Proof.
  intros H. pose proof year_digits_check as C. rewrite forallb_forall in C.
  apply String.eqb_eq, C, list_elem_of_In, elem_of_seqZ. lia.
Qed.

Lemma zfill4_split (y : Z) :
  1000 <= y <= 9999 ->
  PyFormat.zfill 4 y = PyFormat.zfill 2 (y / 100) +:+ PyFormat.zfill 2 (y mod 100).
Proof.
  intros H. pose proof zfill4_check as C. rewrite forallb_forall in C.
  apply String.eqb_eq, C, list_elem_of_In, elem_of_seqZ. lia.
Qed.

Lemma compare_app (a a' s s' : string) :
  String.length a = String.length a' ->
  String.compare (a +:+ s) (a' +:+ s')
  = FileName.then_compare (String.compare a a') (String.compare s s').
Proof.
  revert a'. induction a as [|c a IH]; intros [|c' a'] H; try discriminate; [reflexivity|].
  rewrite !append_cons. cbn [String.compare String.length] in *.
  destruct (Ascii.compare c c'); [apply IH; congruence | reflexivity..].
Qed.

Lemma compare_nil_r (a a' : string) :
  String.compare a a' = FileName.then_compare (String.compare a a') Eq.
Proof. destruct (String.compare a a'); reflexivity. Qed.

Lemma length_append (a b : string) :
  String.length (a +:+ b) = (String.length a + String.length b)%nat.
Proof. induction a as [|c a IH]; [reflexivity|]. rewrite append_cons. cbn. rewrite IH. reflexivity. Qed.

Lemma string_compare_refl (s : string) : String.compare s s = Eq.
Proof.
  induction s as [|c s IH]; [reflexivity|]. cbn.
  unfold Ascii.compare. rewrite N.compare_refl. exact IH.
Qed.

Lemma compare_same (p s s' : string) :
  String.compare (p +:+ s) (p +:+ s') = String.compare s s'.
Proof.
  induction p as [|c p IH]; [reflexivity|]. rewrite !append_cons. cbn [String.compare].
  replace (Ascii.compare c c) with Eq; [exact IH|].
  unfold Ascii.compare. symmetry. apply N.compare_refl.
Qed.

Lemma compare_zfill2 (a b : Z) (s s' : string) :
  0 <= a <= 99 -> 0 <= b <= 99 ->
  String.compare (PyFormat.zfill 2 a +:+ s) (PyFormat.zfill 2 b +:+ s')
  = FileName.then_compare (a ?= b) (String.compare s s').
Proof.
  intros Ha Hb. rewrite compare_app by (rewrite !zfill2_length; auto).
  rewrite zfill2_compare; auto.
Qed.

Lemma then_compare_div (a b : Z) (c : comparison) :
  FileName.then_compare (a / 100 ?= b / 100)
    (FileName.then_compare (a mod 100 ?= b mod 100) c)
  = FileName.then_compare (a ?= b) c.
Proof.
  pose proof (Z.div_mod a 100 ltac:(lia)) as Ea.
  pose proof (Z.div_mod b 100 ltac:(lia)) as Eb.
  pose proof (Z.mod_pos_bound a 100 ltac:(lia)) as Ba.
  pose proof (Z.mod_pos_bound b 100 ltac:(lia)) as Bb.
  destruct (Z.compare_spec (a / 100) (b / 100)) as [E|L|L];
    destruct (Z.compare_spec (a mod 100) (b mod 100)) as [E'|L'|L'];
    destruct (Z.compare_spec a b) as [E2|L2|L2]; cbn; try reflexivity; exfalso; lia.
Qed.

Lemma compare_zfill4 (a b : Z) (s s' : string) :
  1000 <= a <= 9999 -> 1000 <= b <= 9999 ->
  String.compare (PyFormat.zfill 4 a +:+ s) (PyFormat.zfill 4 b +:+ s')
  = FileName.then_compare (a ?= b) (String.compare s s').
Proof.
  intros Ha Hb. rewrite !zfill4_split by assumption.
  rewrite !append_assoc.
  assert (0 <= a / 100 <= 99 /\ 0 <= b / 100 <= 99) as [? ?]
    by (Z.div_mod_to_equations; lia).
  pose proof (Z.mod_pos_bound a 100 ltac:(lia)).
  pose proof (Z.mod_pos_bound b 100 ltac:(lia)).
  rewrite !compare_zfill2 by lia.
  apply then_compare_div.
Qed.

Lemma strftime_compare (sep tail : string) (a b : datetime) :
  FileName.valid a -> FileName.valid b ->
  String.compare (PyDate.strftime sep a +:+ tail) (PyDate.strftime sep b +:+ tail)
  = FileName.compare_seconds a b.
Proof.
  intros (Hy & Hm & Hd & Hh & Hi & Hs) (Hy' & Hm' & Hd' & Hh' & Hi' & Hs').
  unfold PyDate.strftime, FileName.compare_seconds.
  rewrite (year_digits _ Hy), (year_digits _ Hy'), !append_assoc.
  rewrite compare_zfill4 by assumption. f_equal.
  rewrite compare_same, compare_zfill2 by lia. f_equal.
  rewrite compare_same, compare_zfill2 by lia. f_equal.
  rewrite compare_same, compare_zfill2 by lia. f_equal.
  rewrite compare_same, compare_zfill2 by lia. f_equal.
  rewrite compare_same, compare_zfill2 by lia.
  rewrite string_compare_refl. destruct (second a ?= second b); reflexivity.
Qed.

(** X4 (save_report, file names): for times with a year of four digits the
    name of the report file has 24 characters, the names of two files
    compare as their times do (to the second), and two names are equal
    exactly when the times agree to the second; it is under this name that
    [save_report] writes the report, as it is. *)
Theorem save_report_name_order (h1 h2 : host) (html1 html2 : string) :
  FileName.valid (now_save h1) -> FileName.valid (now_save h2) ->
  String.compare (report_filename h1) (report_filename h2)
    = FileName.compare_seconds (now_save h1) (now_save h2)
  /\ String.length (report_filename h1) = 24%nat
  /\ (report_filename h1 = report_filename h2 <->
      FileName.compare_seconds (now_save h1) (now_save h2) = Eq)
  /\ (write_text h1 (report_filename h1) html1 = None ->
      save_report h1 html1 = Ok (report_filename h1, html1))
  /\ (write_text h2 (report_filename h2) html2 = None ->
      save_report h2 html2 = Ok (report_filename h2, html2)).
Proof.
  intros V1 V2. unfold report_filename at 1 2 3 4 5.
  pose proof (strftime_compare "_" ".html" _ _ V1 V2) as C.
  split; [exact C|]. split; [|split; [|split]].
  - destruct V1 as (Hy & Hm & Hd & Hh & Hi & Hs).
    unfold PyDate.strftime. rewrite (year_digits _ Hy), zfill4_split by assumption.
    assert (0 <= year (now_save h1) / 100 <= 99)
      by (Z.div_mod_to_equations; lia).
    pose proof (Z.mod_pos_bound (year (now_save h1)) 100 ltac:(lia)).
    rewrite !length_append, !zfill2_length by lia. reflexivity.
  - rewrite <- C. split.
    + intros ->. apply string_compare_refl.
    + apply String.compare_eq_iff.
  - intros W. unfold save_report. rewrite W. reflexivity.
  - intros W. unfold save_report. rewrite W. reflexivity.
Qed.

Lemma rheq_near (q : Q) :
  (inject_Z (FloatValue.rheq q) - (1 # 2) <= q <= inject_Z (FloatValue.rheq q) + (1 # 2))%Q.
Proof.
  destruct q as [n d]. unfold FloatValue.rheq. cbn [Qnum Qden].
  destruct (rhe_spec n d) as [[L U] _].
  unfold Qle, Qminus, Qplus, Qopp, inject_Z. cbn [Qnum Qden]. split; lia.
Qed.

(** X7 (collect_hardware_info, frequency): the "frequency" field is
    "Unknown" when [psutil.cpu_freq()] is [None]; for a maximum frequency
    [f >= 0] it is the integer [k] nearest to [100 * f] (within a half)
    written as [k // 100], a point, the two digits of [k % 100] and
    " MHz". *)
Theorem hardware_frequency_text (h : host) (d : gmap string pyval) :
  collect_hardware_info h = Ok (VDict d) ->
  (cpu_freq_max h = None ->
     getpath (VDict d) ["cpu"; "frequency"] = Ok (VStr "Unknown"))
  /\ (forall f, cpu_freq_max h = Some f ->
        FloatValue.finite f = true -> FloatValue.sign_of f = false ->
        exists k,
          getpath (VDict d) ["cpu"; "frequency"]
            = Ok (VStr (pretty (k / 100) +:+ "." +:+ PyFormat.zfill 2 (k mod 100) +:+ " MHz"))
          /\ 0 <= k
          /\ String.length (PyFormat.zfill 2 (k mod 100)) = 2%nat
          /\ (inject_Z k - (1 # 2) <= 100 * PyFloat.fval f <= inject_Z k + (1 # 2))%Q).
Proof.
  intros H.
  apply collect_hardware_info_iff in H as (? & ? & ? & ? & ? & _ & _ & _ & _ & _ & _ & [= ->]).
  split.
  - intros ->. reflexivity.
  - intros f -> Hf Hs. exists (FloatValue.hundredths f).
    pose proof (hundredths_nonneg f) as Hk.
    pose proof (hundredths_signed f Hf) as E. rewrite Hs in E. cbn [PyFloat.signed] in E.
    split; [|split; [exact Hk|split]].
    + transitivity (Ok (VStr (PyFormat.format_2f f +:+ " MHz"))); [reflexivity|].
      do 2 f_equal. destruct f as [|s|s|s m e]; try discriminate; cbn in Hs; subst s.
      * reflexivity.
      * unfold PyFormat.format_2f. cbn [FloatValue.hundredths].
        rewrite !append_assoc. reflexivity.
    + apply zfill2_length. pose proof (Z.mod_pos_bound (FloatValue.hundredths f) 100). lia.
    + rewrite E. apply rheq_near.
Qed.

(** X6 (collect_general_info, uptime): the "uptime" field is a timedelta
    with 0 <= seconds < 86400 and 0 <= microseconds < 1000000 whose total of
    microseconds is exactly the time of the second [datetime.now()] minus
    the boot time; its days are negative exactly when the boot time lies
    after that time. *)
Theorem general_uptime_exact (h : host) (d : gmap string pyval) :
  collect_general_info h = Ok (VDict d) ->
  exists days seconds microseconds,
    d !! "uptime" = Some (VTimedelta days seconds microseconds)
    /\ 0 <= seconds < 86400
    /\ 0 <= microseconds < 1000000
    /\ (days * 86400 + seconds) * 1000000 + microseconds
       = Instant.microseconds (now_uptime h) - Instant.microseconds (boot_time h)
    /\ (Instant.microseconds (boot_time h) <= Instant.microseconds (now_uptime h) <-> 0 <= days).
Proof.
  intros H. apply collect_general_info_Ok in H as (user & euid & _ & _ & [= ->]).
  unfold PyDate.sub, PyFormat.timedelta, Instant.microseconds.
  set (o := PyDate.toordinal (now_uptime h) - PyDate.toordinal (boot_time h)).
  set (s := second (now_uptime h) + minute (now_uptime h) * 60 + hour (now_uptime h) * 3600
            - (second (boot_time h) + minute (boot_time h) * 60 + hour (boot_time h) * 3600)).
  set (u := microsecond (now_uptime h) - microsecond (boot_time h)).
  eexists _, _, _. split; [reflexivity|].
  assert ((PyDate.toordinal (now_uptime h) * 86400 + hour (now_uptime h) * 3600
           + minute (now_uptime h) * 60 + second (now_uptime h)) * 1000000
          + microsecond (now_uptime h)
          - ((PyDate.toordinal (boot_time h) * 86400 + hour (boot_time h) * 3600
              + minute (boot_time h) * 60 + second (boot_time h)) * 1000000
             + microsecond (boot_time h))
          = (o * 86400 + s) * 1000000 + u) as E by (subst o s u; lia).
  revert E.
  generalize ((PyDate.toordinal (now_uptime h) * 86400 + hour (now_uptime h) * 3600
           + minute (now_uptime h) * 60 + second (now_uptime h)) * 1000000
          + microsecond (now_uptime h)).
  generalize ((PyDate.toordinal (boot_time h) * 86400 + hour (boot_time h) * 3600
              + minute (boot_time h) * 60 + second (boot_time h)) * 1000000
             + microsecond (boot_time h)).
  intros B A E.
  clearbody o s u.
  pose proof (Z.div_mod u 1000000 ltac:(lia)).
  pose proof (Z.mod_pos_bound u 1000000 ltac:(lia)).
  pose proof (Z.div_mod (s + u / 1000000) 86400 ltac:(lia)).
  pose proof (Z.mod_pos_bound (s + u / 1000000) 86400 ltac:(lia)).
  repeat split; intros; lia.
Qed.

(** X2 (main, sufficient conditions): on a host where [os.getlogin] and
    [os.geteuid] answer, the three commands raise nothing but
    CalledProcessError, the memory figures and the free space of every
    partition are ints from 0 up, [psutil] read the percentage of every
    process, the count of logical cores is an int from 1 up, the file of the
    report can be written and the last line printed, [main] is through, the
    report in the file named by the time of [save_report]. *)
Theorem main_returns (h : host) (user : string) (euid n : Z) :
  getlogin h = Ok user -> geteuid h = Some euid ->
  handled (xrandr h) -> handled (lspci h) -> handled (journalctl h) ->
  byte_count (virtual_memory_total h) -> byte_count (virtual_memory_used h) ->
  byte_count (swap_memory_total h) -> byte_count (swap_memory_used h) ->
  (forall p, p ∈ disk_partitions h ->
     exists free, disk_usage_free h (mountpoint p) = Ok free /\ byte_count free) ->
  Ranking.measured cpu_percent (process_iter_cpu h) ->
  Ranking.measured memory_percent (process_iter_memory h) ->
  cpu_count_logical h = Some n -> 1 <= n < 2 ^ 1000 ->
  (forall text, write_text h (report_filename h) text = None) ->
  print_line h saved_message = None ->
  exists html, main h = Ok (report_filename h, html).
Proof.
  intros Hu He Hx Hl Hj M1 M2 M3 M4 Hd Mc Mm Hc Hn Hw Hp.
  assert (G : exists g, collect_general_info h = Ok g).
  { unfold collect_general_info. rewrite Hu, He. eexists. reflexivity. }
  assert (E : exists v, collect_environment_info h = Ok v).
  { eexists. apply collect_environment_info_iff. split; [exact Hx | reflexivity]. }
  assert (W : exists v, collect_hardware_info h = Ok v).
  { destruct (gb_string_byte_count _ M1) as [s1 E1].
    destruct (gb_string_byte_count _ M2) as [s2 E2].
    destruct (gb_string_byte_count _ M3) as [s3 E3].
    destruct (gb_string_byte_count _ M4) as [s4 E4].
    destruct (mapM_total (disk_entry h) (disk_partitions h)) as [disks Ed].
    { apply Forall_forall. intros p Hq. destruct (Hd p Hq) as (free & Ef & Bf).
      destruct (gb_string_byte_count _ Bf) as [s Es].
      unfold disk_entry. rewrite Ef. cbn [mbind result_bind]. rewrite Es.
      eexists. reflexivity. }
    eexists. apply collect_hardware_info_iff.
    exists s1, s2, s3, s4, disks. repeat (split; [assumption|]). reflexivity. }
  assert (P : exists v, collect_top_processes h = Ok v).
  { destruct (collect_top_processes_measured h n Mc Mm Hc Hn)
      as (? & ? & ? & ? & ? & Ep & _). eauto. }
  assert (L : exists v, analyze_logs h = Ok v).
  { eexists. apply analyze_logs_iff. split; [exact Hj | reflexivity]. }
  destruct G as [g G], E as [e E], W as [w W], P as [p P], L as [l L].
  assert (A : exists doc, collect_all h = Ok doc).
  { unfold collect_all. rewrite G, E, W, P, L. eexists. reflexivity. }
  destruct A as [doc A]. destruct (main_after_collect h doc A) as (html & _ & R).
  exists html. rewrite R, Hw, Hp. reflexivity.
Qed.

Section ReadingAlong.
Import Html Pieces Reading.

Lemma vstep_view (st : lexer) (c : ascii) :
  view_of <$> step st c = vstep (view_of st) c.
Proof.
  unfold step, vstep, view_of. cbn [v_in_tag v_acc].
  destruct (in_tag st); destruct (Ascii.eqb c ">"), (Ascii.eqb c "<"); reflexivity.
Qed.

Lemma vfeed_view (st : lexer) (s : string) :
  view_of <$> feed st s = vfeed (view_of st) s.
Proof.
  revert st. induction s as [|c s IH]; intros st; [reflexivity|].
  cbn [feed vfeed]. rewrite <- vstep_view.
  destruct (step st c) as [st'|]; [apply IH | reflexivity].
Qed.

Lemma vfeed_atom_view (o : option lexer) (a : atom) :
  view_of <$> feed_atom o a = vfeed_atom (view_of <$> o) a.
Proof.
  destruct o as [st|]; [|reflexivity]. destruct a as [s|x]; cbn [feed_atom vfeed_atom fmap option_fmap option_map].
  - apply vfeed_view.
  - unfold view_of at 2. cbn [v_in_tag]. destruct (in_tag st) eqn:E; [reflexivity|].
    cbn. unfold more, view_of. cbn. rewrite E. reflexivity.
Qed.

Lemma foldl_view {A : Type} (f : option lexer -> A -> option lexer)
    (g : option view -> A -> option view) (l : list A) :
  (forall o a, view_of <$> f o a = g (view_of <$> o) a) ->
  forall o, view_of <$> foldl f o l = foldl g (view_of <$> o) l.
Proof.
  intros H. induction l as [|a l IH]; intros o; [reflexivity|].
  cbn [foldl]. rewrite IH, H. reflexivity.
Qed.

Lemma vfeed_atoms_view (o : option lexer) (l : list atom) :
  view_of <$> feed_atoms o l = vfeed_atoms (view_of <$> o) l.
Proof. apply foldl_view, vfeed_atom_view. Qed.

Lemma vfeed_piece_view (o : option lexer) (p : piece) :
  view_of <$> feed_piece o p = vfeed_piece (view_of <$> o) p.
Proof.
  destruct p as [a|rs]; [apply vfeed_atom_view|]. apply foldl_view, vfeed_atoms_view.
Qed.

Lemma vfeed_pieces_view (o : option lexer) (ps : list piece) :
  view_of <$> feed_pieces o ps = vfeed_pieces (view_of <$> o) ps.
Proof. apply foldl_view, vfeed_piece_view. Qed.

Lemma foldl_rev_foldr {A B : Type} (f : B -> A -> B) (b : B) (l : list A) :
  foldl f b (rev l) = foldr (fun a x => f x a) b l.
Proof.
  induction l as [|a l IH]; [reflexivity|].
  cbn [rev foldr]. rewrite foldl_app, IH. reflexivity.
Qed.

Lemma bal_step_None (ts : list token) : foldl bal_step None ts = None.
Proof. induction ts as [|t ts IH]; [reflexivity | exact IH]. Qed.

Lemma balanced_from_steps (open : list string) (ts : list token) :
  balanced_from open ts
  = match foldl bal_step (Some open) ts with Some [] => true | _ => false end.
Proof.
  revert open. induction ts as [|t ts IH]; intros open; [destruct open; reflexivity|].
  cbn [foldl balanced_from]. destruct t as [s|n|n|s]; cbn [bal_step]; try apply IH.
  destruct open as [|m open]; [rewrite bal_step_None; reflexivity|].
  destruct (String.eqb n m); cbn [andb]; [apply IH | rewrite bal_step_None; reflexivity].
Qed.

Lemma fold_classify {B : Type} (f : B -> token -> B) (b : B) (l : list raw) :
  foldr (fun a x => f x a) b (classify <$> l) = foldr (fun r x => f x (classify r)) b l.
Proof. induction l as [|r l IH]; [reflexivity|]. cbn. rewrite IH. reflexivity. Qed.

Lemma rev_fmap {A B : Type} (f : A -> B) (l : list A) : rev (f <$> l) = f <$> rev l.
Proof.
  induction l as [|a l IH]; [reflexivity|]. cbn [rev fmap list_fmap].
  change (rev (f <$> l) ++ [f a] = f <$> (rev l ++ [a])).
  rewrite fmap_app, IH. reflexivity.
Qed.

(** What the reader and the stack make of the tokens of a lexed document. *)
Lemma tokens_read (l : list raw) :
  balanced (classify <$> rev l) = match stack_of l with Some [] => true | _ => false end
  /\ data_rows (classify <$> rev l) = tables (reader_of l).
Proof.
  unfold balanced, data_rows, stack_of, reader_of. rewrite balanced_from_steps.
  rewrite <- !rev_fmap, !foldl_rev_foldr, !fold_classify. split; reflexivity.
Qed.

(** A document read along with its lexing: when the view at its end shows
    an empty stack, the document is well formed, and its tables are the
    ones of the view. *)
Lemma document_read (ps : list piece) (st : lexer) (v : view) :
  Forall piece_plain ps ->
  feed_pieces (Some start) ps = Some st ->
  vfinish (view_of st) = Some v ->
  exists ts, tokens (pieces_str ps) = Some ts
    /\ balanced ts = match v_stack v with Some [] => true | _ => false end
    /\ data_rows ts = tables (v_reader v).
Proof.
  intros Hp Hf Hv. unfold tokens. rewrite (lex_pieces ps st Hp Hf).
  unfold vfinish, finish in *. unfold view_of in Hv at 1. cbn [v_in_tag] in Hv.
  destruct (in_tag st); [discriminate|]. injection Hv as <-.
  eexists. split; [reflexivity|]. apply (tokens_read (flush st)).
Qed.

Lemma row_read (a : string) (T : list (list (list string))) (rs : list (list string))
    (open : list string) (r : row) :
  vfeed_atoms
    (Some {| v_in_tag := false; v_acc := a;
             v_reader := {| tables := T; rows := Some rs; cells := None; cell := None |};
             v_stack := Some open |}) (row_atoms r)
  = Some {| v_in_tag := false; v_acc := "";
            v_reader := {| tables := T; rows := Some (rs ++ [row_cells r]); cells := None;
                           cell := None |};
            v_stack := Some open |}.
Proof. destruct r; vm_compute; reflexivity. Qed.

Lemma rows_step_sound (o : option view) (body : list row) (v' : view) :
  rows_step o body = Some v' -> foldl vfeed_atoms o (row_atoms <$> body) = Some v'.
Proof.
  destruct o as [[[] a [T [rs|] [cs|] [c|]] [open|]]|]; try discriminate.
  cbn [rows_step]. intros [= <-]. revert a rs.
  induction body as [|r t IH]; intros a rs.
  - cbn [fmap list_fmap foldl]. rewrite app_nil_r. reflexivity.
  - cbn [fmap list_fmap foldl]. rewrite row_read.
    change (foldl vfeed_atoms ?o (list_fmap _ _ row_atoms t))
      with (foldl vfeed_atoms o (row_atoms <$> t)).
    rewrite IH. rewrite <- app_assoc. cbn [app]. destruct t; reflexivity.
Qed.

Lemma read_pieces_None (ps : list piece) (bodies : list (list row)) :
  read_pieces None ps bodies = None.
Proof.
  revert bodies. induction ps as [|[a|rs] ps IH]; intros bodies; [reflexivity|apply IH|].
  cbn [read_pieces]. destruct bodies; [reflexivity | apply IH].
Qed.

(** Taking the bodies of rows in one step reads what reading them atom by
    atom reads. *)
Lemma read_pieces_sound (ps : list piece) (bodies : list (list row)) (o : option view)
    (v' : view) :
  bodies_of ps bodies -> read_pieces o ps bodies = Some v' -> vfeed_pieces o ps = Some v'.
Proof.
  revert o bodies. induction ps as [|[a|rs] ps IH]; intros o bodies Hb H.
  - exact H.
  - cbn [vfeed_pieces foldl vfeed_piece]. apply (IH _ bodies Hb H).
  - destruct bodies as [|body bodies]; [destruct Hb|]. destruct Hb as [-> Hb].
    cbn [read_pieces] in H. cbn [vfeed_pieces foldl vfeed_piece].
    destruct (rows_step o body) as [v1|] eqn:E.
    + rewrite (rows_step_sound _ _ _ E). apply (IH _ bodies Hb H).
    + rewrite read_pieces_None in H. discriminate.
Qed.

Lemma row_atoms_plain (body : list row) :
  Forall row_plain body -> Forall (Forall atom_plain) (row_atoms <$> body).
Proof.
  intros H. apply Forall_fmap. apply (Forall_impl _ _ _ H).
  intros [a b c d|a b c]; cbn [row_plain row_atoms].
  - intros (? & ? & ? & ?). repeat constructor; assumption.
  - intros (? & ? & ?). repeat constructor; assumption.
Qed.

(** A document whose reading with its bodies of rows ends with an empty
    stack is well formed, and its tables are the ones read. *)
Lemma document_read_rows (ps : list piece) (bodies : list (list row)) (v' vf : view) :
  Forall piece_plain ps -> bodies_of ps bodies ->
  read_pieces (Some (view_of start)) ps bodies = Some v' ->
  vfinish v' = Some vf ->
  exists ts, tokens (pieces_str ps) = Some ts
    /\ balanced ts = match v_stack vf with Some [] => true | _ => false end
    /\ data_rows ts = tables (v_reader vf).
Proof.
  intros Hp Hb Hr Hf. apply (read_pieces_sound _ _ _ _ Hb) in Hr.
  change (Some (view_of start)) with (view_of <$> Some start) in Hr.
  rewrite <- vfeed_pieces_view in Hr.
  destruct (feed_pieces (Some start) ps) as [st|] eqn:E; [|discriminate].
  injection Hr as <-. apply (document_read ps st vf Hp E Hf).
Qed.

End ReadingAlong.

Section RowsOfEntries.
Import Reading.

Lemma mapM_rows (render : pyval -> result string) (l : list pyval) (body : list row) :
  Forall2 (fun v r => render v = Ok (Pieces.atoms_str (row_atoms r))) l body ->
  rows_html render (VList l) = Ok (join_all (Pieces.atoms_str <$> (row_atoms <$> body))).
Proof.
  intros H. unfold rows_html. cbn [py_iter mbind result_bind].
  assert (E : mapM render l = Ok (Pieces.atoms_str <$> (row_atoms <$> body))).
  { induction H as [|v r l body Hv _ IH]; [reflexivity|].
    cbn [mapM]. rewrite Hv, IH. reflexivity. }
  rewrite E. reflexivity.
Qed.

Lemma disk_rows_of (disks : list pyval) (dvs : list (list string)) :
  Forall2 (fun v dv => has_fields v [["device"]; ["mountpoint"]; ["fstype"]; ["free_space"]] dv)
    disks dvs ->
  Forall all_plain dvs ->
  exists body,
    rows_html disk_row (VList disks)
      = Ok (join_all (Pieces.atoms_str <$> (row_atoms <$> body)))
    /\ row_cells <$> body = dvs /\ Forall row_plain body.
Proof.
  intros H P.
  assert (exists body, Forall2 (fun v r => disk_row v = Ok (Pieces.atoms_str (row_atoms r)))
                         disks body
                       /\ row_cells <$> body = dvs /\ Forall row_plain body)
    as (body & Hb & Hc & Hp).
  { induction H as [|v dv l dvs Hv _ IH]; [exists []; repeat constructor|].
    apply Forall_cons in P as [Pv P]. destruct (IH P) as (body & Hb & Hc & Hp).
    unfold has_fields in Hv. split_fields Hv.
    unfold all_plain in Pv. split_plain Pv.
    match goal with
    | |- context [[?a; ?b; ?c; ?d] :: dvs] => exists (DiskRow a b c d :: body)
    end.
    split; [|split].
    - constructor; [|exact Hb]. unfold disk_row, field.
      repeat match goal with E : fieldpath _ _ = Ok _ |- _ => rewrite E; clear E end.
      reflexivity.
    - cbn [fmap list_fmap row_cells]. f_equal. exact Hc.
    - constructor; [|exact Hp]. cbn [row_plain]. auto. }
  exists body. split; [apply mapM_rows, Hb | auto].
Qed.

Lemma process_rows_of (metric : string) (procs : list pyval) (pvs : list (list string)) :
  Forall2 (fun v pv => has_fields v [["pid"]; ["name"]; [metric]] pv) procs pvs ->
  Forall all_plain pvs ->
  exists body,
    rows_html (process_row metric) (VList procs)
      = Ok (join_all (Pieces.atoms_str <$> (row_atoms <$> body)))
    /\ row_cells <$> body = with_percent <$> pvs /\ Forall row_plain body.
Proof.
  intros H P.
  assert (exists body,
            Forall2 (fun v r => process_row metric v = Ok (Pieces.atoms_str (row_atoms r)))
              procs body
            /\ row_cells <$> body = with_percent <$> pvs /\ Forall row_plain body)
    as (body & Hb & Hc & Hp).
  { induction H as [|v pv l pvs Hv _ IH]; [exists []; repeat constructor|].
    apply Forall_cons in P as [Pv P]. destruct (IH P) as (body & Hb & Hc & Hp).
    unfold has_fields in Hv. split_fields Hv.
    unfold all_plain in Pv. split_plain Pv.
    match goal with
    | |- context [[?a; ?b; ?c] :: pvs] => exists (ProcessRow a b c :: body)
    end.
    split; [|split].
    - constructor; [|exact Hb]. unfold process_row, field.
      repeat match goal with E : fieldpath _ _ = Ok _ |- _ => rewrite E; clear E end.
      reflexivity.
    - cbn [fmap list_fmap row_cells with_percent]. f_equal. exact Hc.
    - constructor; [|exact Hp]. cbn [row_plain]. auto. }
  exists body. split; [apply mapM_rows, Hb | auto].
Qed.

End RowsOfEntries.

(** The report of a document whose three bodies of rows are [db], [cb]
    and [mb]: it reads as tags and text, every tag closed in order, and its
    seven tables hold the rows of the document. *)
Lemma report_read (data : pyval) (disks cpu memory : pyval) (values : list string)
    (db cb mb : list Reading.row) :
  getpath data ["hardware"; "disks"] = Ok disks ->
  getpath data ["processes"; "cpu"] = Ok cpu ->
  getpath data ["processes"; "memory"] = Ok memory ->
  rows_html disk_row disks
    = Ok (join_all (Pieces.atoms_str <$> (Reading.row_atoms <$> db))) ->
  rows_html (process_row "cpu") cpu
    = Ok (join_all (Pieces.atoms_str <$> (Reading.row_atoms <$> cb))) ->
  rows_html (process_row "memory") memory
    = Ok (join_all (Pieces.atoms_str <$> (Reading.row_atoms <$> mb))) ->
  has_fields data report_fields values -> all_plain values ->
  Forall Reading.row_plain db -> Forall Reading.row_plain cb -> Forall Reading.row_plain mb ->
  exists html ts,
    generate_html_report data = Ok html
    /\ Html.tokens html = Some ts
    /\ Html.balanced ts = true
    /\ length (Html.data_rows ts) = 7%nat
    /\ Html.data_rows ts !! 3%nat = Some (Reading.row_cells <$> db)
    /\ Html.data_rows ts !! 4%nat = Some (Reading.row_cells <$> cb)
    /\ Html.data_rows ts !! 5%nat = Some (Reading.row_cells <$> mb).
Proof.
  intros Hd Hc Hm Rd Rc Rm Hv Pv Bd Bc Bm.
  unfold has_fields in Hv. split_fields Hv.
  unfold all_plain in Pv. split_plain Pv.
  unfold generate_html_report.
  rewrite Hd, Hc, Hm. cbn [mbind result_bind]. rewrite Rd, Rc, Rm.
  repeat match goal with E : fieldpath _ _ = Ok _ |- _ => rewrite E; clear E end.
  cbn [mbind result_bind].
  rewrite report_pieces_str.
  match goal with
  | |- context [Pieces.pieces_str ?ps] =>
      destruct (document_read_rows ps [db; cb; mb]
                  ltac:(let v := eval vm_compute in
                          (default (Reading.view_of Html.start)
                             (Reading.read_pieces (Some (Reading.view_of Html.start)) ps
                                [db; cb; mb])) in exact v)
                  ltac:(let v := eval vm_compute in
                          (default (Reading.view_of Html.start)
                             (Reading.read_pieces (Some (Reading.view_of Html.start)) ps
                                [db; cb; mb] ≫= Reading.vfinish)) in exact v))
        as (ts & Ht & Hb & Hr)
  end.
  - repeat (constructor; [first [exact I | assumption | apply row_atoms_plain; assumption]|]).
    constructor.
  - cbn [Reading.bodies_of report_pieces]. repeat split.
  - vm_compute. reflexivity.
  - vm_compute. reflexivity.
  - eexists _, ts. split; [reflexivity|]. split; [exact Ht|].
    split; [exact Hb|]. rewrite Hr. repeat split.
Qed.

(** X15 (generate_html_report, any number of rows): for every document
    whose scalar fields resolve, with any number of disk entries, top-CPU
    entries and top-memory entries that have their fields, no interpolated
    value holding a "<", the renderer returns a document that reads as tags
    and text with every tag closed in order; it has seven tables, and the
    fourth, fifth and sixth hold one data row per entry, in the order of the
    entries, with the entry's values as cells (a percent sign after the
    value of a process). *)
Theorem report_rows (data : pyval) (disks cpu memory : list pyval) (values : list string)
    (dvs cvs mvs : list (list string)) :
  getpath data ["hardware"; "disks"] = Ok (VList disks) ->
  getpath data ["processes"; "cpu"] = Ok (VList cpu) ->
  getpath data ["processes"; "memory"] = Ok (VList memory) ->
  has_fields data report_fields values ->
  Forall2 (fun v dv => has_fields v [["device"]; ["mountpoint"]; ["fstype"]; ["free_space"]] dv)
    disks dvs ->
  Forall2 (fun v cv => has_fields v [["pid"]; ["name"]; ["cpu"]] cv) cpu cvs ->
  Forall2 (fun v mv => has_fields v [["pid"]; ["name"]; ["memory"]] mv) memory mvs ->
  all_plain values -> Forall all_plain dvs -> Forall all_plain cvs -> Forall all_plain mvs ->
  exists html ts,
    generate_html_report data = Ok html
    /\ Html.tokens html = Some ts
    /\ Html.balanced ts = true
    /\ length (Html.data_rows ts) = 7%nat
    /\ Html.data_rows ts !! 3%nat = Some dvs
    /\ Html.data_rows ts !! 4%nat = Some (with_percent <$> cvs)
    /\ Html.data_rows ts !! 5%nat = Some (with_percent <$> mvs).
Proof.
  intros Hd Hc Hm Hv Hdv Hcv Hmv Pv Pd Pc Pm.
  destruct (disk_rows_of disks dvs Hdv Pd) as (db & Rd & <- & Bd).
  destruct (process_rows_of "cpu" cpu cvs Hcv Pc) as (cb & Rc & <- & Bc).
  destruct (process_rows_of "memory" memory mvs Hmv Pm) as (mb & Rm & <- & Bm).
  apply (report_read data (VList disks) (VList cpu) (VList memory) values db cb mb);
    assumption.
Qed.

(** ** Texts without a "<" *)

Section PlainTexts.
Import Pieces.

Lemma plain_app (a b : string) : plain (a +:+ b) = plain a && plain b.
Proof.
  induction a as [|c a IH]; [reflexivity|]. rewrite append_cons. cbn [plain].
  rewrite IH. apply andb_assoc.
Qed.

Lemma plain_zeros (k : nat) : plain (PyRepr.zeros k) = true.
Proof. induction k as [|k IH]; [reflexivity | exact IH]. Qed.

Lemma plain_digit (x : N) : negb (Ascii.eqb (pretty_N_char x) "<") = true.
Proof. unfold pretty_N_char. repeat case_match; reflexivity. Qed.

Lemma plain_pretty_N_go (x : N) (s : string) :
  plain s = true -> plain (pretty_N_go x s) = true.
Proof.
  revert s. induction (N.lt_wf_0 x) as [x _ IH]. intros s Hs.
  destruct (decide (x = 0)%N) as [->|Hx]; [rewrite pretty_N_go_0; exact Hs|].
  rewrite pretty_N_go_step by lia. apply IH.
  - apply N.div_lt; lia.
  - cbn [plain]. rewrite plain_digit. exact Hs.
Qed.

Lemma plain_pretty_N (x : N) : plain (pretty x) = true.
Proof.
  unfold pretty, pretty_N. destruct (decide (x = 0)%N); [reflexivity|].
  apply plain_pretty_N_go. reflexivity.
Qed.

Lemma plain_pretty (z : Z) : plain (pretty z) = true.
Proof.
  destruct z as [|p|p]; [reflexivity|apply (plain_pretty_N (Npos p))|].
  unfold pretty, pretty_Z. rewrite plain_app. apply (plain_pretty_N (Npos p)).
Qed.

Lemma plain_zfill (w : nat) (z : Z) : plain (PyFormat.zfill w z) = true.
Proof.
  unfold PyFormat.zfill. cbv zeta. rewrite plain_app, plain_zeros, plain_pretty. reflexivity.
Qed.

Lemma plain_substring (n m : nat) (s : string) :
  plain s = true -> plain (String.substring n m s) = true.
Proof.
  revert n m. induction s as [|c s IH]; intros n m H; [destruct n, m; reflexivity|].
  cbn [plain] in H. apply andb_true_iff in H as [Hc Hs].
  destruct n as [|n]; cbn [String.substring].
  - destruct m as [|m]; [reflexivity|]. cbn [plain]. rewrite Hc. apply IH, Hs.
  - apply IH, Hs.
Qed.

Lemma plain_strftime (sep : string) (t : datetime) :
  plain sep = true -> plain (PyDate.strftime sep t) = true.
Proof.
  intros H. unfold PyDate.strftime. rewrite !plain_app, !plain_zfill, plain_pretty, H.
  reflexivity.
Qed.

Lemma plain_timedelta_str (d s u : Z) : plain (PyFormat.timedelta_str d s u) = true.
Proof.
  unfold PyFormat.timedelta_str. cbv zeta.
  destruct (d =? 0), (u =? 0), (Z.abs d =? 1);
    rewrite ?plain_app, ?plain_zfill, ?plain_pretty; reflexivity.
Qed.

Lemma plain_format_2f (x : pyfloat) : plain (PyFormat.format_2f x) = true.
Proof.
  unfold PyFormat.format_2f. destruct x as [|[]|[]|[] m e];
    rewrite ?plain_app, ?plain_zfill, ?plain_pretty; reflexivity.
Qed.

Lemma plain_layout (ds : string) (dp : Z) :
  plain ds = true -> plain (PyRepr.layout ds dp) = true.
Proof.
  intros H. unfold PyRepr.layout, PyRepr.take_str, PyRepr.drop_str. cbv zeta.
  repeat match goal with
         | |- context [if ?b then _ else _] => destruct b
         end;
    rewrite ?plain_app, ?plain_zeros, ?plain_pretty, ?plain_substring, ?H by exact H;
    reflexivity.
Qed.

Lemma plain_repr (x : pyfloat) : plain (PyRepr.repr x) = true.
Proof.
  destruct x as [|[]|[]|s m e]; try reflexivity. unfold PyRepr.repr, PyRepr.repr_pos.
  cbv zeta. destruct (PyRepr.shortest_from _ _ _ _ _ _) as [c0 sc0].
  destruct (PyRepr.strip10 _ _ _) as [c sc].
  rewrite plain_app, plain_layout by apply plain_pretty. destruct s; reflexivity.
Qed.

(** [str] of a value that is no string of the host holds no "<". *)
Lemma plain_fmt (v : pyval) (s : string) :
  PyFormat.fmt v = Ok s -> (forall x, v = VStr x -> plain x = true) -> plain s = true.
Proof.
  unfold PyFormat.fmt. destruct v as [|[]|z|f|x|d se u|l|d]; cbn [PyFormat.py_str];
    try discriminate; intros [= <-] H; try reflexivity.
  - apply plain_pretty.
  - apply plain_repr.
  - apply H. reflexivity.
  - apply plain_timedelta_str.
Qed.

Lemma plain_tail (c : ascii) (s : string) : plain (String c s) = true -> plain s = true.
Proof. cbn [plain]. intros H. apply andb_true_iff in H as [_ H]. exact H. Qed.

Lemma plain_lstrip (s : string) : plain s = true -> plain (PyStr.lstrip s) = true.
Proof.
  remember (String.length s) as n eqn:Hn. revert s Hn.
  induction n as [n IH] using lt_wf_ind. intros s Hn H.
  destruct s as [|c [|d [|e t]]].
  - reflexivity.
  - rewrite lstrip_1. destruct (PyStr.is_space c); [reflexivity | exact H].
  - rewrite lstrip_2. destruct (PyStr.is_space c).
    + refine (IH _ _ (String d "") eq_refl _); [subst n; cbn; lia|].
      eapply plain_tail, H.
    + destruct (PyStr.is_space2 c d); [reflexivity | exact H].
  - rewrite lstrip_3. destruct (PyStr.is_space c).
    + refine (IH _ _ (String d (String e t)) eq_refl _); [subst n; cbn; lia|].
      eapply plain_tail, H.
    + destruct (PyStr.is_space2 c d).
      * refine (IH _ _ (String e t) eq_refl _); [subst n; cbn; lia|].
        eapply plain_tail, plain_tail, H.
      * destruct (PyStr.is_space3 c d e); [|exact H].
        refine (IH _ _ t eq_refl _); [subst n; cbn; lia|].
        eapply plain_tail, plain_tail, plain_tail, H.
Qed.

Lemma plain_rstrip (s : string) : plain s = true -> plain (PyStr.rstrip s) = true.
Proof.
  induction s as [|c s IH]; [reflexivity|]. intros H. cbn [PyStr.rstrip].
  destruct (PyStr.lstrip (String c s)); [reflexivity|].
  cbn [plain] in H. apply andb_true_iff in H as [Hc H]. specialize (IH H).
  cbn [plain]. rewrite Hc. exact IH.
Qed.

Lemma plain_strip (s : string) : plain s = true -> plain (PyStr.strip s) = true.
Proof. intros H. apply plain_rstrip, plain_lstrip, H. Qed.

Lemma plain_str_or (s d : string) :
  plain s = true -> plain d = true -> plain (str_or s d) = true.
Proof. intros Hs Hd. destruct s; assumption. Qed.

Lemma plain_gb_string (b : pyval) (s : string) : gb_string b = Ok s -> plain s = true.
Proof.
  intros H. apply gb_string_Ok in H as (q & r & t & Hq & Hr & Ht & ->).
  apply truediv_float in Hq as [f ->]. cbn in Hr. injection Hr as <-.
  rewrite plain_app. rewrite (plain_fmt _ _ Ht) by discriminate. reflexivity.
Qed.

End PlainTexts.

(** ** The rows of a run *)

Section RowsOfRun.
Import Pieces.

Lemma disk_entries_rows (h : host) (ps : list partition) (l : list pyval) :
  mapM (disk_entry h) ps = Ok l ->
  Forall (fun p => plain (device p) = true /\ plain (mountpoint p) = true
                   /\ plain (fstype p) = true) ps ->
  exists dvs,
    Forall2 (fun v dv =>
               has_fields v [["device"]; ["mountpoint"]; ["fstype"]; ["free_space"]] dv) l dvs
    /\ Forall all_plain dvs
    /\ Forall2 (disk_row_of h) ps dvs.
Proof.
  revert l. induction ps as [|p ps IH]; intros l H P.
  - injection H as <-. exists []. repeat constructor.
  - cbn [mapM] in H. apply Forall_cons in P as [(Pd & Pm & Pf) P].
    destruct (disk_entry h p) as [v|] eqn:E; [|discriminate]. cbn [mbind result_bind] in H.
    destruct (mapM (disk_entry h) ps) as [l'|] eqn:M; [|discriminate]. injection H as <-.
    destruct (IH l' eq_refl P) as (dvs & Hf & Hp & Hr).
    unfold disk_entry in E.
    destruct (disk_usage_free h (mountpoint p)) as [free|] eqn:F; [|discriminate].
    cbn [mbind result_bind] in E.
    destruct (gb_string free) as [s|] eqn:G; [|discriminate]. injection E as <-.
    exists ([device p; mountpoint p; fstype p; s] :: dvs). split; [|split].
    + constructor; [|exact Hf]. repeat constructor.
    + constructor; [|exact Hp].
      repeat constructor; try assumption. apply (plain_gb_string _ _ G).
    + constructor; [|exact Hr]. exists s. split; [reflexivity|].
      rewrite F. exact G.
Qed.

Lemma process_entries_rows (metric : string) (value : proc_info -> result pyval)
    (entry : proc_info -> result pyval) (ps : list proc_info) (l : list pyval) :
  (forall p, entry p = (x ← value p;
                        Ok (VDict {[ "pid" := info_get VInt (pid p) VNone;
                                     "name" := info_get VStr (name p) (VStr "Unknown");
                                     metric := x ]}))) ->
  metric <> "pid" -> metric <> "name" ->
  mapM entry ps = Ok l ->
  Forall (fun p => forall x, value p = Ok x -> exists f, x = VFloat f) ps ->
  Forall (fun p => forall n, name p = Has n -> plain n = true) ps ->
  exists pvs,
    Forall2 (fun v pv => has_fields v [["pid"]; ["name"]; [metric]] pv) l pvs
    /\ Forall all_plain pvs
    /\ Forall2 (fun p cells => exists f, value p = Ok (VFloat f) /\ process_row_of f p cells)
         ps (with_percent <$> pvs).
Proof.
  intros He Np Nn. revert l. induction ps as [|p ps IH]; intros l H F P.
  - injection H as <-. exists []. repeat constructor.
  - cbn [mapM] in H. apply Forall_cons in P as [Pn P]. apply Forall_cons in F as [Fp F].
    destruct (entry p) as [v|] eqn:E; [|discriminate]. cbn [mbind result_bind] in H.
    destruct (mapM entry ps) as [l'|] eqn:M; [|discriminate]. injection H as <-.
    destruct (IH l' eq_refl F P) as (pvs & Hf & Hp & Hr).
    rewrite He in E. destruct (value p) as [x|] eqn:V; [|discriminate].
    cbn [mbind result_bind] in E. injection E as <-.
    destruct (Fp x eq_refl) as [f ->].
    destruct (fmt_info_pid (pid p)) as [pid_text Hpid].
    destruct (fmt_info_name (name p)) as [name_text Hname].
    exists ([pid_text; name_text; PyRepr.repr f] :: pvs). split; [|split].
    + constructor; [|exact Hf]. unfold has_fields.
      constructor; [eapply field_lookup; [|exact Hpid]|].
      { rewrite lookup_insert_eq. reflexivity. }
      constructor; [eapply field_lookup; [|exact Hname]|].
      { rewrite lookup_insert_ne by discriminate. rewrite lookup_insert_eq. reflexivity. }
      constructor; [apply field_lookup with (x := VFloat f); [|reflexivity]|constructor].
      rewrite lookup_insert_ne by congruence. rewrite lookup_insert_ne by congruence.
      apply lookup_singleton_eq.
    + constructor; [|exact Hp]. repeat constructor.
      * apply (plain_fmt _ _ Hpid). destruct (pid p); discriminate.
      * destruct (name p) as [| |n] eqn:En; cbn in Hname; injection Hname as <-;
          [reflexivity | reflexivity | apply Pn; reflexivity].
      * apply plain_repr.
    + cbn [fmap list_fmap with_percent]. constructor; [|exact Hr].
      exists f. split; [exact V|]. exists pid_text, name_text.
      split; [reflexivity|]. unfold PyFormat.fmt in Hpid, Hname.
      destruct (PyFormat.py_str (info_get VInt (pid p) VNone)); [|discriminate].
      destruct (PyFormat.py_str (info_get VStr (name p) (VStr "Unknown"))); [|discriminate].
      injection Hpid as ->. injection Hname as ->. split; reflexivity.
Qed.

(** A float divided by the count of logical cores. *)
Lemma truediv_cores (x f : pyfloat) (cores : option Z) :
  PyNum.truediv (VFloat x) (int_or_none cores) = Ok (VFloat f) ->
  exists n y, cores = Some n /\ PyNum.of_int n = Ok y /\ f = PyFloat.fdiv_ieee x y.
Proof.
  destruct cores as [n|]; [|discriminate]. unfold PyNum.truediv.
  cbn [int_or_none PyNum.as_num PyNum.to_float mbind result_bind].
  destruct (PyNum.of_int n) as [y|] eqn:E; [|discriminate]. cbn [mbind result_bind].
  unfold PyNum.float_truediv. destruct y; cbn; try discriminate;
    intros [= <-]; eexists _, _; (split; [reflexivity|]); (split; [exact E | reflexivity]).
Qed.

Lemma Forall2_impl_elem {A B : Type} (R R' : A -> B -> Prop) (l : list A) (k : list B) :
  Forall2 R l k -> (forall x y, x ∈ l -> R x y -> R' x y) -> Forall2 R' l k.
Proof.
  induction 1 as [|x y l k Hxy _ IH]; intros H; constructor.
  - apply H; [left | exact Hxy].
  - apply IH. intros a b Ha. apply H. right. exact Ha.
Qed.

End RowsOfRun.

(** X16 (main, the report as a document): on a host none of whose texts
    holds a "<" and whose process tables [psutil] measured, the report
    [main] writes reads as tags and text with every tag closed in order; it
    has seven tables; the disk table has one row per partition, in the
    order of the partition table, with the device, the mount point, the
    file system and the free space in GB; the CPU table has one row for
    each process at places 2 to 6 of the table in descending order of the
    CPU percentage, and the memory table one for each of the first 5 in
    descending order of the memory percentage, with the pid, the name
    ("None" where [psutil] could not read it) and the value followed by a
    percent sign. *)
Theorem main_report_well_formed (h : host) (file html : string) :
  main h = Ok (file, html) -> plain_host h ->
  Ranking.measured cpu_percent (process_iter_cpu h) ->
  Ranking.measured memory_percent (process_iter_memory h) ->
  exists ts disk_rows cpu_rows memory_rows by_cpu by_memory,
    Html.tokens html = Some ts
    /\ Html.balanced ts = true
    /\ length (Html.data_rows ts) = 7%nat
    /\ Html.data_rows ts !! 3%nat = Some disk_rows
    /\ Forall2 (disk_row_of h) (disk_partitions h) disk_rows
    /\ by_cpu ≡ₚ process_iter_cpu h
    /\ StronglySorted (Ranking.before cpu_percent) by_cpu
    /\ Html.data_rows ts !! 4%nat = Some cpu_rows
    /\ Forall2 (cpu_row_of h) (take 5 (drop 1 by_cpu)) cpu_rows
    /\ by_memory ≡ₚ process_iter_memory h
    /\ StronglySorted (Ranking.before memory_percent) by_memory
    /\ Html.data_rows ts !! 5%nat = Some memory_rows
    /\ Forall2 memory_row_of (take 5 by_memory) memory_rows.
Proof.
  intros H (Pn & Pu & Ps & Pr & Pe & Psh & Px & Pp & Pl & Pd & Pc & Pm) Mc Mm.
  apply main_Ok in H as (doc & A & G & _).
  destruct (collect_all_fields h doc A)
    as (user & uptime & cores & threads & total & used & swap_total & swap_used & euid
        & a & b & c & disks & cpu & memory & Hu & _ & Hup & Hco & Hth & T1 & T2 & T3 & T4
        & _ & _ & _ & Hd & (top_cpu & Tc & Hc) & (top_memory & Tm & Hm) & Gd & Gc & Gm & Hv).
  destruct (ranking_measured _ _ Mc) as (by_cpu & Ec' & Pcp & Scp).
  destruct (ranking_measured _ _ Mm) as (by_memory & Em' & Pmp & Smp).
  unfold top_cpu_processes in Tc. rewrite Ec' in Tc. injection Tc as <-.
  unfold top_memory_processes in Tm. rewrite Em' in Tm. injection Tm as <-.
  assert (Ic : forall p, p ∈ take 5 (drop 1 by_cpu) -> p ∈ process_iter_cpu h).
  { intros p Hp. rewrite <- Pcp. apply (elem_of_take_drop 5 1), Hp. }
  assert (Im : forall p, p ∈ take 5 by_memory -> p ∈ process_iter_memory h).
  { intros p Hp. rewrite <- Pmp. apply (elem_of_take_drop 5 0), Hp. }
  unfold Ranking.measured in Mc, Mm. rewrite Forall_forall in Mc, Mm, Pc, Pm.
  destruct (disk_entries_rows h _ _ Hd Pd) as (dvs & Fd & Ad & Rd).
  destruct (process_entries_rows "cpu"
              (fun p => PyNum.truediv (info_get VFloat (cpu_percent p) (VInt 0))
                          (int_or_none (cpu_count_logical h)))
              (cpu_entry (int_or_none (cpu_count_logical h))) _ _
              (fun p => eq_refl) ltac:(discriminate) ltac:(discriminate) Hc)
    as (cvs & Fc & Ac & Rc).
  { apply Forall_forall. intros p _ x. apply truediv_float. }
  { apply Forall_forall. intros p Hp. apply Pc, Ic, Hp. }
  destruct (process_entries_rows "memory"
              (fun p => PyNum.round_2 (info_get VFloat (memory_percent p) (VInt 0)))
              memory_entry _ _
              (fun p => eq_refl) ltac:(discriminate) ltac:(discriminate) Hm)
    as (mvs & Fm & Am & Rm).
  { apply Forall_forall. intros p Hp x. destruct (Mm p (Im p Hp)) as (y & -> & _).
    cbn. intros [= <-]. eauto. }
  { apply Forall_forall. intros p Hp. apply Pm, Im, Hp. }
  destruct (disk_rows_of disks dvs Fd Ad) as (db & Bd & Ed & Qd).
  destruct (process_rows_of "cpu" cpu cvs Fc Ac) as (cb & Bc & Ec & Qc).
  destruct (process_rows_of "memory" memory mvs Fm Am) as (mb & Bm & Em & Qm).
  destruct (report_read doc (VList disks) (VList cpu) (VList memory) _ db cb mb
              Gd Gc Gm Bd Bc Bm Hv) as (html2 & ts & G2 & Ht & Hb & Hn & H3 & H4 & H5);
    try assumption.
  { unfold all_plain. repeat (apply Forall_cons; split); try apply Forall_nil;
      try exact I; try assumption; try apply plain_pretty;
      try (eapply plain_gb_string; eassumption).
    - apply plain_strftime. reflexivity.
    - apply Pu, Hu.
    - destruct (euid =? 0); reflexivity.
    - apply (plain_fmt _ _ Hup). unfold PyDate.sub, PyFormat.timedelta. discriminate.
    - destruct (environ h !! "XDG_CURRENT_DESKTOP") as [v|] eqn:V;
        [apply (Pe _ eq_refl) | reflexivity].
    - unfold resolution_of. destruct (xrandr h) as [[|q|q] out|e] eqn:X; try reflexivity.
      apply plain_str_or; [apply plain_strip, (Px out eq_refl) | reflexivity].
    - destruct (environ h !! "SHELL") as [v|] eqn:V; [apply (Psh _ eq_refl) | reflexivity].
    - destruct (cpu_freq_max h); [|reflexivity].
      rewrite plain_app, plain_format_2f. reflexivity.
    - apply (plain_fmt _ _ Hco). destruct (cpu_count_physical h); discriminate.
    - apply (plain_fmt _ _ Hth). destruct (cpu_count_logical h); discriminate.
    - unfold gpu_of. destruct (lspci h) as [[|q|q] out|e] eqn:X; try reflexivity.
      apply plain_str_or; [apply plain_strip, (Pl out eq_refl) | reflexivity]. }
  rewrite G in G2. injection G2 as <-.
  rewrite Ed in H3. rewrite Ec in H4. rewrite Em in H5.
  exists ts, dvs, (with_percent <$> cvs), (with_percent <$> mvs), by_cpu, by_memory.
  do 8 (split; [assumption|]).
  split.
  { eapply Forall2_impl_elem; [exact Rc|]. intros p cells Hp (f & Ef & Hrow).
    destruct (Mc p (Ic p Hp)) as (x & Ex & _). rewrite Ex in Ef. cbn [info_get] in Ef.
    destruct (truediv_cores _ _ _ Ef) as (n & y & En & Ey & ->).
    exists x, n, y. repeat split; assumption. }
  do 3 (split; [assumption|]).
  eapply Forall2_impl_elem; [exact Rm|]. intros p cells Hp (f & Ef & Hrow).
  destruct (Mm p (Im p Hp)) as (x & Ex & _). rewrite Ex in Ef. cbn in Ef.
  injection Ef as <-. exists x. split; assumption.
Qed.
Lemma save_report_name_order_witness :
  (FileName.valid (now_save sample_host) /\ FileName.valid (now_save next_run_host))
  /\ String.compare (report_filename sample_host) (report_filename next_run_host)
     = FileName.compare_seconds (now_save sample_host) (now_save next_run_host)
  /\ String.length (report_filename sample_host) = 24%nat
  /\ (report_filename sample_host = report_filename next_run_host <->
      FileName.compare_seconds (now_save sample_host) (now_save next_run_host) = Eq)
  /\ (write_text sample_host (report_filename sample_host) "a" = None ->
      save_report sample_host "a" = Ok (report_filename sample_host, "a"))
  /\ (write_text next_run_host (report_filename next_run_host) "b" = None ->
      save_report next_run_host "b" = Ok (report_filename next_run_host, "b")).
Proof.
  assert (V1 : FileName.valid (now_save sample_host))
    by (repeat split; vm_compute; intros C; discriminate C).
  assert (V2 : FileName.valid (now_save next_run_host))
    by (repeat split; vm_compute; intros C; discriminate C).
  split; [split; assumption|].
  apply (save_report_name_order sample_host next_run_host "a" "b" V1 V2).
Defined.

Lemma general_uptime_exact_witness :
  exists d days seconds microseconds,
    collect_general_info sample_host = Ok (VDict d)
    /\ d !! "uptime" = Some (VTimedelta days seconds microseconds)
    /\ 0 <= seconds < 86400
    /\ 0 <= microseconds < 1000000
    /\ (days * 86400 + seconds) * 1000000 + microseconds
       = Instant.microseconds (now_uptime sample_host)
         - Instant.microseconds (boot_time sample_host)
    /\ (Instant.microseconds (boot_time sample_host)
          <= Instant.microseconds (now_uptime sample_host) <-> 0 <= days).
Proof.
  eassert (E : collect_general_info sample_host = Ok (VDict _)) by reflexivity.
  destruct (general_uptime_exact sample_host _ E) as (days & seconds & us & H).
  eexists _, days, seconds, us. split; [exact E | exact H].
Defined.

Lemma main_report_verbatim_witness :
  exists file html user,
    main sample_host = Ok (file, html)
    /\ getlogin sample_host = Ok user
    /\ Forall (fun v => PyStr.contains v html = true)
         [ PyDate.strftime ":" (now_report sample_host); node sample_host; user;
           system sample_host; release sample_host;
           default "Unknown" (environ sample_host !! "XDG_CURRENT_DESKTOP");
           default "Unknown" (environ sample_host !! "SHELL");
           processor sample_host ]
    /\ PyStr.contains "1920x1080" html = true
    /\ PyStr.contains "00:02.0 VGA compatible controller: Example" html = true.
Proof.
  eassert (E : main sample_host = Ok (_, _)) by (vm_compute; reflexivity).
  destruct (main_report_verbatim sample_host _ _ E) as (user & Hu & Hf & Hx & Hl).
  eexists _, _, user. split; [exact E|]. split; [exact Hu|]. split; [exact Hf|].
  split; [exact (Hx _ eq_refl) | exact (Hl _ eq_refl)].
Defined.

Lemma generate_html_report_missing_record_witness :
  (exists e, generate_html_report (VDict ∅) = Err e)
  /\ ("hardware" = "hardware" -> generate_html_report (VDict ∅) = Err (KeyError "hardware")).
Proof.
  apply (generate_html_report_missing_record ∅ "hardware").
  - do 2 apply list_elem_of_further. apply list_elem_of_here.
  - reflexivity.
Defined.

Lemma analyze_logs_bounds_witness :
  exists a b c,
    analyze_logs sample_host = Ok (VDict {[ "success" := VInt a; "warnings" := VInt b;
                                            "errors" := VInt c ]})
    /\ 0 <= a <= 2 /\ 0 <= b <= 2 /\ 0 <= c <= 2.
Proof.
  destruct (analyze_logs_bounds sample_host 0 _ eq_refl)
    as (a & b & c & E & Ha & Hb & Hc & _).
  exists a, b, c. split; [exact E|]. split; [exact Ha|]. split; [exact Hb | exact Hc].
Defined.

Lemma gb_string_monotone_witness :
  exists r1 r2,
    (PyNum.truediv (VInt (3 * 1024 ^ 3)) (VInt PyNum.GiB) ≫= PyNum.round_2) = Ok (VFloat r1)
    /\ (PyNum.truediv (VInt (16 * 1024 ^ 3)) (VInt PyNum.GiB) ≫= PyNum.round_2)
       = Ok (VFloat r2)
    /\ gb_string (VInt (3 * 1024 ^ 3)) = Ok (PyRepr.repr r1 +:+ " GB")
    /\ gb_string (VInt (16 * 1024 ^ 3)) = Ok (PyRepr.repr r2 +:+ " GB")
    /\ PyFloat.fleb (FZero false) r1 = true
    /\ PyFloat.fleb r1 r2 = true.
Proof.
  apply (gb_string_monotone (3 * 1024 ^ 3) (16 * 1024 ^ 3)).
  - split; apply Z.leb_le; vm_compute; reflexivity.
  - apply Z.ltb_lt. vm_compute. reflexivity.
Defined.

Lemma hardware_frequency_text_witness :
  exists d k,
    collect_hardware_info sample_host = Ok (VDict d)
    /\ getpath (VDict d) ["cpu"; "frequency"]
       = Ok (VStr (pretty (k / 100) +:+ "." +:+ PyFormat.zfill 2 (k mod 100) +:+ " MHz"))
    /\ 0 <= k
    /\ String.length (PyFormat.zfill 2 (k mod 100)) = 2%nat
    /\ (inject_Z k - (1 # 2) <= 100 * PyFloat.fval (FNum false 425 3)
        <= inject_Z k + (1 # 2))%Q.
Proof.
  eassert (E : collect_hardware_info sample_host = Ok (VDict _)) by (vm_compute; reflexivity).
  destruct (hardware_frequency_text sample_host _ E) as [_ H].
  destruct (H (FNum false 425 3) eq_refl eq_refl eq_refl) as (k & Hk).
  eexists _, k. split; [exact E | exact Hk].
Defined.

Lemma main_returns_witness :
  exists html, main sample_host = Ok (report_filename sample_host, html).
Proof.
  assert (B : forall b, (0 <=? b) && (b <? 2 ^ 1000) = true -> byte_count (VInt b)).
  { intros b H. apply andb_true_iff in H as [H1 H2].
    exists b. split; [reflexivity|]. split; [apply Z.leb_le, H1 | apply Z.ltb_lt, H2]. }
  apply (main_returns sample_host "alice" 1000 4); try reflexivity;
    try (intros e [=]; fail); try (apply B; vm_compute; reflexivity).
  - intros p _. eexists. split; [reflexivity|]. apply B. vm_compute. reflexivity.
  - repeat constructor; eexists; split; reflexivity.
  - repeat constructor; eexists; split; reflexivity.
  - split; [apply Z.leb_le | apply Z.ltb_lt]; vm_compute; reflexivity.
Defined.

Lemma report_rows_witness :
  exists html ts,
    generate_html_report rows_doc = Ok html
    /\ Html.tokens html = Some ts
    /\ Html.balanced ts = true
    /\ length (Html.data_rows ts) = 7%nat
    /\ Html.data_rows ts !! 3%nat
       = Some [["/dev/sda1"; "/"; "ext4"; "2.0 GB"]; ["/dev/sdb1"; "/home"; "ext4"; "0.12 GB"]]
    /\ Html.data_rows ts !! 4%nat = Some (with_percent <$> [])
    /\ Html.data_rows ts !! 5%nat
       = Some (with_percent <$> [["9"; "editor"; "50.0"]; ["1"; "init"; "3.0"]]).
Proof.
  eapply (report_rows rows_doc).
  1-3: vm_compute; reflexivity.
  - unfold has_fields, report_fields.
    repeat (econstructor; [vm_compute; reflexivity|]). constructor.
  - repeat (econstructor;
      [unfold has_fields; repeat (econstructor; [vm_compute; reflexivity|]); constructor|]).
    constructor.
  - constructor.
  - repeat (econstructor;
      [unfold has_fields; repeat (econstructor; [vm_compute; reflexivity|]); constructor|]).
    constructor.
  - repeat constructor.
  - repeat constructor.
  - repeat constructor.
  - repeat constructor.
Defined.

Lemma main_report_well_formed_witness :
  exists file html ts disk_rows cpu_rows memory_rows by_cpu by_memory,
    main sample_host = Ok (file, html)
    /\ Html.tokens html = Some ts
    /\ Html.balanced ts = true
    /\ length (Html.data_rows ts) = 7%nat
    /\ Html.data_rows ts !! 3%nat = Some disk_rows
    /\ Forall2 (disk_row_of sample_host) (disk_partitions sample_host) disk_rows
    /\ by_cpu ≡ₚ process_iter_cpu sample_host
    /\ StronglySorted (Ranking.before cpu_percent) by_cpu
    /\ Html.data_rows ts !! 4%nat = Some cpu_rows
    /\ Forall2 (cpu_row_of sample_host) (take 5 (drop 1 by_cpu)) cpu_rows
    /\ by_memory ≡ₚ process_iter_memory sample_host
    /\ StronglySorted (Ranking.before memory_percent) by_memory
    /\ Html.data_rows ts !! 5%nat = Some memory_rows
    /\ Forall2 memory_row_of (take 5 by_memory) memory_rows.
Proof.
  eassert (E : main sample_host = Ok (_, _)) by (vm_compute; reflexivity).
  assert (P : plain_host sample_host).
  { split; [reflexivity|]. split; [intros user [= <-]; reflexivity|].
    split; [reflexivity|]. split; [reflexivity|].
    split; [intros v [=]|].
    split; [intros v [= <-]; reflexivity|].
    split; [intros out [= <-]; reflexivity|]. split; [reflexivity|].
    split; [intros out [= <-]; reflexivity|].
    split; [repeat constructor|].
    split; repeat constructor; intros n [= <-]; reflexivity. }
  assert (Mc : Ranking.measured cpu_percent (process_iter_cpu sample_host))
    by (repeat constructor; eexists; split; reflexivity).
  assert (Mm : Ranking.measured memory_percent (process_iter_memory sample_host))
    by (repeat constructor; eexists; split; reflexivity).
  destruct (main_report_well_formed sample_host _ _ E P Mc Mm)
    as (ts & d & c & m & bc & bm & H).
  eexists _, _, ts, d, c, m, bc, bm. split; [exact E | exact H].
Defined.
